(** * Test-plan generator (generate-tests.js): shallow embedding and properties

    The generator reads two JSON documents (the feature-flag data and the
    test definitions) and writes one CSV test plan per customer.  The
    functions of the script are embedded below as Rocq functions over the
    two documents, which the script holds in the globals [flagData] and
    [testDefs] and which are explicit parameters here.

    Conventions of the embedding:
    - JS strings are [string]s (byte sequences); all tokens, separators and
      section labels of the script are ASCII.  The one place where the
      script changes the case of a character is the first character of each
      word of a category key; [Str.toUpperCase] is that change on ASCII, and
      what is proved of the labels is proved of ASCII keys.
    - A JS object used as a dictionary is a [gmap string _]; a missing key
      ([undefined]) is [None].  Arrays are lists.
    - Optional fields that the script guards with [?.], [||] or [if (x)]
      are [option]s.
    - [stepNum] is a natural number ([N]); the script's counter is a JS
      number that is exact far beyond any plan size.
    - A [TypeError] raised by the script is the result [None].
    - Keys are not names that every JS object inherits (such as
      [constructor]), for which a lookup in an object finds a value although
      the document has no such key. *)

From Stdlib Require Import Ascii String NArith Bool List Lia.
From stdpp Require Import base option list gmap strings pretty sorting.

Local Open Scope stdpp_scope.

(** ** Strings *)

Module Str.

Definition dquote : ascii := "034"%char.
Definition newline : ascii := "010"%char.
Definition cr : ascii := "013"%char.
Definition comma : ascii := ","%char.

Definition single (c : ascii) : string := String c EmptyString.

(** [s.slice(n)] for [0 <= n]. *)
Fixpoint drop (n : nat) (s : string) : string :=
  match n, s with
  | O, _ => s
  | S k, EmptyString => EmptyString
  | S k, String _ s' => drop k s'
  end.

(** [s.startsWith(tok)]. *)
Fixpoint startsWith (tok s : string) : bool :=
  match tok with
  | EmptyString => true
  | String a tok' =>
      match s with
      | EmptyString => false
      | String b s' => Ascii.eqb a b && startsWith tok' s'
      end
  end.

(** [s.includes(sub)]. *)
Fixpoint includes (sub s : string) : bool :=
  match s with
  | EmptyString => startsWith sub EmptyString
  | String _ s' => startsWith sub s || includes sub s'
  end.

(** [parts.join(sep)]. *)
Fixpoint join (sep : string) (parts : list string) : string :=
  match parts with
  | [] => EmptyString
  | [p] => p
  | p :: rest => p +:+ sep +:+ join sep rest
  end.

(** [s.split(sep)] for a one-character separator: the word being read is
    [cur], and every separator closes it. *)
Fixpoint split_go (sep : ascii) (cur s : string) : list string :=
  match s with
  | EmptyString => [cur]
  | String c s' =>
      if Ascii.eqb c sep then cur :: split_go sep EmptyString s'
      else split_go sep (cur +:+ single c) s'
  end.

Definition split (sep : ascii) (s : string) : list string :=
  split_go sep EmptyString s.

(** [c.toUpperCase()] for a character of ASCII: a lower-case letter becomes
    the upper-case one, any other character stays.  Outside ASCII the
    change of case of the script is not modelled (there it may even change
    the length of the text), and the byte is left as it is. *)
Definition toUpperCase (c : ascii) : ascii :=
  let n := nat_of_ascii c in
  if (97 <=? n)%nat && (n <=? 122)%nat then ascii_of_nat (n - 32) else c.

(** The replacement text of one match, [GetSubstitution] of ECMAScript,
    for a pattern without capture groups: [$$] is a dollar sign, [$&] the
    matched text, [$`] the text before the match, [$'] the text after it;
    any other [$] stands for itself. *)
Fixpoint getSubstitution (matched before after rep : string) : string :=
  match rep with
  | EmptyString => EmptyString
  | String c r =>
      if Ascii.eqb c "$"%char then
        match r with
        | EmptyString => single "$"%char
        | String d r' =>
            if Ascii.eqb d "$"%char then String "$"%char (getSubstitution matched before after r')
            else if Ascii.eqb d "&"%char then matched +:+ getSubstitution matched before after r'
            else if Ascii.eqb d "`"%char then before +:+ getSubstitution matched before after r'
            else if Ascii.eqb d "'"%char then after +:+ getSubstitution matched before after r'
            else String "$"%char (getSubstitution matched before after r)
        end
      else String c (getSubstitution matched before after r)
  end.

(** [s.replace(/tok/g, rep)] for a regular expression that matches the
    literal, non-empty text [tok]: the matches are found from left to
    right in the original string and do not overlap.  [before] is the
    part of the original string already read, [skip] the number of
    characters of the current match still to pass over. *)
Fixpoint replaceAll_go (tok rep before : string) (skip : nat) (s : string) : string :=
  match s with
  | EmptyString => EmptyString
  | String c s' =>
      match skip with
      | S k => replaceAll_go tok rep (before +:+ single c) k s'
      | O =>
          if startsWith tok s then
            getSubstitution tok before (drop (String.length tok) s) rep
            +:+ replaceAll_go tok rep (before +:+ single c) (String.length tok - 1) s'
          else String c (replaceAll_go tok rep (before +:+ single c) 0 s')
      end
  end.

Definition replaceAll (tok rep s : string) : string :=
  replaceAll_go tok rep EmptyString 0 s.

End Str.

(** ** JS values that reach a flag table or a CSV cell *)

Inductive jsval : Type :=
  | VUndef
  | VNull
  | VBool (b : bool)
  | VNum (n : N)
  | VStr (s : string).

Global Instance jsval_eq_dec : EqDecision jsval.
Proof. solve_decision. Defined.

(** [String(val)], also the conversion inside a template literal. *)
Definition toStr (v : jsval) : string :=
  match v with
  | VUndef => "undefined"
  | VNull => "null"
  | VBool true => "true"
  | VBool false => "false"
  | VNum n => pretty n
  | VStr s => s
  end.

(** ** CSV helpers *)

Definition csvEscape (val : jsval) : string :=
  match val with
  | VNull | VUndef => EmptyString
  | _ =>
      let s := toStr val in
      if Str.includes "," s || Str.includes (Str.single Str.dquote) s
         || Str.includes (Str.single Str.newline) s
      then Str.single Str.dquote
           +:+ Str.replaceAll (Str.single Str.dquote)
                 (String Str.dquote (Str.single Str.dquote)) s
           +:+ Str.single Str.dquote
      else s
  end.

Definition csvRow (values : list jsval) : string :=
  Str.join "," (map csvEscape values).

(** ** Data model: the two input documents *)

Module Flag.
(** [applicableProducts] is the sentinel [all] or a list of product keys. *)
Inductive products : Type :=
  | All
  | Only (keys : list string).
Record t : Type := mk {
  key : string;
  name : string;
  applicableProducts : products;
}.
End Flag.

Module Criterion.
Record t : Type := mk {
  role : option string;
  step : string;
}.
End Criterion.

Module Criteria.
(** One entry of [flagTestCriteria]; either side may be missing. *)
Record t : Type := mk {
  whenEnabled : option (list Criterion.t);
  whenDisabled : option (list Criterion.t);
}.
End Criteria.

Module Step.
Record t : Type := mk {
  role : option string;
  action : string;
  expected : string;
}.
End Step.

Module Labs.
Record t : Type := mk {
  orders : option (list string);
  results : option string;
}.
End Labs.

Module Profile.
Record t : Type := mk {
  age : jsval;
  sex : jsval;
  location : jsval;
  chiefComplaint : option string;
  diagnosis : option string;
  labs : option Labs.t;
  problemList : option string;
  medicalHistory : option string;
  antibiotics : option string;
}.
End Profile.

Module Scenario.
Record t : Type := mk {
  key : string;
  name : string;
  product : string;
  description : string;
  workflow : string;
  patientProfile : option Profile.t;
  requiredFlags : option (list string);
  setupSteps : list Step.t;
  coreTestSteps : list Step.t;
}.
End Scenario.

Module Customer.
Record t : Type := mk {
  key : string;
  name : string;
  ehr : string;
  products : list string;
}.
End Customer.

Module Product.
Record t : Type := mk {
  key : string;
  name : option string;
}.
End Product.

Module ProductConfig.
Record t : Type := mk {
  flags : gmap string jsval;
  notes : gmap string string;
}.
End ProductConfig.

Module Role.
Record t : Type := mk {
  label : option string;
}.
End Role.

Module Terms.
(** The vocabulary of one EHR vendor; a term the entry lacks is
    [undefined] in the script. *)
Record t : Type := mk {
  flowsheet : option string;
  patientList : option string;
  alertFlag : option string;
  noteType : option string;
  orderEntry : option string;
  storyboard : option string;
}.
End Terms.

(** The configuration of one customer: product key to product block. *)
Abbreviation CustomerConfig := (gmap string ProductConfig.t).

Module FlagData.
(** [flagDefinitions] is listed in the order of [Object.entries]. *)
Record t : Type := mk {
  flagDefinitions : list (string * list Flag.t);
  configurations : gmap string CustomerConfig;
  customers : list Customer.t;
  products : list Product.t;
}.
End FlagData.

Module TestDefs.
Record t : Type := mk {
  ehrTerminology : gmap string Terms.t;
  roles : gmap string Role.t;
  flagTestCriteria : gmap string Criteria.t;
  scenarios : list Scenario.t;
}.
End TestDefs.

(** [x || d] for an optional string: the empty string is falsy too. *)
Definition orElse (x : option string) (d : string) : string :=
  match x with
  | Some (String c s) => String c s
  | _ => d
  end.

(** A term used as the replacement argument of [replace]. *)
Definition termText (x : option string) : string :=
  match x with
  | Some s => s
  | None => toStr VUndef
  end.

(** An entry of a test plan before it is written: the nine cells handed to
    [csvRow], tagged with the place of the script that pushes the row.  The
    tag is not part of the output. *)
Inductive rowKind : Type :=
  | KTitle
  | KScenarioHeader
  | KPatientSetup
  | KSetupStep
  | KCoreStep
  | KFlagHeader
  | KFlagStep
  | KAbsenceHeader
  | KCategoryHeader
  | KAbsenceStep.

Global Instance rowKind_eq_dec : EqDecision rowKind.
Proof. solve_decision. Defined.

Record Row : Type := mkRow {
  kind : rowKind;
  cells : list jsval;
}.

(** An element of the [enabled] and [disabled] lists of [getFlagTests]. *)
Record FlagTest : Type := mkFlagTest {
  flag : Flag.t;
  criteria : list Criterion.t;
  category : string;
}.

Record FlagTests : Type := mkFlagTests {
  enabled : list FlagTest;
  disabled : list FlagTest;
}.

(** The two variables of [generateTestPlan] that change: the counter and
    the array of rows. *)
Record PlanState : Type := mkState {
  stepNum : N;
  rows : list Row;
}.

Definition incr (st : PlanState) : PlanState :=
  mkState (N.succ (stepNum st)) (rows st).

Definition push (r : Row) (st : PlanState) : PlanState :=
  mkState (stepNum st) (rows st ++ [r]).

(** [for (const x of xs) body], where the body may raise. *)
Fixpoint forEach {A : Type} (body : A -> PlanState -> option PlanState)
    (xs : list A) (st : PlanState) : option PlanState :=
  match xs with
  | [] => Some st
  | x :: xs' =>
      match body x st with
      | Some st' => forEach body xs' st'
      | None => None
      end
  end.

Section Generator.

Variable flagData : FlagData.t.
Variable testDefs : TestDefs.t.

(** *** EHR terminology resolver *)

Definition ehrTerms (ehr : string) : option Terms.t :=
  match TestDefs.ehrTerminology testDefs !! ehr with
  | Some terms => Some terms
  | None => TestDefs.ehrTerminology testDefs !! "Epic"
  end.

Definition applyTerms (terms : Terms.t) (text : string) : string :=
  Str.replaceAll "{storyboard}" (termText (Terms.storyboard terms))
    (Str.replaceAll "{orderEntry}" (termText (Terms.orderEntry terms))
      (Str.replaceAll "{noteType}" (termText (Terms.noteType terms))
        (Str.replaceAll "{alertFlag}" (termText (Terms.alertFlag terms))
          (Str.replaceAll "{patientList}" (termText (Terms.patientList terms))
            (Str.replaceAll "{flowsheet}" (termText (Terms.flowsheet terms)) text))))).

(** Reading a term of a missing entry raises, whatever the text. *)
Definition resolveEhrTerms (text ehr : string) : option string :=
  match ehrTerms ehr with
  | Some terms => Some (applyTerms terms text)
  | None => None
  end.

(** *** Role label resolver *)

Definition roleLabel (roleKey : option string) : jsval :=
  match roleKey with
  | None | Some EmptyString => VStr "--"
  | Some k =>
      match TestDefs.roles testDefs !! k with
      | Some role =>
          match Role.label role with
          | Some l => VStr l
          | None => VUndef
          end
      | None => VStr k
      end
  end.

(** *** Template variable resolver *)

Definition labOrdersText (profile : option Profile.t) : string :=
  match profile with
  | Some p =>
      match Profile.labs p with
      | Some l =>
          match Labs.orders l with
          | Some os => orElse (Some (Str.join ", " os)) EmptyString
          | None => EmptyString
          end
      | None => EmptyString
      end
  | None => EmptyString
  end.

Definition labResultsText (profile : option Profile.t) : string :=
  match profile with
  | Some p =>
      match Profile.labs p with
      | Some l => orElse (Labs.results l) EmptyString
      | None => EmptyString
      end
  | None => EmptyString
  end.

Definition profileField (f : Profile.t -> option string)
    (profile : option Profile.t) : string :=
  match profile with
  | Some p => orElse (f p) EmptyString
  | None => EmptyString
  end.

Definition resolveTemplateVars (text : string) (scenario : Scenario.t) : string :=
  let profile := Scenario.patientProfile scenario in
  Str.replaceAll "{antibiotics}" (profileField Profile.antibiotics profile)
    (Str.replaceAll "{medicalHistory}" (profileField Profile.medicalHistory profile)
      (Str.replaceAll "{problemList}" (profileField Profile.problemList profile)
        (Str.replaceAll "{labResults}" (labResultsText profile)
          (Str.replaceAll "{labOrders}" (labOrdersText profile)
            (Str.replaceAll "{diagnosis}" (profileField Profile.diagnosis profile)
              (Str.replaceAll "{chiefComplaint}"
                 (profileField Profile.chiefComplaint profile) text)))))).

(** *** Does a scenario apply to a customer? *)

Definition isTrue (v : option jsval) : bool :=
  match v with
  | Some (VBool true) => true
  | _ => false
  end.

Definition isFalse (v : option jsval) : bool :=
  match v with
  | Some (VBool false) => true
  | _ => false
  end.

(** The loop over [requiredFlags]: the first flag that is not [true]
    returns [false] from the function. *)
Fixpoint requiredFlagsHold (productConfig : ProductConfig.t)
    (required : list string) : bool :=
  match required with
  | [] => true
  | flagKey :: rest =>
      if isTrue (ProductConfig.flags productConfig !! flagKey)
      then requiredFlagsHold productConfig rest
      else false
  end.

(** [customerConfig?.[productKey]]. *)
Definition productBlock (customerConfig : option CustomerConfig)
    (productKey : string) : option ProductConfig.t :=
  match customerConfig with
  | Some cfg => cfg !! productKey
  | None => None
  end.

Definition scenarioApplies (scenario : Scenario.t) (customer : Customer.t)
    (customerConfig : option CustomerConfig) : bool :=
  if negb (bool_decide (Scenario.product scenario ∈ Customer.products customer))
  then false
  else
    match Scenario.requiredFlags scenario with
    | Some (f :: fs) =>
        match productBlock customerConfig (Scenario.product scenario) with
        | None => false
        | Some productConfig => requiredFlagsHold productConfig (f :: fs)
        end
    | _ => true
    end.

(** *** Flag tests of a customer and product *)

Definition flagApplies (fl : Flag.t) (productKey : string) : bool :=
  match Flag.applicableProducts fl with
  | Flag.All => true
  | Flag.Only keys => bool_decide (productKey ∈ keys)
  end.

(** The body of the inner loop of [getFlagTests] on the two arrays. *)
Definition visitFlag (productKey : string) (productConfig : ProductConfig.t)
    (catKey : string) (acc : FlagTests) (fl : Flag.t) : FlagTests :=
  if negb (flagApplies fl productKey) then acc
  else
    match TestDefs.flagTestCriteria testDefs !! Flag.key fl with
    | None => acc
    | Some testCriteria =>
        let value := ProductConfig.flags productConfig !! Flag.key fl in
        if isTrue value then
          match Criteria.whenEnabled testCriteria with
          | Some cs =>
              mkFlagTests (enabled acc ++ [mkFlagTest fl cs catKey]) (disabled acc)
          | None => acc
          end
        else if isFalse value then
          match Criteria.whenDisabled testCriteria with
          | Some cs =>
              mkFlagTests (enabled acc) (disabled acc ++ [mkFlagTest fl cs catKey])
          | None => acc
          end
        else acc
    end.

Definition visitCategory (productKey : string) (productConfig : ProductConfig.t)
    (acc : FlagTests) (entry : string * list Flag.t) : FlagTests :=
  fold_left (visitFlag productKey productConfig (fst entry)) (snd entry) acc.

Definition getFlagTests (customer : Customer.t) (productKey : string)
    (customerConfig : option CustomerConfig) : FlagTests :=
  match productBlock customerConfig productKey with
  | None => mkFlagTests [] []
  | Some productConfig =>
      fold_left (visitCategory productKey productConfig)
        (FlagData.flagDefinitions flagData) (mkFlagTests [] [])
  end.

(** *** Category label helper *)

Definition capitalize (w : string) : string :=
  match w with
  | EmptyString => EmptyString
  | String c rest => String (Str.toUpperCase c) rest
  end.

Definition categoryLabel (catKey : string) : string :=
  Str.join " " (map capitalize (Str.split "_" catKey)).

(** *** The plan of one customer *)

Definition blank : jsval := VStr EmptyString.

Definition titleRow : Row :=
  mkRow KTitle
    [VStr "Test Step #"; VStr "Section"; VStr "Scenario / Flag"; VStr "User";
     VStr "Test Step Description"; VStr "Expected Result"; VStr "Test Result";
     VStr "Pass/Fail"; VStr "Description of failure/issues"].

Definition scenarioHeaderRow (scenario : Scenario.t) : Row :=
  mkRow KScenarioHeader
    [blank; VStr "SCENARIO";
     VStr ("=== " +:+ Scenario.name scenario +:+ " ===");
     blank; VStr (Scenario.description scenario);
     VStr ("Workflow: " +:+ Scenario.workflow scenario);
     blank; blank; blank].

Definition patientText (p : Profile.t) : string :=
  "Test Patient: Age " +:+ toStr (Profile.age p) +:+ ", "
  +:+ toStr (Profile.sex p) +:+ ", " +:+ toStr (Profile.location p)
  +:+ ". Chief Complaint: " +:+ orElse (Profile.chiefComplaint p) "N/A".

Definition patientSetupRow (scenario : Scenario.t) (p : Profile.t) : Row :=
  mkRow KPatientSetup
    [blank; VStr "PATIENT SETUP"; VStr (Scenario.name scenario); blank;
     VStr (patientText p); blank; blank; blank; blank].

(** The body shared by the two step loops, which differ in the section
    label (and in the tag of the row). *)
Definition stepBody (k : rowKind) (section : string) (ehr : string)
    (scenario : Scenario.t) (step : Step.t) (st : PlanState) : option PlanState :=
  let st := incr st in
  match resolveEhrTerms (resolveTemplateVars (Step.action step) scenario) ehr with
  | None => None
  | Some action =>
      match resolveEhrTerms (resolveTemplateVars (Step.expected step) scenario) ehr with
      | None => None
      | Some expected =>
          Some (push (mkRow k
                        [VNum (stepNum st); VStr section; VStr (Scenario.name scenario);
                         roleLabel (Step.role step); VStr action; VStr expected;
                         blank; blank; blank]) st)
      end
  end.

(** The set built by the [add] calls of the relevance gate. *)
Definition relevantCategories (scenario : Scenario.t) : gset string :=
  let rc : gset string := ∅ in
  let rc :=
    if Str.includes "sepsis_ed" (Scenario.key scenario)
       || Str.includes "septic_shock" (Scenario.key scenario)
    then
      let rc := rc ∪ {["assessment_writeback"]} in
      let rc := rc ∪ {["documentation"]} in
      let rc := rc ∪ {["regulatory"]} in
      match Scenario.requiredFlags scenario with
      | Some required =>
          if bool_decide ("bundle_tracking" ∈ required)
          then rc ∪ {["bundle_manager"]} else rc
      | None => rc
      end
    else rc in
  let rc :=
    if bool_decide (Scenario.key scenario = "no_sepsis_no_infection")
    then rc ∪ {["assessment_writeback"]} ∪ {["contributing_factors"]} else rc in
  let rc :=
    if bool_decide (Scenario.key scenario = "abx_workflow")
    then rc ∪ {["suppression"]} else rc in
  let rc :=
    if bool_decide (Scenario.key scenario = "comfort_care_suppression")
    then rc ∪ {["suppression"]} else rc in
  let rc :=
    if bool_decide (Scenario.key scenario = "septic_shock_rnf_to_icu")
    then rc ∪ {["assessment_writeback"]} ∪ {["contributing_factors"]} else rc in
  rc.

(** [enabledFlags.filter((f) => relevantCategories.has(f.category))]. *)
Definition scenarioFlagTests (scenario : Scenario.t) (customer : Customer.t)
    (customerConfig : option CustomerConfig) : list FlagTest :=
  filter (fun f => category f ∈ relevantCategories scenario)
    (enabled (getFlagTests customer (Scenario.product scenario) customerConfig)).

Definition flagHeaderRow (scenario : Scenario.t) : Row :=
  mkRow KFlagHeader
    [blank; VStr "FLAG VERIFICATION"; VStr (Scenario.name scenario); blank;
     VStr "--- Feature-specific verification steps (auto-generated from enabled flags) ---";
     blank; blank; blank; blank].

Definition flagTitle (flagTest : FlagTest) : string :=
  Flag.name (flag flagTest) +:+ " [" +:+ Flag.key (flag flagTest) +:+ "]".

(** The body shared by the criterion loops of the two parts. *)
Definition criterionBody (k : rowKind) (section verdict : string) (ehr : string)
    (flagTest : FlagTest) (criterion : Criterion.t) (st : PlanState)
    : option PlanState :=
  let st := incr st in
  match resolveEhrTerms (Criterion.step criterion) ehr with
  | None => None
  | Some stepText =>
      Some (push (mkRow k
                    [VNum (stepNum st); VStr section; VStr (flagTitle flagTest);
                     roleLabel (Criterion.role criterion); VStr stepText;
                     VStr verdict; blank; blank; blank]) st)
  end.

Definition flagTestBody (ehr : string) (flagTest : FlagTest) (st : PlanState)
    : option PlanState :=
  forEach (criterionBody KFlagStep "Flag Verification" "VERIFY" ehr flagTest)
    (criteria flagTest) st.

(** The body of the loop of Part 1 for a scenario that applies. *)
Definition scenarioBody (customer : Customer.t)
    (customerConfig : option CustomerConfig) (scenario : Scenario.t)
    (st : PlanState) : option PlanState :=
  let ehr := Customer.ehr customer in
  let st := push (scenarioHeaderRow scenario) (incr st) in
  let st :=
    match Scenario.patientProfile scenario with
    | Some p => push (patientSetupRow scenario p) (incr st)
    | None => st
    end in
  st ← forEach (stepBody KSetupStep "Setup" ehr scenario)
         (Scenario.setupSteps scenario) st;
  st ← forEach (stepBody KCoreStep "Bayesian UI Test" ehr scenario)
         (Scenario.coreTestSteps scenario) st;
  match scenarioFlagTests scenario customer customerConfig with
  | [] => Some st
  | tests => forEach (flagTestBody ehr) tests (push (flagHeaderRow scenario) st)
  end.

Definition part1Body (customer : Customer.t)
    (customerConfig : option CustomerConfig) (scenario : Scenario.t)
    (st : PlanState) : option PlanState :=
  if negb (scenarioApplies scenario customer customerConfig) then Some st
  else scenarioBody customer customerConfig scenario st.

(** [flagData.products.find((p) => p.key === productKey)?.name || productKey]. *)
Definition productName (productKey : string) : string :=
  match List.find (fun p => bool_decide (Product.key p = productKey))
          (FlagData.products flagData) with
  | Some p => orElse (Product.name p) productKey
  | None => productKey
  end.

Definition absenceHeaderRow (productKey : string) : Row :=
  mkRow KAbsenceHeader
    [blank; VStr "ABSENCE TESTS";
     VStr ("=== " +:+ productName productKey +:+ ": Disabled Flag Verification ===");
     blank; VStr "Verify that disabled features do NOT appear in the application";
     blank; blank; blank; blank].

Definition categoryHeaderRow (catKey : string) : Row :=
  mkRow KCategoryHeader
    [blank; VStr "Absence Test"; VStr ("--- " +:+ categoryLabel catKey +:+ " ---");
     blank; blank; blank; blank; blank; blank].

(** The loop over the disabled flag tests of one product carries
    [currentCategory], [null] at first, next to the plan state. *)
Fixpoint absenceLoop (ehr : string) (currentCategory : option string)
    (tests : list FlagTest) (st : PlanState) : option PlanState :=
  match tests with
  | [] => Some st
  | flagTest :: rest =>
      let changed := negb (bool_decide (Some (category flagTest) = currentCategory)) in
      let currentCategory :=
        if changed then Some (category flagTest) else currentCategory in
      let st :=
        if changed then push (categoryHeaderRow (category flagTest)) st else st in
      match forEach (criterionBody KAbsenceStep "Absence Test" "VERIFY ABSENT"
                       ehr flagTest) (criteria flagTest) st with
      | None => None
      | Some st' => absenceLoop ehr currentCategory rest st'
      end
  end.

Definition part2Body (customer : Customer.t)
    (customerConfig : option CustomerConfig) (productKey : string)
    (st : PlanState) : option PlanState :=
  match disabled (getFlagTests customer productKey customerConfig) with
  | [] => Some st
  | tests =>
      absenceLoop (Customer.ehr customer) None tests
        (push (absenceHeaderRow productKey) st)
  end.

(** The rows of the plan, in the order they are pushed. *)
Definition planRows (customer : Customer.t) : option (list Row) :=
  let customerConfig := FlagData.configurations flagData !! Customer.key customer in
  let st := push titleRow (mkState 0 []) in
  st ← forEach (part1Body customer customerConfig)
         (TestDefs.scenarios testDefs) st;
  st ← forEach (part2Body customer customerConfig)
         (Customer.products customer) st;
  Some (rows st).

Definition generateTestPlan (customer : Customer.t) : option string :=
  match planRows customer with
  | Some rs => Some (Str.join (Str.single Str.newline) (map (fun r => csvRow (cells r)) rs))
  | None => None
  end.

End Generator.

(** ** A reader for the written rows *)

(** Modelled from the spec: the standard delimited-text reader that the
    round-trip property names is not part of the repository.  It is the
    reader of RFC 4180 records as common readers apply it: fields are
    separated by a comma; outside quotes a record ends at a line feed, at a
    carriage return (together with the line feed that follows it, if any) or
    at the end of the text, so that a plain field holds none of comma,
    quote, line feed and carriage return; a field that starts with a quote
    runs to its closing quote, may hold all of these, and a doubled quote
    inside it is one quote.  A quote in a plain field, text after a closing
    quote and a missing closing quote are errors. *)
Module Reader.

(** The text after a carriage return that ends a record. *)
Definition afterReturn (s : string) : string :=
  match s with
  | String c s' => if Ascii.eqb c Str.newline then s' else s
  | EmptyString => EmptyString
  end.

Inductive mode : Type :=
  | FieldStart
  | InPlain
  | InQuoted
  | AfterQuote.

(** Reads one record: the fields, and the text after the record. *)
Fixpoint readRecord_go (m : mode) (cur : string) (fields : list string)
    (s : string) : option (list string * string) :=
  match s with
  | EmptyString =>
      match m with
      | InQuoted => None
      | _ => Some (fields ++ [cur], EmptyString)
      end
  | String c s' =>
      match m with
      | FieldStart =>
          if Ascii.eqb c Str.dquote then readRecord_go InQuoted EmptyString fields s'
          else if Ascii.eqb c Str.comma
          then readRecord_go FieldStart EmptyString (fields ++ [EmptyString]) s'
          else if Ascii.eqb c Str.newline then Some (fields ++ [EmptyString], s')
          else if Ascii.eqb c Str.cr then Some (fields ++ [EmptyString], afterReturn s')
          else readRecord_go InPlain (Str.single c) fields s'
      | InPlain =>
          if Ascii.eqb c Str.dquote then None
          else if Ascii.eqb c Str.comma
          then readRecord_go FieldStart EmptyString (fields ++ [cur]) s'
          else if Ascii.eqb c Str.newline then Some (fields ++ [cur], s')
          else if Ascii.eqb c Str.cr then Some (fields ++ [cur], afterReturn s')
          else readRecord_go InPlain (cur +:+ Str.single c) fields s'
      | InQuoted =>
          if Ascii.eqb c Str.dquote then readRecord_go AfterQuote cur fields s'
          else readRecord_go InQuoted (cur +:+ Str.single c) fields s'
      | AfterQuote =>
          if Ascii.eqb c Str.dquote
          then readRecord_go InQuoted (cur +:+ Str.single Str.dquote) fields s'
          else if Ascii.eqb c Str.comma
          then readRecord_go FieldStart EmptyString (fields ++ [cur]) s'
          else if Ascii.eqb c Str.newline then Some (fields ++ [cur], s')
          else if Ascii.eqb c Str.cr then Some (fields ++ [cur], afterReturn s')
          else None
      end
  end.

Definition readRecord (s : string) : option (list string * string) :=
  readRecord_go FieldStart EmptyString [] s.

End Reader.

(** The text a cell stands for: what a reader should give back. *)
Definition cellText (v : jsval) : string :=
  match v with
  | VNull | VUndef => EmptyString
  | _ => toStr v
  end.

(** Does a string hold the character? *)
Fixpoint hasChar (c : ascii) (s : string) : bool :=
  match s with
  | EmptyString => false
  | String d s' => Ascii.eqb d c || hasChar c s'
  end.

(** The characters for which [csvEscape] puts a text in quotes. *)
Definition needsQuotes (s : string) : bool :=
  hasChar Str.comma s || hasChar Str.dquote s || hasChar Str.newline s.

(** The cell is written so that a carriage return in it, if there is one,
    stands inside quotes: its text holds no carriage return, or holds one of
    the characters that make [csvEscape] quote it. *)
Definition returnsQuoted (v : jsval) : bool :=
  negb (hasChar Str.cr (cellText v)) || needsQuotes (cellText v).

(** The text with every quote doubled. *)
Fixpoint doubleQuotes (s : string) : string :=
  match s with
  | EmptyString => EmptyString
  | String c s' =>
      if Ascii.eqb c Str.dquote then String c (String c (doubleQuotes s'))
      else String c (doubleQuotes s')
  end.

(** ** Templates *)

(** The thirteen tokens of the two resolvers. *)
Inductive token : Type :=
  | TFlowsheet | TPatientList | TAlertFlag | TNoteType | TOrderEntry | TStoryboard
  | TChiefComplaint | TDiagnosis | TLabOrders | TLabResults | TProblemList
  | TMedicalHistory | TAntibiotics.

Global Instance token_eq_dec : EqDecision token.
Proof. solve_decision. Defined.

Definition tokenText (k : token) : string :=
  match k with
  | TFlowsheet => "{flowsheet}"
  | TPatientList => "{patientList}"
  | TAlertFlag => "{alertFlag}"
  | TNoteType => "{noteType}"
  | TOrderEntry => "{orderEntry}"
  | TStoryboard => "{storyboard}"
  | TChiefComplaint => "{chiefComplaint}"
  | TDiagnosis => "{diagnosis}"
  | TLabOrders => "{labOrders}"
  | TLabResults => "{labResults}"
  | TProblemList => "{problemList}"
  | TMedicalHistory => "{medicalHistory}"
  | TAntibiotics => "{antibiotics}"
  end.

(** A template is a sequence of literal pieces and tokens. *)
Inductive segment : Type :=
  | Lit (s : string)
  | Tok (k : token).

(** The text of a template in which the tokens of [val] are replaced. *)
Fixpoint render (val : token -> option string) (segs : list segment) : string :=
  match segs with
  | [] => EmptyString
  | Lit s :: rest => s +:+ render val rest
  | Tok k :: rest =>
      match val k with
      | Some v => v +:+ render val rest
      | None => tokenText k +:+ render val rest
      end
  end.

Definition noTokens : token -> option string := fun _ => None.

(** The text of the template as it is written in the test definitions. *)
Definition templateText (segs : list segment) : string := render noTokens segs.

(** The literal pieces of a well-formed template hold no opening brace: every
    opening brace of its text starts one of the tokens. *)
Definition wellFormed (segs : list segment) : bool :=
  forallb (fun sg => match sg with Lit s => negb (hasChar "{"%char s) | Tok _ => true end) segs.

(** A value that can be substituted without making or using a token. *)
Definition inert (v : string) : bool :=
  negb (hasChar "{"%char v) && negb (hasChar "$"%char v).

Definition termsInert (terms : Terms.t) : bool :=
  inert (termText (Terms.flowsheet terms)) && inert (termText (Terms.patientList terms))
  && inert (termText (Terms.alertFlag terms)) && inert (termText (Terms.noteType terms))
  && inert (termText (Terms.orderEntry terms)) && inert (termText (Terms.storyboard terms)).

Definition profileInert (profile : option Profile.t) : bool :=
  inert (profileField Profile.chiefComplaint profile)
  && inert (profileField Profile.diagnosis profile)
  && inert (labOrdersText profile) && inert (labResultsText profile)
  && inert (profileField Profile.problemList profile)
  && inert (profileField Profile.medicalHistory profile)
  && inert (profileField Profile.antibiotics profile).

(** Does the text hold one of the six EHR tokens? *)
Definition hasEhrToken (text : string) : bool :=
  Str.includes "{flowsheet}" text || Str.includes "{patientList}" text
  || Str.includes "{alertFlag}" text || Str.includes "{noteType}" text
  || Str.includes "{orderEntry}" text || Str.includes "{storyboard}" text.

(** The replacement by a text without a dollar sign, which does not look at
    the text before and after a match. *)
Fixpoint replacePlain (tok rep : string) (skip : nat) (s : string) : string :=
  match s with
  | EmptyString => EmptyString
  | String c s' =>
      match skip with
      | S k => replacePlain tok rep k s'
      | O =>
          if Str.startsWith tok s
          then rep +:+ replacePlain tok rep (String.length tok - 1) s'
          else String c (replacePlain tok rep 0 s')
      end
  end.

(** The substitution [val] with the token [k], when still open, set to [v]. *)
Definition resolve (k : token) (v : string) (val : token -> option string)
    : token -> option string :=
  fun k' =>
    match val k' with
    | Some x => Some x
    | None => if decide (k' = k) then Some v else None
    end.

(** The substitutions that the two resolvers perform, in their order. *)
Definition ehrVal (terms : Terms.t) (val : token -> option string)
    : token -> option string :=
  resolve TStoryboard (termText (Terms.storyboard terms))
    (resolve TOrderEntry (termText (Terms.orderEntry terms))
      (resolve TNoteType (termText (Terms.noteType terms))
        (resolve TAlertFlag (termText (Terms.alertFlag terms))
          (resolve TPatientList (termText (Terms.patientList terms))
            (resolve TFlowsheet (termText (Terms.flowsheet terms)) val))))).

Definition profileVal (profile : option Profile.t) (val : token -> option string)
    : token -> option string :=
  resolve TAntibiotics (profileField Profile.antibiotics profile)
    (resolve TMedicalHistory (profileField Profile.medicalHistory profile)
      (resolve TProblemList (profileField Profile.problemList profile)
        (resolve TLabResults (labResultsText profile)
          (resolve TLabOrders (labOrdersText profile)
            (resolve TDiagnosis (profileField Profile.diagnosis profile)
              (resolve TChiefComplaint (profileField Profile.chiefComplaint profile)
                 val)))))).

(** The values substituted so far hold no opening brace. *)
Definition closedVal (val : token -> option string) : Prop :=
  forall k v, val k = Some v -> hasChar "{"%char v = false.

(** The end of a field: the end of the text, a comma or a line feed. *)
Definition fieldEnd (tail : string) : Prop :=
  match tail with
  | EmptyString => True
  | String c _ => c = Str.comma \/ c = Str.newline
  end.

(** ** The plan as the rows each part contributes *)

(** A part of the generator seen from outside: from the counter it starts
    with, the counter it ends with and the rows it pushes. *)
Definition Emitter : Type := N -> option (N * list Row).

(** [f] pushes the rows of [g] after those already there. *)
Definition emits (f : PlanState -> option PlanState) (g : Emitter) : Prop :=
  forall st,
    f st = match g (stepNum st) with
           | Some (n, out) => Some (mkState n (rows st ++ out))
           | None => None
           end.

(** One part after the other, for each element of a list. *)
Fixpoint inSequence {A : Type} (g : A -> Emitter) (xs : list A) : Emitter :=
  fun n =>
    match xs with
    | [] => Some (n, [])
    | x :: xs' =>
        match g x n with
        | Some (n1, out1) =>
            match inSequence g xs' n1 with
            | Some (n2, out2) => Some (n2, out1 ++ out2)
            | None => None
            end
        | None => None
        end
    end.

(** The number a row shows in its first cell, if any. *)
Definition shownNumber (r : Row) : option N :=
  match cells r with
  | VNum n :: _ => Some n
  | _ => None
  end.

Definition shownNumbers (rs : list Row) : list N :=
  omap shownNumber rs.

(** The rows that stand for a test action. *)
Definition isStep (k : rowKind) : bool :=
  match k with
  | KSetupStep | KCoreStep | KFlagStep | KAbsenceStep => true
  | _ => false
  end.

Section Views.

Variable flagData : FlagData.t.
Variable testDefs : TestDefs.t.

(** The row of a setup or core step that is given the number [n]. *)
Definition stepRow (k : rowKind) (section ehr : string) (scenario : Scenario.t)
    (step : Step.t) (n : N) : option Row :=
  match resolveEhrTerms testDefs (resolveTemplateVars (Step.action step) scenario) ehr,
        resolveEhrTerms testDefs (resolveTemplateVars (Step.expected step) scenario) ehr with
  | Some action, Some expected =>
      Some (mkRow k [VNum n; VStr section; VStr (Scenario.name scenario);
                     roleLabel testDefs (Step.role step); VStr action; VStr expected;
                     blank; blank; blank])
  | _, _ => None
  end.

(** The row of a criterion that is given the number [n]. *)
Definition criterionRow (k : rowKind) (section verdict ehr : string)
    (flagTest : FlagTest) (criterion : Criterion.t) (n : N) : option Row :=
  match resolveEhrTerms testDefs (Criterion.step criterion) ehr with
  | Some stepText =>
      Some (mkRow k [VNum n; VStr section; VStr (flagTitle flagTest);
                     roleLabel testDefs (Criterion.role criterion); VStr stepText;
                     VStr verdict; blank; blank; blank])
  | None => None
  end.

(** A row that takes the next number. *)
Definition numbered (mk : N -> option Row) : Emitter :=
  fun n =>
    match mk (N.succ n) with
    | Some r => Some (N.succ n, [r])
    | None => None
    end.

Definition stepRows (k : rowKind) (section ehr : string) (scenario : Scenario.t)
    (steps : list Step.t) : Emitter :=
  inSequence (fun step => numbered (stepRow k section ehr scenario step)) steps.

Definition criterionRows (k : rowKind) (section verdict ehr : string)
    (flagTest : FlagTest) : Emitter :=
  inSequence (fun cr => numbered (criterionRow k section verdict ehr flagTest cr))
    (criteria flagTest).

(** The Flag Verification section of a scenario: nothing when no enabled
    flag test is relevant, else the header and the rows of the criteria. *)
Definition flagSection (ehr : string) (scenario : Scenario.t)
    (tests : list FlagTest) : Emitter :=
  fun n =>
    match tests with
    | [] => Some (n, [])
    | _ =>
        match inSequence (criterionRows KFlagStep "Flag Verification" "VERIFY" ehr)
                tests n with
        | Some (n', out) => Some (n', flagHeaderRow scenario :: out)
        | None => None
        end
    end.

(** The block of a scenario.  The counter is advanced once for the header
    row and once for the patient row, which show no number. *)
Definition scenarioBlock (customer : Customer.t)
    (customerConfig : option CustomerConfig) (scenario : Scenario.t) : Emitter :=
  fun n =>
    let ehr := Customer.ehr customer in
    let n1 := N.succ n in
    let '(n2, patient) :=
      match Scenario.patientProfile scenario with
      | Some p => (N.succ n1, [patientSetupRow scenario p])
      | None => (n1, [])
      end in
    match stepRows KSetupStep "Setup" ehr scenario (Scenario.setupSteps scenario) n2 with
    | Some (n3, setup) =>
        match stepRows KCoreStep "Bayesian UI Test" ehr scenario
                (Scenario.coreTestSteps scenario) n3 with
        | Some (n4, core) =>
            match flagSection ehr scenario
                    (scenarioFlagTests flagData testDefs scenario customer customerConfig)
                    n4 with
            | Some (n5, flags) =>
                Some (n5, scenarioHeaderRow scenario :: patient ++ setup ++ core ++ flags)
            | None => None
            end
        | None => None
        end
    | None => None
    end.

Definition part1 (customer : Customer.t) (customerConfig : option CustomerConfig)
    (scenarios : list Scenario.t) : Emitter :=
  inSequence (scenarioBlock customer customerConfig)
    (filter (fun s => scenarioApplies s customer customerConfig = true) scenarios).

(** The absence tests of one product after its section header: the flag
    tests in their order, a category row before the first one and before
    each one whose category differs from that of the test before it. *)
Fixpoint absenceGroups (ehr : string) (previous : option string)
    (tests : list FlagTest) : Emitter :=
  fun n =>
    match tests with
    | [] => Some (n, [])
    | flagTest :: rest =>
        let header :=
          if bool_decide (previous = Some (category flagTest)) then []
          else [categoryHeaderRow (category flagTest)] in
        match criterionRows KAbsenceStep "Absence Test" "VERIFY ABSENT" ehr flagTest n with
        | Some (n1, steps) =>
            match absenceGroups ehr (Some (category flagTest)) rest n1 with
            | Some (n2, more) => Some (n2, header ++ steps ++ more)
            | None => None
            end
        | None => None
        end
    end.

(** The section of one product in Part 2: nothing without a disabled flag
    test, else the section header and the groups. *)
Definition absenceSection (customer : Customer.t)
    (customerConfig : option CustomerConfig) (productKey : string) : Emitter :=
  fun n =>
    match disabled (getFlagTests flagData testDefs customer productKey customerConfig) with
    | [] => Some (n, [])
    | tests =>
        match absenceGroups (Customer.ehr customer) None tests n with
        | Some (n', out) => Some (n', absenceHeaderRow flagData productKey :: out)
        | None => None
        end
    end.

Definition part2 (customer : Customer.t) (customerConfig : option CustomerConfig)
    (productKeys : list string) : Emitter :=
  inSequence (absenceSection customer customerConfig) productKeys.

End Views.

(** ** The selection of flag tests in the words of the specification *)

Section Selection.

Variable flagData : FlagData.t.
Variable testDefs : TestDefs.t.

(** The flag is tested for the product: its applicable products are [all]
    or hold the product key, and it has an entry in the test criteria. *)
Definition tested (productKey : string) (fl : Flag.t) : option Criteria.t :=
  match Flag.applicableProducts fl with
  | Flag.All => TestDefs.flagTestCriteria testDefs !! Flag.key fl
  | Flag.Only keys =>
      if bool_decide (productKey ∈ keys)
      then TestDefs.flagTestCriteria testDefs !! Flag.key fl
      else None
  end.

Definition enabledEntry (productKey : string) (productConfig : ProductConfig.t)
    (catKey : string) (fl : Flag.t) : list FlagTest :=
  match tested productKey fl with
  | Some tc =>
      match ProductConfig.flags productConfig !! Flag.key fl, Criteria.whenEnabled tc with
      | Some (VBool true), Some cs => [mkFlagTest fl cs catKey]
      | _, _ => []
      end
  | None => []
  end.

Definition disabledEntry (productKey : string) (productConfig : ProductConfig.t)
    (catKey : string) (fl : Flag.t) : list FlagTest :=
  match tested productKey fl with
  | Some tc =>
      match ProductConfig.flags productConfig !! Flag.key fl, Criteria.whenDisabled tc with
      | Some (VBool false), Some cs => [mkFlagTest fl cs catKey]
      | _, _ => []
      end
  | None => []
  end.

(** The catalog walked category by category, each in definition order. *)
Definition selectFlagTests (productKey : string)
    (customerConfig : option CustomerConfig) : FlagTests :=
  match customerConfig ≫= (fun blocks => blocks !! productKey) with
  | None => mkFlagTests [] []
  | Some productConfig =>
      mkFlagTests
        (flat_map (fun entry =>
                     flat_map (enabledEntry productKey productConfig (fst entry))
                       (snd entry))
           (FlagData.flagDefinitions flagData))
        (flat_map (fun entry =>
                     flat_map (disabledEntry productKey productConfig (fst entry))
                       (snd entry))
           (FlagData.flagDefinitions flagData))
  end.

End Selection.

(** The numbers [n + 1], ..., [n + len]. *)
Fixpoint upFrom (n : N) (len : nat) : list N :=
  match len with
  | O => []
  | S l => N.succ n :: upFrom (N.succ n) l
  end.

(** The rows of a part show the numbers that follow the counter it starts
    with, one for each number it takes. *)
Definition counts (g : Emitter) : Prop :=
  forall n n' out,
    g n = Some (n', out) ->
    exists len, n' = (n + N.of_nat len)%N /\ shownNumbers out = upFrom n len.

(** Every row a part pushes satisfies [P]. *)
Definition allRows (P : Row -> Prop) (g : Emitter) : Prop :=
  forall n n' out, g n = Some (n', out) -> Forall P out.

(** Two parts that end with the same counter and push rows related by [R]. *)
Definition alike (R : Row -> Row -> Prop) (g1 g2 : Emitter) : Prop :=
  forall n n1 out1 n2 out2,
    g1 n = Some (n1, out1) -> g2 n = Some (n2, out2) ->
    n1 = n2 /\ Forall2 R out1 out2.

Definition flagKinds : list rowKind := [KFlagHeader; KFlagStep].

Definition absenceKinds : list rowKind := [KAbsenceHeader; KCategoryHeader; KAbsenceStep].

Section Comparison.

Variable testDefs : TestDefs.t.

(** Two cells that are equal, or are the same text resolved for the two
    vendors. *)
Definition resolvedAlike (ehr1 ehr2 : string) (v1 v2 : jsval) : Prop :=
  v1 = v2 \/
  exists text r1 r2,
    resolveEhrTerms testDefs text ehr1 = Some r1 /\
    resolveEhrTerms testDefs text ehr2 = Some r2 /\
    v1 = VStr r1 /\ v2 = VStr r2.

(** Two rows of the same kind whose cells agree, but for the terminology
    in the step description and the expected result. *)
Definition sameUpToTerms (ehr1 ehr2 : string) (r1 r2 : Row) : Prop :=
  kind r1 = kind r2 /\
  exists num section ident user d1 d2 e1 e2 c6 c7 c8,
    cells r1 = [num; section; ident; user; d1; e1; c6; c7; c8] /\
    cells r2 = [num; section; ident; user; d2; e2; c6; c7; c8] /\
    resolvedAlike ehr1 ehr2 d1 d2 /\ resolvedAlike ehr1 ehr2 e1 e2.

(** The block of a scenario without a Flag Verification section. *)
Definition plainBlock (ehr : string) (scenario : Scenario.t) : Emitter :=
  fun n =>
    let n1 := N.succ n in
    let '(n2, patient) :=
      match Scenario.patientProfile scenario with
      | Some p => (N.succ n1, [patientSetupRow scenario p])
      | None => (n1, [])
      end in
    match stepRows testDefs KSetupStep "Setup" ehr scenario
            (Scenario.setupSteps scenario) n2 with
    | Some (n3, setup) =>
        match stepRows testDefs KCoreStep "Bayesian UI Test" ehr scenario
                (Scenario.coreTestSteps scenario) n3 with
        | Some (n4, core) =>
            Some (n4, scenarioHeaderRow scenario :: patient ++ setup ++ core)
        | None => None
        end
    | None => None
    end.

(** The customer owns the product of the scenario, which requires no flag. *)
Definition ownedUnflagged (customer : Customer.t) (scenario : Scenario.t) : Prop :=
  Scenario.product scenario ∈ Customer.products customer /\
  (Scenario.requiredFlags scenario = None \/ Scenario.requiredFlags scenario = Some []).

Global Instance ownedUnflagged_dec (customer : Customer.t) (scenario : Scenario.t) :
  Decision (ownedUnflagged customer scenario).
Proof. unfold ownedUnflagged. apply _. Defined.

End Comparison.

(** The key of the scenario holds [sepsis_ed] or [septic_shock]. *)
Definition fullFlow (scenario : Scenario.t) : bool :=
  Str.includes "sepsis_ed" (Scenario.key scenario)
  || Str.includes "septic_shock" (Scenario.key scenario).

(** A row of Part 2: a numbered absence test with its fixed labels, or a
    header row without a number. *)
Definition absenceRow (r : Row) : Prop :=
  match kind r with
  | KAbsenceStep =>
      is_Some (shownNumber r)
      /\ cells r !! 1%nat = Some (VStr "Absence Test")
      /\ cells r !! 5%nat = Some (VStr "VERIFY ABSENT")
  | KAbsenceHeader | KCategoryHeader => shownNumber r = None
  | _ => False
  end.

(** None of the rules of the relevance gate matches the scenario. *)
Definition noRule (scenario : Scenario.t) : Prop :=
  fullFlow scenario = false
  /\ Scenario.key scenario ∉ ["no_sepsis_no_infection"; "abx_workflow";
                              "comfort_care_suppression"; "septic_shock_rnf_to_icu"].

(** ** Sample documents *)

(** Two small documents in the shape of [feature-flags.json] and
    [test-definitions.json], on which the properties below are exercised. *)
Module Sample.

Definition epic : Terms.t :=
  Terms.mk (Some "Flowsheet") (Some "Patient List") (Some "BPA")
    (Some "Progress Note") (Some "Order Entry") (Some "Storyboard").

Definition cerner : Terms.t :=
  Terms.mk (Some "iView") (Some "Tracking Board") (Some "Discern Alert")
    (Some "PowerNote") (Some "PowerOrders") (Some "Banner Bar").

Definition profile : Profile.t :=
  Profile.mk (VNum 67) (VStr "F") (VStr "ED") (Some "fever") (Some "sepsis")
    (Some (Labs.mk (Some ["CBC"; "Lactate"]) (Some "WBC 18")))
    None None (Some "ceftriaxone").

Definition openChart : Step.t :=
  Step.mk (Some "rn") "Open the {flowsheet} for {chiefComplaint}"
    "The {storyboard} shows {diagnosis}".

Definition reviewScore : Step.t :=
  Step.mk (Some "md") "Review the score in the {patientList}"
    "Orders {labOrders} are listed".

Definition sepsisEd : Scenario.t :=
  Scenario.mk "sepsis_ed_bundle" "Sepsis in the ED" "sepsis"
    "Patient with sepsis arrives in the ED" "ED triage"
    (Some profile) (Some ["bundle_tracking"]) [openChart] [reviewScore].

Definition triageReview : Scenario.t :=
  Scenario.mk "triage_review" "Triage review" "sepsis"
    "Nurse reviews the triage list" "Triage"
    None None [openChart] [].

Definition bundleTracking : Flag.t :=
  Flag.mk "bundle_tracking" "Bundle tracking" Flag.All.

Definition codeStatus : Flag.t :=
  Flag.mk "code_status_suppression" "Code status suppression" (Flag.Only ["sepsis"]).

Definition nurseWriteback : Flag.t :=
  Flag.mk "nurse_writeback" "Nurse writeback" (Flag.Only ["sepsis"]).

Definition testDefs : TestDefs.t :=
  TestDefs.mk
    (<["Epic" := epic]> (<["Cerner" := cerner]> ∅))
    (<["rn" := Role.mk (Some "Nurse")]> ∅)
    (<["bundle_tracking" :=
         Criteria.mk
           (Some [Criterion.mk (Some "rn") "The bundle timer shows in the {storyboard}"])
           (Some [Criterion.mk (Some "rn") "No bundle timer in the {storyboard}"])]>
     (<["code_status_suppression" :=
          Criteria.mk None
            (Some [Criterion.mk None "Comfort-care patients still raise the {alertFlag}"])]>
      (<["nurse_writeback" :=
           Criteria.mk
             (Some [Criterion.mk (Some "rn") "The assessment is filed to the {flowsheet}"])
             None]> ∅)))
    [sepsisEd; triageReview].

Definition sepsisBlock : ProductConfig.t :=
  ProductConfig.mk
    (<["bundle_tracking" := VBool true]>
     (<["code_status_suppression" := VBool false]>
      (<["nurse_writeback" := VBool false]> ∅)))
    ∅.

Definition otherBlock : ProductConfig.t :=
  ProductConfig.mk
    (<["code_status_suppression" := VBool true]>
     (<["bundle_tracking" := VBool false]> ∅))
    ∅.

Definition medstar : Customer.t :=
  Customer.mk "medstar_health" "MedStar Health" "Epic" ["sepsis"].

Definition mercy : Customer.t :=
  Customer.mk "mercy" "Mercy" "Cerner" ["sepsis"].

Definition stjude : Customer.t :=
  Customer.mk "st_jude" "St. Jude" "Epic" ["sepsis"].

Definition newco : Customer.t :=
  Customer.mk "newco" "NewCo" "Meditech" ["sepsis"].

Definition flagData : FlagData.t :=
  FlagData.mk
    [("bundle_manager", [bundleTracking]);
     ("suppression", [codeStatus]);
     ("assessment_writeback", [nurseWriteback])]
    (<["medstar_health" := <["sepsis" := sepsisBlock]> ∅]>
     (<["mercy" := <["sepsis" := sepsisBlock]> ∅]>
      (<["st_jude" := <["sepsis" := otherBlock]> ∅]> ∅)))
    [medstar; mercy; stjude; newco]
    [Product.mk "sepsis" (Some "Sepsis")].

(** A profile whose chief complaint holds a token of the other resolver. *)
Definition tokenProfile : Profile.t :=
  Profile.mk (VNum 50) (VStr "M") (VStr "ICU") (Some "{flowsheet}") None None
    None None None.

Definition tokenScenario : Scenario.t :=
  Scenario.mk "token" "Token" "sepsis" EmptyString EmptyString (Some tokenProfile) None [] [].

(** A vocabulary with a term in lower case. *)
Definition lowerCase : Terms.t :=
  Terms.mk (Some "flowsheet") (Some "patient list") (Some "alert")
    (Some "note") (Some "orders") (Some "storyboard").

Definition lowerCaseDefs : TestDefs.t :=
  TestDefs.mk (<["Epic" := lowerCase]> ∅) ∅ ∅ [].

End Sample.

(** The numbers that the rows [out] show increase and lie above the counter
    [n] the part starts with, up to the counter [n'] it ends with. *)
Definition rising (n n' : N) (out : list Row) : Prop :=
  (n <= n')%N
  /\ StronglySorted N.lt (shownNumbers out)
  /\ Forall (fun m => (n < m <= n')%N) (shownNumbers out).

Definition rises (g : Emitter) : Prop :=
  forall n n' out, g n = Some (n', out) -> rising n n' out.

(** A row shows a number exactly when it stands for a test action. *)
Definition numberedIffStep (r : Row) : Prop :=
  is_Some (shownNumber r) <-> isStep (kind r) = true.

(** ** The rest of the script: statistics, the command line and [main] *)

(** Does the text hold one of the seven profile tokens? *)
Definition hasProfileToken (text : string) : bool :=
  Str.includes "{chiefComplaint}" text || Str.includes "{diagnosis}" text
  || Str.includes "{labOrders}" text || Str.includes "{labResults}" text
  || Str.includes "{problemList}" text || Str.includes "{medicalHistory}" text
  || Str.includes "{antibiotics}" text.

(** The profile tokens. *)
Definition isProfileToken (k : token) : bool :=
  match k with
  | TChiefComplaint | TDiagnosis | TLabOrders | TLabResults | TProblemList
  | TMedicalHistory | TAntibiotics => true
  | _ => false
  end.

(** The substitution that deletes the profile tokens. *)
Definition profileErased : token -> option string :=
  fun k => if isProfileToken k then Some EmptyString else None.

(** A label read in one pass: an underscore becomes a space, and the
    character at the start of a word is put in upper case. *)
Fixpoint labelFrom (start : bool) (s : string) : string :=
  match s with
  | EmptyString => EmptyString
  | String c s' =>
      if Ascii.eqb c "_"%char then String " "%char (labelFrom true s')
      else String (if start then Str.toUpperCase c else c) (labelFrom false s')
  end.

(** The number of occurrences of a character. *)
Fixpoint countChar (c : ascii) (s : string) : nat :=
  match s with
  | EmptyString => 0
  | String d s' => (if Ascii.eqb d c then 1 else 0) + countChar c s'
  end.

(** The line feeds inside the cells of rows. *)
Definition lineFeeds (rs : list Row) : nat :=
  sum_list (map (fun r => sum_list (map (fun v => countChar Str.newline (cellText v))
                                      (cells r))) rs).

(** The number of rows of a kind. *)
Definition kindCount (k : rowKind) (rs : list Row) : nat :=
  length (filter (fun r => kind r = k) rs).

(** Reading a text record by record, with the reader above: the text
    ends after the record that leaves nothing to read.  [fuel] bounds the
    number of records. *)
Fixpoint readRecords (fuel : nat) (s : string) : option (list (list string)) :=
  match fuel with
  | O => None
  | S fuel' =>
      match Reader.readRecord s with
      | None => None
      | Some (fields, EmptyString) => Some [fields]
      | Some (fields, rest) =>
          match readRecords fuel' rest with
          | Some records => Some (fields :: records)
          | None => None
          end
      end
  end.

(** [args.indexOf(x)]: the first position of [x], if any. *)
Fixpoint indexOf (x : string) (args : list string) : option nat :=
  match args with
  | [] => None
  | a :: rest =>
      if bool_decide (a = x) then Some 0%nat
      else match indexOf x rest with
           | Some i => Some (S i)
           | None => None
           end
  end.

(** The customer filter of the command line: the argument after the first
    [--customer], unless it is missing or empty. *)
Definition filterCustomer (args : list string) : option string :=
  match indexOf "--customer" args with
  | Some i =>
      match args !! S i with
      | Some (String c s) => Some (String c s)
      | _ => None
      end
  | None => None
  end.

Record Stats : Type := mkStats {
  scenarioCount : N;
  enabledFlagCount : N;
  disabledFlagCount : N;
}.

(** What [main] does to the world, in order: lines on the two consoles, the
    creation of the output directory and the files written.  A write names
    the directory and the file name that [path.join] puts together. *)
Inductive event : Type :=
  | Out (line : string)
  | Err (line : string)
  | MkDir (dir : string)
  | WriteFile (dir file content : string).

(** How [main] ends: it returns, it leaves with [process.exit], or a
    [TypeError] of the generator goes uncaught. *)
Inductive outcome : Type :=
  | Done
  | Exit (code : N)
  | Raised.

(** The files written, in order. *)
Definition writes (trace : list event) : list (string * string) :=
  omap (fun e => match e with
                 | WriteFile _ file content => Some (file, content)
                 | _ => None
                 end) trace.

Section Main.

Variable flagData : FlagData.t.
Variable testDefs : TestDefs.t.

(** The three paths the script derives from its own directory, and whether
    the output directory exists when [main] starts. *)
Variables FLAG_DATA_PATH TEST_DEF_PATH OUTPUT_DIR : string.
Variable outputDirExists : bool.

(** *** Summary stats *)

Definition getTestPlanStats (customer : Customer.t) : Stats :=
  let customerConfig := FlagData.configurations flagData !! Customer.key customer in
  let scenarioCount :=
    fold_left (fun count scenario =>
                 if scenarioApplies scenario customer customerConfig
                 then N.succ count else count)
      (TestDefs.scenarios testDefs) 0%N in
  let '(enabledFlagCount, disabledFlagCount) :=
    fold_left (fun '(en, dis) productKey =>
                 let tests := getFlagTests flagData testDefs customer productKey
                                customerConfig in
                 ((en + N.of_nat (length (enabled tests)))%N,
                  (dis + N.of_nat (length (disabled tests)))%N))
      (Customer.products customer) (0%N, 0%N) in
  mkStats scenarioCount enabledFlagCount disabledFlagCount.

(** *** Main *)

(** [csv.split(newline).length]. *)
Definition lineCount (csv : string) : nat :=
  length (Str.split Str.newline csv).

Definition planFileName (customer : Customer.t) : string :=
  "test-plan-" +:+ Customer.key customer +:+ ".csv".

Definition planLogLine (customer : Customer.t) (csv : string) (stats : Stats) : string :=
  "  ✓ " +:+ planFileName customer +:+ "  (" +:+ pretty (lineCount csv)
  +:+ " rows | " +:+ pretty (scenarioCount stats) +:+ " scenarios | "
  +:+ pretty (enabledFlagCount stats) +:+ " enabled flags | "
  +:+ pretty (disabledFlagCount stats) +:+ " absence tests)".

(** The customers [main] goes through. *)
Definition selectedCustomers (wanted : option string) : list Customer.t :=
  match wanted with
  | Some k => filter (fun c => Customer.key c = k) (FlagData.customers flagData)
  | None => FlagData.customers flagData
  end.

(** The loop over the customers: [totalPlans] and the trace so far; the
    result is [None] when a plan raises, with the trace up to there. *)
Fixpoint mainLoop (customers : list Customer.t) (totalPlans : N)
    (trace : list event) : list event * option N :=
  match customers with
  | [] => (trace, Some totalPlans)
  | customer :: rest =>
      let stats := getTestPlanStats customer in
      match generateTestPlan flagData testDefs customer with
      | None => (trace, None)
      | Some csv =>
          let trace := trace ++ [WriteFile OUTPUT_DIR (planFileName customer) csv] in
          let trace := trace ++ [Out (planLogLine customer csv stats)] in
          mainLoop rest (N.succ totalPlans) trace
      end
  end.

Definition main (args : list string) : list event * outcome :=
  let trace :=
    [Out "Test Plan Generator";
     Out ("===================" +:+ Str.single Str.newline);
     Out ("Feature Flags: " +:+ FLAG_DATA_PATH);
     Out ("Test Definitions: " +:+ TEST_DEF_PATH +:+ Str.single Str.newline)] in
  let trace := if outputDirExists then trace else trace ++ [MkDir OUTPUT_DIR] in
  let customers := selectedCustomers (filterCustomer args) in
  match customers with
  | [] =>
      (trace ++ [Err ("No customer found matching: "
                      +:+ match filterCustomer args with
                          | Some k => k
                          | None => toStr VNull
                          end)],
       Exit 1)
  | _ =>
      match mainLoop customers 0%N trace with
      | (trace, None) => (trace, Raised)
      | (trace, Some totalPlans) =>
          (trace ++ [Out (Str.single Str.newline +:+ "✓ Generated " +:+ pretty totalPlans
                          +:+ " test plan(s) in test-plans/");
                     Out (Str.single Str.newline +:+ "Done!")],
           Done)
      end
  end.

End Main.

(** No row with a number is due for the customer: the scenarios that apply
    have no step and no criterion of a relevant flag test, and the disabled
    flag tests of the products have no criterion. *)
Definition noStepDue (flagData : FlagData.t) (testDefs : TestDefs.t)
    (customer : Customer.t) : Prop :=
  let cfg := FlagData.configurations flagData !! Customer.key customer in
  Forall (fun s =>
            Scenario.setupSteps s = [] /\ Scenario.coreTestSteps s = []
            /\ Forall (fun t => criteria t = [])
                 (scenarioFlagTests flagData testDefs s customer cfg))
    (filter (fun s => scenarioApplies s customer cfg = true) (TestDefs.scenarios testDefs))
  /\ Forall (fun p =>
               Forall (fun t => criteria t = [])
                 (disabled (getFlagTests flagData testDefs customer p cfg)))
       (Customer.products customer).

(** Test definitions that know the words of Cerner alone. *)
Definition cernerOnly : TestDefs.t :=
  TestDefs.mk (<["Cerner" := Sample.cerner]> ∅) ∅ ∅ [Sample.sepsisEd; Sample.triageReview].

(** A text with a carriage return and nothing that [csvEscape] quotes, and
    a text with a carriage return next to a quote, a comma and a line
    feed. *)
Definition bareReturn : string := String "a" (String Str.cr "b").

Definition mixedText : string :=
  "Press " +:+ Str.single Str.dquote +:+ "Save" +:+ Str.single Str.dquote
  +:+ ", then" +:+ Str.single Str.cr +:+ Str.single Str.newline +:+ "sign".

(** Every cell of the rows is written so that a carriage return stands
    inside quotes. *)
Definition rowsQuoted (plan : list Row) : bool :=
  forallb (fun r => forallb returnsQuoted (cells r)) plan.

(** The term that the entry of a vendor has for an EHR token: [Some None]
    when the entry lacks the term, [None] for a token of the profile. *)
Definition termOf (terms : Terms.t) (k : token) : option (option string) :=
  match k with
  | TFlowsheet => Some (Terms.flowsheet terms)
  | TPatientList => Some (Terms.patientList terms)
  | TAlertFlag => Some (Terms.alertFlag terms)
  | TNoteType => Some (Terms.noteType terms)
  | TOrderEntry => Some (Terms.orderEntry terms)
  | TStoryboard => Some (Terms.storyboard terms)
  | _ => None
  end.

(** Test definitions whose entry for Epic lacks the flowsheet term. *)
Definition partialDefs : TestDefs.t :=
  TestDefs.mk
    (<["Epic" := Terms.mk None (Some "Patient List") (Some "BPA") (Some "Note")
                   (Some "Orders") (Some "Storyboard")]> ∅)
    ∅ ∅ [].

(** The products that the customer owns, in the order of the product
    catalog [flagData.products]. *)
Definition ownedInCatalogOrder (flagData : FlagData.t) (customer : Customer.t)
    : list string :=
  filter (fun k => k ∈ Customer.products customer)
    (map Product.key (FlagData.products flagData)).

(** The section header rows of Part 2, in the order of the plan. *)
Definition absenceHeaders (plan : list Row) : list Row :=
  filter (fun r => kind r = KAbsenceHeader) plan.

(** A catalog of two products, and a customer whose record lists them the
    other way round, with a flag disabled for both. *)
Definition twoProducts : FlagData.t :=
  FlagData.mk
    [("bundle_manager", [Sample.bundleTracking])]
    (<["lakeside" := <["sepsis" := Sample.otherBlock]>
                       (<["deterioration" := Sample.otherBlock]> ∅)]> ∅)
    [Customer.mk "lakeside" "Lakeside" "Epic" ["deterioration"; "sepsis"]]
    [Product.mk "sepsis" (Some "Sepsis");
     Product.mk "deterioration" (Some "Deterioration")].

Definition lakeside : Customer.t :=
  Customer.mk "lakeside" "Lakeside" "Epic" ["deterioration"; "sepsis"].

(** The character is in ASCII. *)
Definition isAsciiChar (c : ascii) : bool :=
  match c with
  | Ascii _ _ _ _ _ _ _ high => negb high
  end.

Fixpoint isAscii (s : string) : bool :=
  match s with
  | EmptyString => true
  | String c s' => isAsciiChar c && isAscii s'
  end.

(** The names that every object of the script inherits, for which a lookup
    finds a value although the document has no such key. *)
Definition inheritedNames : list string :=
  ["constructor"; "hasOwnProperty"; "isPrototypeOf"; "propertyIsEnumerable";
   "toLocaleString"; "toString"; "valueOf"; "__proto__"; "__defineGetter__";
   "__defineSetter__"; "__lookupGetter__"; "__lookupSetter__"].

(** * Properties *)

Local Arguments String.append : simpl nomatch.
Local Arguments Ascii.eqb : simpl never.

(** ** Strings and the CSV reader *)

Lemma str_app_assoc (a b c : string) : (a +:+ b) +:+ c = a +:+ (b +:+ c).
Proof. induction a as [|x a IH]; simpl; [done | by rewrite IH]. Qed.

Lemma str_app_nil_r (a : string) : a +:+ EmptyString = a.
Proof. induction a as [|x a IH]; simpl; [done | by rewrite IH]. Qed.

Lemma includes_single (c : ascii) (s : string) :
  Str.includes (Str.single c) s = hasChar c s.
Proof.
  induction s as [|d s IH]; simpl; [done |].
  rewrite IH, andb_true_r, Ascii.eqb_sym. done.
Qed.

(** A replacement text without a dollar sign is inserted as it is. *)
Lemma getSubstitution_plain (matched before after rep : string) :
  hasChar "$"%char rep = false ->
  Str.getSubstitution matched before after rep = rep.
Proof.
  induction rep as [|c r IH]; simpl; [done |].
  intros H. apply orb_false_iff in H as [Hc Hr].
  rewrite Hc. by rewrite IH.
Qed.

Lemma replaceAll_go_step (tok rep before : string) (c : ascii) (s : string) :
  Str.replaceAll_go tok rep before 0 (String c s)
  = if Str.startsWith tok (String c s)
    then Str.getSubstitution tok before (Str.drop (String.length tok) (String c s)) rep
         +:+ Str.replaceAll_go tok rep (before +:+ Str.single c) (String.length tok - 1) s
    else String c (Str.replaceAll_go tok rep (before +:+ Str.single c) 0 s).
Proof. reflexivity. Qed.

Lemma replaceAll_go_quotes (before s : string) :
  Str.replaceAll_go (Str.single Str.dquote) (String Str.dquote (Str.single Str.dquote))
    before 0 s = doubleQuotes s.
Proof.
  revert before. induction s as [|c s IH]; intros before; [done |].
  rewrite replaceAll_go_step, getSubstitution_plain by reflexivity.
  change (Str.startsWith (Str.single Str.dquote) (String c s))
    with (Ascii.eqb Str.dquote c && true).
  rewrite andb_true_r, Ascii.eqb_sym. simpl.
  destruct (Ascii.eqb c Str.dquote) eqn:E.
  - apply Ascii.eqb_eq in E. subst c. simpl. by rewrite IH.
  - by rewrite IH.
Qed.

Lemma read_plain (s tail cur : string) (fields : list string) :
  hasChar Str.comma s = false -> hasChar Str.dquote s = false ->
  hasChar Str.newline s = false -> hasChar Str.cr s = false ->
  Reader.readRecord_go Reader.InPlain cur fields (s +:+ tail)
  = Reader.readRecord_go Reader.InPlain (cur +:+ s) fields tail.
Proof.
  revert cur. induction s as [|c s IH]; intros cur Hc Hq Hn Hr; simpl in *.
  - by rewrite str_app_nil_r.
  - apply orb_false_iff in Hc as [Hc1 Hc2]. apply orb_false_iff in Hq as [Hq1 Hq2].
    apply orb_false_iff in Hn as [Hn1 Hn2]. apply orb_false_iff in Hr as [Hr1 Hr2].
    rewrite Hc1, Hq1, Hn1, Hr1. rewrite IH by done.
    by rewrite str_app_assoc.
Qed.

Lemma read_start_plain (s tail : string) (fields : list string) :
  hasChar Str.comma s = false -> hasChar Str.dquote s = false ->
  hasChar Str.newline s = false -> hasChar Str.cr s = false -> fieldEnd tail ->
  Reader.readRecord_go Reader.FieldStart EmptyString fields (s +:+ tail)
  = Reader.readRecord_go Reader.InPlain s fields tail.
Proof.
  intros Hc Hq Hn Hr Ht. destruct s as [|c s]; simpl in *.
  - destruct tail as [|d tail]; [done |]. simpl.
    destruct Ht as [-> | ->]; done.
  - apply orb_false_iff in Hc as [Hc1 Hc2]. apply orb_false_iff in Hq as [Hq1 Hq2].
    apply orb_false_iff in Hn as [Hn1 Hn2]. apply orb_false_iff in Hr as [Hr1 Hr2].
    rewrite Hc1, Hq1, Hn1, Hr1. by rewrite read_plain.
Qed.

Lemma read_quoted (s tail cur : string) (fields : list string) :
  Reader.readRecord_go Reader.InQuoted cur fields
    (doubleQuotes s +:+ String Str.dquote tail)
  = Reader.readRecord_go Reader.AfterQuote (cur +:+ s) fields tail.
Proof.
  revert cur. induction s as [|c s IH]; intros cur; simpl.
  - by rewrite str_app_nil_r.
  - destruct (Ascii.eqb c Str.dquote) eqn:E; simpl; rewrite E.
    + apply Ascii.eqb_eq in E. subst c. simpl. rewrite IH. by rewrite str_app_assoc.
    + rewrite IH. by rewrite str_app_assoc.
Qed.

Lemma read_field_end (cur tail : string) (fields : list string) (m : Reader.mode) :
  m = Reader.InPlain \/ m = Reader.AfterQuote -> fieldEnd tail ->
  Reader.readRecord_go m cur fields tail
  = match tail with
    | EmptyString => Some (fields ++ [cur], EmptyString)
    | String c rest =>
        if Ascii.eqb c Str.comma
        then Reader.readRecord_go Reader.FieldStart EmptyString (fields ++ [cur]) rest
        else Some (fields ++ [cur], rest)
    end.
Proof.
  intros Hm Ht. destruct tail as [|c rest]; simpl.
  - by destruct Hm as [-> | ->].
  - destruct Ht as [-> | ->]; by destruct Hm as [-> | ->].
Qed.

(** Reading an escaped cell gives its text back, up to the end of the field. *)
Lemma read_csvEscape (v : jsval) (tail : string) (fields : list string) :
  returnsQuoted v = true ->
  fieldEnd tail ->
  Reader.readRecord_go Reader.FieldStart EmptyString fields (csvEscape v +:+ tail)
  = match tail with
    | EmptyString => Some (fields ++ [cellText v], EmptyString)
    | String c rest =>
        if Ascii.eqb c Str.comma
        then Reader.readRecord_go Reader.FieldStart EmptyString
               (fields ++ [cellText v]) rest
        else Some (fields ++ [cellText v], rest)
    end.
Proof.
  intros Hv Ht.
  assert (Hgen : forall s,
    negb (hasChar Str.cr s) || needsQuotes s = true ->
    Reader.readRecord_go Reader.FieldStart EmptyString fields
      ((if Str.includes "," s || Str.includes (Str.single Str.dquote) s
           || Str.includes (Str.single Str.newline) s
        then Str.single Str.dquote
             +:+ Str.replaceAll (Str.single Str.dquote)
                   (String Str.dquote (Str.single Str.dquote)) s
             +:+ Str.single Str.dquote
        else s) +:+ tail)
    = match tail with
      | EmptyString => Some (fields ++ [s], EmptyString)
      | String c rest =>
          if Ascii.eqb c Str.comma
          then Reader.readRecord_go Reader.FieldStart EmptyString (fields ++ [s]) rest
          else Some (fields ++ [s], rest)
      end).
  { intros s Hs. change "," with (Str.single Str.comma).
    rewrite !includes_single. unfold needsQuotes in Hs.
    destruct (hasChar Str.comma s || hasChar Str.dquote s || hasChar Str.newline s) eqn:E.
    - unfold Str.replaceAll. rewrite replaceAll_go_quotes.
      rewrite !str_app_assoc. simpl.
      rewrite read_quoted. simpl. by apply read_field_end; [right |].
    - rewrite orb_false_r in Hs. apply negb_true_iff in Hs.
      apply orb_false_iff in E as [E Hn]. apply orb_false_iff in E as [Hc Hq].
      rewrite read_start_plain by done. by apply read_field_end; [left |]. }
  destruct v as [| |b|n|s]; try (apply Hgen; exact Hv).
  - unfold csvEscape. rewrite (read_start_plain EmptyString) by done.
    by apply read_field_end; [left|].
  - unfold csvEscape. rewrite (read_start_plain EmptyString) by done.
    by apply read_field_end; [left|].
Qed.

Lemma join_comma_cons (p q : string) (rest : list string) :
  Str.join "," (p :: q :: rest) = p +:+ String Str.comma (Str.join "," (q :: rest)).
Proof. reflexivity. Qed.

Lemma read_csvRow (v : jsval) (vs : list jsval) (fields : list string) :
  Forall (fun w => returnsQuoted w = true) (v :: vs) ->
  Reader.readRecord_go Reader.FieldStart EmptyString fields (csvRow (v :: vs))
  = Some (fields ++ map cellText (v :: vs), EmptyString).
Proof.
  unfold csvRow. revert v fields. induction vs as [|w vs IH]; intros v fields Hvs.
  - apply Forall_cons in Hvs as [Hv _].
    simpl Str.join. rewrite <- (str_app_nil_r (csvEscape v)).
    by rewrite read_csvEscape.
  - apply Forall_cons in Hvs as [Hv Hvs].
    rewrite !map_cons, join_comma_cons. rewrite read_csvEscape by (done || by left).
    rewrite Ascii.eqb_refl.
    rewrite <- map_cons, IH by done. by rewrite <- app_assoc.
Qed.

Lemma read_csvRow_line (v : jsval) (vs : list jsval) (fields : list string) (rest : string) :
  Forall (fun w => returnsQuoted w = true) (v :: vs) ->
  Reader.readRecord_go Reader.FieldStart EmptyString fields
    (csvRow (v :: vs) +:+ String Str.newline rest)
  = Some (fields ++ map cellText (v :: vs), rest).
Proof.
  unfold csvRow. revert v fields. induction vs as [|w vs IH]; intros v fields Hvs.
  - apply Forall_cons in Hvs as [Hv _].
    simpl Str.join. simpl map. by rewrite read_csvEscape by (done || by right).
  - apply Forall_cons in Hvs as [Hv Hvs].
    rewrite !map_cons, join_comma_cons, !str_app_assoc.
    change (String Str.comma (Str.join "," (csvEscape w :: map csvEscape vs))
            +:+ String Str.newline rest)
      with (String Str.comma (Str.join "," (csvEscape w :: map csvEscape vs)
            +:+ String Str.newline rest)).
    rewrite read_csvEscape by (done || by left).
    rewrite Ascii.eqb_refl.
    rewrite <- map_cons, IH by done. by rewrite <- app_assoc.
Qed.

(** ** Substitution in templates *)

Lemma replaceAll_go_plain (tok rep before : string) (skip : nat) (s : string) :
  hasChar "$"%char rep = false ->
  Str.replaceAll_go tok rep before skip s = replacePlain tok rep skip s.
Proof.
  intros Hrep. revert before skip.
  induction s as [|c s IH]; intros before skip; [done |].
  destruct skip as [|k]; simpl.
  - rewrite getSubstitution_plain by done. by rewrite !IH.
  - by rewrite IH.
Qed.

Lemma replaceAll_plain (tok rep s : string) :
  hasChar "$"%char rep = false ->
  Str.replaceAll tok rep s = replacePlain tok rep 0 s.
Proof. apply replaceAll_go_plain. Qed.

Lemma token_starts_brace (k : token) (c : ascii) (s : string) :
  Ascii.eqb c "{"%char = false -> Str.startsWith (tokenText k) (String c s) = false.
Proof.
  intros H. destruct k; cbn [tokenText Str.startsWith];
    by rewrite Ascii.eqb_sym, H.
Qed.

Lemma replacePlain_lit (k : token) (rep s rest : string) :
  hasChar "{"%char s = false ->
  replacePlain (tokenText k) rep 0 (s +:+ rest)
  = s +:+ replacePlain (tokenText k) rep 0 rest.
Proof.
  induction s as [|c s IH]; intros H; [done |].
  simpl in H. apply orb_false_iff in H as [Hc Hs].
  change (String c s +:+ rest) with (String c (s +:+ rest)).
  cbn [replacePlain]. rewrite token_starts_brace by done.
  rewrite IH by done. done.
Qed.

Lemma replacePlain_same (k : token) (rep rest : string) :
  replacePlain (tokenText k) rep 0 (tokenText k +:+ rest)
  = rep +:+ replacePlain (tokenText k) rep 0 rest.
Proof. destruct k; reflexivity. Qed.

Lemma replacePlain_other (k k' : token) (rep rest : string) :
  k' <> k ->
  replacePlain (tokenText k) rep 0 (tokenText k' +:+ rest)
  = tokenText k' +:+ replacePlain (tokenText k) rep 0 rest.
Proof. intros H. destruct k, k'; try congruence; reflexivity. Qed.

Lemma replacePlain_render (k : token) (v : string) (val : token -> option string)
    (segs : list segment) :
  wellFormed segs = true -> closedVal val ->
  replacePlain (tokenText k) v 0 (render val segs) = render (resolve k v val) segs.
Proof.
  intros Hwf Hval. induction segs as [|[s|k'] segs IH]; [done | |].
  - simpl in Hwf. apply andb_true_iff in Hwf as [Hs Hwf].
    apply negb_true_iff in Hs.
    cbn [render]. rewrite replacePlain_lit by done. by rewrite IH.
  - simpl in Hwf. cbn [render]. unfold resolve at 1.
    destruct (val k') as [x|] eqn:Hx.
    + rewrite replacePlain_lit by eauto. by rewrite IH.
    + destruct (decide (k' = k)) as [->|Hne].
      * rewrite replacePlain_same. by rewrite IH.
      * rewrite replacePlain_other by done. by rewrite IH.
Qed.

Lemma resolve_closed (k : token) (v : string) (val : token -> option string) :
  hasChar "{"%char v = false -> closedVal val -> closedVal (resolve k v val).
Proof.
  intros Hv Hval k' x. unfold resolve.
  destruct (val k') as [y|] eqn:Hy.
  - intros [= <-]. eauto.
  - destruct (decide (k' = k)); [by intros [= <-] | done].
Qed.

Lemma replaceAll_render (k : token) (v : string) (val : token -> option string)
    (segs : list segment) :
  wellFormed segs = true -> closedVal val -> inert v = true ->
  Str.replaceAll (tokenText k) v (render val segs) = render (resolve k v val) segs.
Proof.
  intros Hwf Hval Hv. apply andb_true_iff in Hv as [_ Hd].
  apply negb_true_iff in Hd.
  rewrite replaceAll_plain by done. by apply replacePlain_render.
Qed.

Lemma render_ext (val val' : token -> option string) (segs : list segment) :
  (forall k, val k = val' k) -> render val segs = render val' segs.
Proof.
  intros H. induction segs as [|[s|k] segs IH]; [done | |]; cbn [render].
  - by rewrite IH.
  - by rewrite H, IH.
Qed.

Lemma inert_closed (v : string) : inert v = true -> hasChar "{"%char v = false.
Proof. intros H. apply andb_true_iff in H as [H _]. by apply negb_true_iff in H. Qed.

Lemma applyTerms_render (terms : Terms.t) (val : token -> option string)
    (segs : list segment) :
  wellFormed segs = true -> closedVal val -> termsInert terms = true ->
  applyTerms terms (render val segs) = render (ehrVal terms val) segs.
Proof.
  intros Hwf Hval Ht. unfold termsInert in Ht.
  do 5 (apply andb_true_iff in Ht as [Ht ?]).
  unfold applyTerms, ehrVal.
  change "{flowsheet}" with (tokenText TFlowsheet).
  change "{patientList}" with (tokenText TPatientList).
  change "{alertFlag}" with (tokenText TAlertFlag).
  change "{noteType}" with (tokenText TNoteType).
  change "{orderEntry}" with (tokenText TOrderEntry).
  change "{storyboard}" with (tokenText TStoryboard).
  repeat (rewrite replaceAll_render;
          [| done | repeat (apply resolve_closed; [by apply inert_closed|]); done | done]).
  done.
Qed.

Lemma ehrVal_closed (terms : Terms.t) (val : token -> option string) :
  termsInert terms = true -> closedVal val -> closedVal (ehrVal terms val).
Proof.
  intros Ht Hval. unfold termsInert in Ht.
  do 5 (apply andb_true_iff in Ht as [Ht ?]).
  unfold ehrVal. repeat (apply resolve_closed; [by apply inert_closed|]). done.
Qed.

Lemma resolveTemplateVars_render (scenario : Scenario.t) (val : token -> option string)
    (segs : list segment) :
  wellFormed segs = true -> closedVal val ->
  profileInert (Scenario.patientProfile scenario) = true ->
  resolveTemplateVars (render val segs) scenario
  = render (profileVal (Scenario.patientProfile scenario) val) segs.
Proof.
  intros Hwf Hval Ht. unfold profileInert in Ht.
  do 6 (apply andb_true_iff in Ht as [Ht ?]).
  unfold resolveTemplateVars, profileVal. cbv zeta.
  change "{chiefComplaint}" with (tokenText TChiefComplaint).
  change "{diagnosis}" with (tokenText TDiagnosis).
  change "{labOrders}" with (tokenText TLabOrders).
  change "{labResults}" with (tokenText TLabResults).
  change "{problemList}" with (tokenText TProblemList).
  change "{medicalHistory}" with (tokenText TMedicalHistory).
  change "{antibiotics}" with (tokenText TAntibiotics).
  repeat (rewrite replaceAll_render;
          [| done | repeat (apply resolve_closed; [by apply inert_closed|]); done | done]).
  done.
Qed.

Lemma profileVal_closed (profile : option Profile.t) (val : token -> option string) :
  profileInert profile = true -> closedVal val -> closedVal (profileVal profile val).
Proof.
  intros Ht Hval. unfold profileInert in Ht.
  do 6 (apply andb_true_iff in Ht as [Ht ?]).
  unfold profileVal. repeat (apply resolve_closed; [by apply inert_closed|]). done.
Qed.

Lemma noTokens_closed : closedVal noTokens.
Proof. intros k v. discriminate. Qed.

Lemma ehrVal_idem (terms : Terms.t) (val : token -> option string) (k : token) :
  ehrVal terms (ehrVal terms val) k = ehrVal terms val k.
Proof.
  unfold ehrVal, resolve. destruct (val k); [done |].
  destruct k; reflexivity.
Qed.

Lemma vals_commute (terms : Terms.t) (profile : option Profile.t)
    (val : token -> option string) (k : token) :
  ehrVal terms (profileVal profile val) k = profileVal profile (ehrVal terms val) k.
Proof.
  unfold ehrVal, profileVal, resolve. destruct (val k); [done |].
  destruct k; reflexivity.
Qed.

Lemma applyTerms_idem (terms : Terms.t) (segs : list segment) :
  termsInert terms = true -> wellFormed segs = true ->
  applyTerms terms (applyTerms terms (templateText segs))
  = applyTerms terms (templateText segs).
Proof.
  intros Ht Hwf. unfold templateText.
  rewrite !applyTerms_render; auto using noTokens_closed, ehrVal_closed.
  apply render_ext, ehrVal_idem.
Qed.

Lemma resolvers_commute (terms : Terms.t) (scenario : Scenario.t) (segs : list segment) :
  termsInert terms = true -> profileInert (Scenario.patientProfile scenario) = true ->
  wellFormed segs = true ->
  applyTerms terms (resolveTemplateVars (templateText segs) scenario)
  = resolveTemplateVars (applyTerms terms (templateText segs)) scenario.
Proof.
  intros Ht Hp Hwf. unfold templateText.
  rewrite resolveTemplateVars_render, !applyTerms_render, resolveTemplateVars_render;
    auto using noTokens_closed, ehrVal_closed, profileVal_closed.
  apply render_ext, vals_commute.
Qed.

(** ** The parts of the plan *)

Section PlanLemmas.

Variable flagData : FlagData.t.
Variable testDefs : TestDefs.t.

Lemma emits_inSequence {A : Type} (body : A -> PlanState -> option PlanState)
    (g : A -> Emitter) (xs : list A) :
  (forall x, emits (body x) (g x)) -> emits (forEach body xs) (inSequence g xs).
Proof.
  intros Hbody. induction xs as [|x xs IH]; intros st; simpl.
  - destruct st as [n rs]. simpl. by rewrite app_nil_r.
  - rewrite (Hbody x st). destruct (g x (stepNum st)) as [[n1 out1]|]; [|done].
    rewrite IH. simpl. destruct (inSequence g xs n1) as [[n2 out2]|]; [|done].
    by rewrite app_assoc.
Qed.

Lemma emits_stepBody (k : rowKind) (section ehr : string) (scenario : Scenario.t)
    (step : Step.t) :
  emits (stepBody testDefs k section ehr scenario step)
    (numbered (stepRow testDefs k section ehr scenario step)).
Proof.
  intros st. unfold stepBody, numbered, stepRow. simpl.
  destruct (resolveEhrTerms testDefs (resolveTemplateVars (Step.action step) scenario) ehr);
    [|done].
  by destruct (resolveEhrTerms testDefs
                 (resolveTemplateVars (Step.expected step) scenario) ehr).
Qed.

Lemma emits_criterionBody (k : rowKind) (section verdict ehr : string)
    (flagTest : FlagTest) (criterion : Criterion.t) :
  emits (criterionBody testDefs k section verdict ehr flagTest criterion)
    (numbered (criterionRow testDefs k section verdict ehr flagTest criterion)).
Proof.
  intros st. unfold criterionBody, numbered, criterionRow. simpl.
  by destruct (resolveEhrTerms testDefs (Criterion.step criterion) ehr).
Qed.

Lemma emits_criteria (k : rowKind) (section verdict ehr : string) (flagTest : FlagTest) :
  emits (forEach (criterionBody testDefs k section verdict ehr flagTest)
           (criteria flagTest))
    (criterionRows testDefs k section verdict ehr flagTest).
Proof. apply emits_inSequence. intros cr. apply emits_criterionBody. Qed.

Lemma emits_flagTestBody (ehr : string) (flagTest : FlagTest) :
  emits (flagTestBody testDefs ehr flagTest)
    (criterionRows testDefs KFlagStep "Flag Verification" "VERIFY" ehr flagTest).
Proof. intros st. unfold flagTestBody. apply emits_criteria. Qed.

Lemma emits_scenarioBody (customer : Customer.t)
    (customerConfig : option CustomerConfig) (scenario : Scenario.t) :
  emits (scenarioBody flagData testDefs customer customerConfig scenario)
    (scenarioBlock flagData testDefs customer customerConfig scenario).
Proof.
  intros st. unfold scenarioBody, scenarioBlock. cbv zeta.
  set (ehr := Customer.ehr customer).
  set (tests := scenarioFlagTests flagData testDefs scenario customer customerConfig).
  set (st1 := match Scenario.patientProfile scenario with
              | Some p => push (patientSetupRow scenario p)
                            (incr (push (scenarioHeaderRow scenario) (incr st)))
              | None => push (scenarioHeaderRow scenario) (incr st)
              end).
  assert (Hst1 : st1 = mkState
                   (match Scenario.patientProfile scenario with
                    | Some p => N.succ (N.succ (stepNum st))
                    | None => N.succ (stepNum st)
                    end)
                   (rows st ++ scenarioHeaderRow scenario ::
                      match Scenario.patientProfile scenario with
                      | Some p => [patientSetupRow scenario p]
                      | None => []
                      end)).
  { unfold st1, push, incr. destruct (Scenario.patientProfile scenario); simpl; [|done].
    by rewrite <- app_assoc. }
  rewrite Hst1. clear Hst1 st1.
  unfold stepRows.
  rewrite (emits_inSequence _ _ _ (emits_stepBody KSetupStep "Setup" ehr scenario)).
  cbn [stepNum rows].
  destruct (Scenario.patientProfile scenario) as [p|].
  - destruct (inSequence _ (Scenario.setupSteps scenario) _) as [[n3 setup]|]; [|done].
    cbn [mbind option_bind].
    rewrite (emits_inSequence _ _ _ (emits_stepBody KCoreStep "Bayesian UI Test" ehr scenario)).
    cbn [stepNum rows].
    destruct (inSequence _ (Scenario.coreTestSteps scenario) _) as [[n4 core]|]; [|done].
    unfold flagSection. destruct tests as [|t tests]; cbn [stepNum rows].
    + f_equal. f_equal. rewrite <- !app_assoc. simpl. by rewrite app_nil_r.
    + cbn [mbind option_bind].
      rewrite (emits_inSequence _ _ _ (emits_flagTestBody ehr)).
      cbn [stepNum rows push].
      destruct (inSequence _ (t :: tests) n4) as [[n5 fl]|]; [|done].
      f_equal. f_equal. rewrite <- !app_assoc. simpl. done.
  - destruct (inSequence _ (Scenario.setupSteps scenario) _) as [[n3 setup]|]; [|done].
    cbn [mbind option_bind].
    rewrite (emits_inSequence _ _ _ (emits_stepBody KCoreStep "Bayesian UI Test" ehr scenario)).
    cbn [stepNum rows].
    destruct (inSequence _ (Scenario.coreTestSteps scenario) _) as [[n4 core]|]; [|done].
    unfold flagSection. destruct tests as [|t tests]; cbn [stepNum rows].
    + f_equal. f_equal. rewrite <- !app_assoc. simpl. by rewrite app_nil_r.
    + cbn [mbind option_bind].
      rewrite (emits_inSequence _ _ _ (emits_flagTestBody ehr)).
      cbn [stepNum rows push].
      destruct (inSequence _ (t :: tests) n4) as [[n5 fl]|]; [|done].
      f_equal. f_equal. rewrite <- !app_assoc. simpl. done.
Qed.

Lemma emits_part1 (customer : Customer.t) (customerConfig : option CustomerConfig)
    (scenarios : list Scenario.t) :
  emits (forEach (part1Body flagData testDefs customer customerConfig) scenarios)
    (part1 flagData testDefs customer customerConfig scenarios).
Proof.
  unfold part1. induction scenarios as [|s scenarios IH]; intros st.
  - destruct st as [n rs]. simpl. by rewrite app_nil_r.
  - cbn [forEach]. unfold part1Body at 1. rewrite filter_cons.
    destruct (scenarioApplies s customer customerConfig) eqn:Happ.
    + rewrite decide_True by done. cbn [negb inSequence].
      rewrite emits_scenarioBody.
      destruct (scenarioBlock _ _ _ _ s (stepNum st)) as [[n1 out1]|]; [|done].
      rewrite IH. cbn [stepNum rows].
      destruct (inSequence _ _ n1) as [[n2 out2]|]; [|done].
      by rewrite app_assoc.
    + rewrite decide_False by done. cbn [negb]. apply IH.
Qed.

Lemma emits_absenceLoop (ehr : string) (current : option string) (tests : list FlagTest) :
  emits (absenceLoop testDefs ehr current tests)
    (absenceGroups testDefs ehr current tests).
Proof.
  revert current. induction tests as [|t tests IH]; intros current st.
  - destruct st as [n rs]. simpl. by rewrite app_nil_r.
  - cbn [absenceLoop absenceGroups].
    destruct (decide (current = Some (category t))) as [Heq|Hne].
    + rewrite (bool_decide_eq_true_2 (current = Some (category t))) by done.
      rewrite (bool_decide_eq_true_2 (Some (category t) = current)) by done.
      cbn [negb]. rewrite emits_criteria.
      destruct (criterionRows _ _ _ _ _ t (stepNum st)) as [[n1 steps]|]; [|done].
      rewrite Heq, IH. cbn [stepNum rows].
      destruct (absenceGroups _ _ _ tests n1) as [[n2 more]|]; [|done].
      simpl. by rewrite app_assoc.
    + rewrite (bool_decide_eq_false_2 (current = Some (category t))) by done.
      rewrite (bool_decide_eq_false_2 (Some (category t) = current)) by done.
      cbn [negb]. rewrite emits_criteria. cbn [push stepNum rows].
      destruct (criterionRows _ _ _ _ _ t (stepNum st)) as [[n1 steps]|]; [|done].
      rewrite IH. cbn [stepNum rows].
      destruct (absenceGroups _ _ _ tests n1) as [[n2 more]|]; [|done].
      simpl. by rewrite <- !app_assoc.
Qed.

Lemma emits_part2Body (customer : Customer.t) (customerConfig : option CustomerConfig)
    (productKey : string) :
  emits (part2Body flagData testDefs customer customerConfig productKey)
    (absenceSection flagData testDefs customer customerConfig productKey).
Proof.
  intros st. unfold part2Body, absenceSection.
  destruct (disabled _) as [|t tests].
  - destruct st as [n rs]. simpl. by rewrite app_nil_r.
  - rewrite emits_absenceLoop. cbn [push stepNum rows].
    destruct (absenceGroups _ _ _ (t :: tests) (stepNum st)) as [[n1 out]|]; [|done].
    by rewrite <- app_assoc.
Qed.

Lemma emits_part2 (customer : Customer.t) (customerConfig : option CustomerConfig)
    (productKeys : list string) :
  emits (forEach (part2Body flagData testDefs customer customerConfig) productKeys)
    (part2 flagData testDefs customer customerConfig productKeys).
Proof. apply emits_inSequence. intros p. apply emits_part2Body. Qed.

(** The plan is the title row, the blocks of Part 1 and the sections of
    Part 2, whose numbering goes on where Part 1 stopped. *)
Lemma planRows_parts (customer : Customer.t) :
  planRows flagData testDefs customer
  = let cfg := FlagData.configurations flagData !! Customer.key customer in
    match part1 flagData testDefs customer cfg (TestDefs.scenarios testDefs) 0%N with
    | Some (n1, out1) =>
        match part2 flagData testDefs customer cfg (Customer.products customer) n1 with
        | Some (n2, out2) => Some (titleRow :: out1 ++ out2)
        | None => None
        end
    | None => None
    end.
Proof.
  unfold planRows. cbv zeta. rewrite emits_part1. cbn [push stepNum rows].
  destruct (part1 _ _ _ _ _ 0%N) as [[n1 out1]|]; [|done].
  cbn [mbind option_bind]. rewrite emits_part2. cbn [stepNum rows].
  destruct (part2 _ _ _ _ _ n1) as [[n2 out2]|]; [|done].
  cbn [mbind option_bind rows]. by rewrite <- app_assoc.
Qed.

End PlanLemmas.

(** *** Parts in sequence *)

Lemma upFrom_app (n : N) (a b : nat) :
  upFrom n (a + b) = upFrom n a ++ upFrom (n + N.of_nat a) b.
Proof.
  revert n. induction a as [|a IH]; intros n.
  - simpl. by rewrite N.add_0_r.
  - cbn [Nat.add upFrom]. rewrite IH. simpl. do 3 f_equal. lia.
Qed.

Lemma shownNumbers_app (a b : list Row) :
  shownNumbers (a ++ b) = shownNumbers a ++ shownNumbers b.
Proof. apply omap_app. Qed.

Lemma counts_inSequence {A : Type} (g : A -> Emitter) (xs : list A) :
  (forall x, counts (g x)) -> counts (inSequence g xs).
Proof.
  intros Hg. induction xs as [|x xs IH]; intros n n' out H; simpl in H.
  - injection H as <- <-. exists 0%nat. split; [lia | done].
  - destruct (g x n) as [[n1 out1]|] eqn:H1; [|done].
    destruct (inSequence g xs n1) as [[n2 out2]|] eqn:H2; [|done].
    injection H as <- <-.
    destruct (Hg x _ _ _ H1) as (a & -> & Ha).
    destruct (IH _ _ _ H2) as (b & -> & Hb).
    exists (a + b)%nat. split; [lia|].
    by rewrite shownNumbers_app, upFrom_app, Ha, Hb.
Qed.

Lemma allRows_inSequence {A : Type} (P : Row -> Prop) (g : A -> Emitter) (xs : list A) :
  (forall x, allRows P (g x)) -> allRows P (inSequence g xs).
Proof.
  intros Hg. induction xs as [|x xs IH]; intros n n' out H; simpl in H.
  - by injection H as <- <-.
  - destruct (g x n) as [[n1 out1]|] eqn:H1; [|done].
    destruct (inSequence g xs n1) as [[n2 out2]|] eqn:H2; [|done].
    injection H as <- <-. apply Forall_app. split; [by eapply Hg | by eapply IH].
Qed.

Lemma alike_inSequence {A : Type} (R : Row -> Row -> Prop) (g1 g2 : A -> Emitter)
    (xs : list A) :
  (forall x, alike R (g1 x) (g2 x)) -> alike R (inSequence g1 xs) (inSequence g2 xs).
Proof.
  intros Hg. induction xs as [|x xs IH]; intros n n1 out1 n2 out2 H1 H2; simpl in *.
  - injection H1 as <- <-. injection H2 as <- <-. done.
  - destruct (g1 x n) as [[m1 o1]|] eqn:E1; [|done].
    destruct (g2 x n) as [[m2 o2]|] eqn:E2; [|done].
    destruct (Hg x _ _ _ _ _ E1 E2) as [-> Ho].
    destruct (inSequence g1 xs m2) as [[k1 p1]|] eqn:F1; [|done].
    destruct (inSequence g2 xs m2) as [[k2 p2]|] eqn:F2; [|done].
    injection H1 as <- <-. injection H2 as <- <-.
    destruct (IH _ _ _ _ _ F1 F2) as [-> Hp].
    split; [done|]. by apply Forall2_app.
Qed.

Lemma counts_numbered (mk : N -> option Row) :
  (forall n r, mk n = Some r -> shownNumber r = Some n) -> counts (numbered mk).
Proof.
  intros Hmk n n' out H. unfold numbered in H.
  destruct (mk (N.succ n)) as [r|] eqn:Hr; [|done]. injection H as <- <-.
  exists 1%nat. split; [lia|]. unfold shownNumbers. simpl.
  by rewrite (Hmk _ _ Hr).
Qed.

Lemma allRows_numbered (P : Row -> Prop) (mk : N -> option Row) :
  (forall n r, mk n = Some r -> P r) -> allRows P (numbered mk).
Proof.
  intros Hmk n n' out H. unfold numbered in H.
  destruct (mk (N.succ n)) as [r|] eqn:Hr; [|done]. injection H as <- <-.
  repeat constructor. by eapply Hmk.
Qed.

Lemma alike_numbered (R : Row -> Row -> Prop) (mk1 mk2 : N -> option Row) :
  (forall n r1 r2, mk1 n = Some r1 -> mk2 n = Some r2 -> R r1 r2) ->
  alike R (numbered mk1) (numbered mk2).
Proof.
  intros Hmk n n1 out1 n2 out2 H1 H2. unfold numbered in *.
  destruct (mk1 (N.succ n)) as [r1|] eqn:E1; [|done].
  destruct (mk2 (N.succ n)) as [r2|] eqn:E2; [|done].
  injection H1 as <- <-. injection H2 as <- <-.
  split; [done|]. repeat constructor. by eapply Hmk.
Qed.

Section PartLemmas.

Variable flagData : FlagData.t.
Variable testDefs : TestDefs.t.

Lemma criterionRow_shown k section verdict ehr ft cr n r :
  criterionRow testDefs k section verdict ehr ft cr n = Some r ->
  shownNumber r = Some n /\ kind r = k
  /\ cells r !! 1%nat = Some (VStr section) /\ cells r !! 5%nat = Some (VStr verdict).
Proof.
  unfold criterionRow. destruct (resolveEhrTerms _ _ _); [|done].
  by intros [= <-].
Qed.

Lemma stepRow_shown k section ehr scenario step n r :
  stepRow testDefs k section ehr scenario step n = Some r ->
  shownNumber r = Some n /\ kind r = k.
Proof.
  unfold stepRow. destruct (resolveEhrTerms _ _ _); [|done].
  destruct (resolveEhrTerms _ _ _); [|done]. by intros [= <-].
Qed.

Lemma counts_criterionRows k section verdict ehr ft :
  counts (criterionRows testDefs k section verdict ehr ft).
Proof.
  apply counts_inSequence. intros cr. apply counts_numbered.
  intros n r H. by apply criterionRow_shown in H as [? _].
Qed.

Lemma shownNumber_header (r : Row) (rest : list jsval) :
  cells r = blank :: rest -> shownNumber r = None.
Proof. unfold shownNumber. by intros ->. Qed.

Lemma counts_absenceGroups ehr previous tests :
  counts (absenceGroups testDefs ehr previous tests).
Proof.
  revert previous. induction tests as [|t tests IH]; intros previous n n' out H.
  - injection H as <- <-. exists 0%nat. split; [lia | done].
  - cbn [absenceGroups] in H.
    destruct (criterionRows _ _ _ _ _ t n) as [[n1 steps]|] eqn:H1; [|done].
    destruct (absenceGroups _ _ _ tests n1) as [[n2 more]|] eqn:H2; [|done].
    injection H as <- <-.
    destruct (counts_criterionRows _ _ _ _ _ _ _ _ H1) as (a & -> & Ha).
    destruct (IH _ _ _ _ H2) as (b & -> & Hb).
    exists (a + b)%nat. split; [lia|].
    rewrite !shownNumbers_app, upFrom_app, Ha, Hb.
    by destruct (bool_decide _).
Qed.

Lemma counts_absenceSection customer cfg productKey :
  counts (absenceSection flagData testDefs customer cfg productKey).
Proof.
  intros n n' out H. unfold absenceSection in H.
  destruct (disabled _) as [|t tests].
  - injection H as <- <-. exists 0%nat. split; [lia | done].
  - destruct (absenceGroups _ _ _ (t :: tests) n) as [[n1 body]|] eqn:H1; [|done].
    injection H as <- <-. by apply counts_absenceGroups in H1.
Qed.

Lemma counts_part2 customer cfg productKeys :
  counts (part2 flagData testDefs customer cfg productKeys).
Proof. apply counts_inSequence. intros p. apply counts_absenceSection. Qed.

End PartLemmas.

Section Applicability.

Variable flagData : FlagData.t.
Variable testDefs : TestDefs.t.

Lemma isTrue_spec (v : option jsval) : isTrue v = true <-> v = Some (VBool true).
Proof.
  split; [|by intros ->].
  destruct v as [[| |[]| |]|]; simpl; by intros.
Qed.

Lemma isFalse_spec (v : option jsval) : isFalse v = true <-> v = Some (VBool false).
Proof.
  split; [|by intros ->].
  destruct v as [[| |[]| |]|]; simpl; by intros.
Qed.

Lemma requiredFlagsHold_spec (pc : ProductConfig.t) (required : list string) :
  requiredFlagsHold pc required = true
  <-> forall f, f ∈ required -> ProductConfig.flags pc !! f = Some (VBool true).
Proof.
  induction required as [|f fs IH]; simpl.
  - split; [|done]. intros _ f H. by apply elem_of_nil in H.
  - destruct (isTrue (ProductConfig.flags pc !! f)) eqn:E.
    + apply isTrue_spec in E. rewrite IH. split.
      * intros H g Hg. apply elem_of_cons in Hg as [->|Hg]; auto.
      * intros H g Hg. apply H. by apply elem_of_cons; right.
    + split; [done|]. intros H.
      assert (isTrue (ProductConfig.flags pc !! f) = true) as E'.
      { apply isTrue_spec, H. by apply elem_of_cons; left. }
      congruence.
Qed.

Lemma requiredFlagsHold_fails (pc : ProductConfig.t) (required : list string) :
  requiredFlagsHold pc required = false
  <-> exists f, f ∈ required /\ ProductConfig.flags pc !! f <> Some (VBool true).
Proof.
  induction required as [|f fs IH]; simpl.
  - split; [done|]. intros (f & H & _). by apply elem_of_nil in H.
  - destruct (isTrue (ProductConfig.flags pc !! f)) eqn:E.
    + apply isTrue_spec in E. rewrite IH. split.
      * intros (g & Hg & Hv). exists g. split; [by apply elem_of_cons; right | done].
      * intros (g & Hg & Hv). apply elem_of_cons in Hg as [->|Hg]; [done|]. eauto.
    + split; [|done]. intros _. exists f. split; [by apply elem_of_cons; left|].
      intros Hv. apply isTrue_spec in Hv. congruence.
Qed.

(** C3.  A scenario does not apply to a customer who does not own its
    product.  For a customer who does, a scenario with required flags does
    not apply exactly when the configuration of the customer has no block
    for the product (there is no configuration, or none under the product
    key) or some required flag is not [true] in that block, an absent flag
    and [false] alike; it applies exactly when the block is there and every
    required flag is [true] in it.  A scenario without required flags
    applies. *)
Theorem scenarioApplies_rules (scenario : Scenario.t) (customer : Customer.t)
    (customerConfig : option CustomerConfig) :
  (Scenario.product scenario ∉ Customer.products customer ->
     scenarioApplies scenario customer customerConfig = false)
  /\ (Scenario.product scenario ∈ Customer.products customer ->
      forall required, Scenario.requiredFlags scenario = Some required ->
      required <> [] ->
      (scenarioApplies scenario customer customerConfig = false
       <-> ((forall blocks, customerConfig = Some blocks ->
               blocks !! Scenario.product scenario = None)
            \/ exists blocks productConfig flagKey,
                 customerConfig = Some blocks
                 /\ blocks !! Scenario.product scenario = Some productConfig
                 /\ flagKey ∈ required
                 /\ ProductConfig.flags productConfig !! flagKey <> Some (VBool true)))
      /\ (scenarioApplies scenario customer customerConfig = true
          <-> exists blocks productConfig,
                customerConfig = Some blocks
                /\ blocks !! Scenario.product scenario = Some productConfig
                /\ forall flagKey, flagKey ∈ required ->
                     ProductConfig.flags productConfig !! flagKey = Some (VBool true)))
  /\ (Scenario.product scenario ∈ Customer.products customer ->
      (Scenario.requiredFlags scenario = None
       \/ Scenario.requiredFlags scenario = Some []) ->
      scenarioApplies scenario customer customerConfig = true).
Proof.
  unfold scenarioApplies, productBlock. split; [|split].
  - intros H. by rewrite bool_decide_eq_false_2.
  - intros H required Hreq Hne. rewrite bool_decide_eq_true_2 by done.
    cbn [negb]. rewrite Hreq. destruct required as [|f fs]; [done|].
    destruct customerConfig as [blocks|].
    + destruct (blocks !! Scenario.product scenario) as [pc|] eqn:Hpc.
      * rewrite requiredFlagsHold_fails, requiredFlagsHold_spec. split; split.
        -- intros (g & Hg & Hv). right. by exists blocks, pc, g.
        -- intros [Hno | (blocks' & pc' & g & [= <-] & Hpc' & Hg & Hv)].
           ++ specialize (Hno blocks eq_refl). congruence.
           ++ assert (pc' = pc) as -> by congruence. by exists g.
        -- intros Hall. by exists blocks, pc.
        -- intros (blocks' & pc' & [= <-] & Hpc' & Hall).
           by assert (pc = pc') as -> by congruence.
      * split; split; try done.
        -- intros _. left. by intros blocks' [= <-].
        -- intros (blocks' & pc' & [= <-] & Hpc' & _). congruence.
    + split; split; try done.
      * intros _. by left.
      * by intros (blocks' & pc' & [= ] & _).
  - intros H Hreq. rewrite bool_decide_eq_true_2 by done. cbn [negb].
    by destruct Hreq as [-> | ->].
Qed.

End Applicability.

Section FlagTestsLemmas.

Variable flagData : FlagData.t.
Variable testDefs : TestDefs.t.

Lemma visitFlag_entries productKey pc catKey acc fl :
  visitFlag testDefs productKey pc catKey acc fl
  = mkFlagTests (enabled acc ++ enabledEntry testDefs productKey pc catKey fl)
                (disabled acc ++ disabledEntry testDefs productKey pc catKey fl).
Proof.
  unfold visitFlag, enabledEntry, disabledEntry, tested, flagApplies.
  destruct acc as [en dis]. cbn [enabled disabled].
  assert (Hskip : mkFlagTests en dis = mkFlagTests (en ++ []) (dis ++ []))
    by (by rewrite !app_nil_r).
  destruct (Flag.applicableProducts fl) as [|keys];
    [|destruct (bool_decide (productKey ∈ keys))]; cbn [negb]; [| |done].
  all: destruct (TestDefs.flagTestCriteria testDefs !! Flag.key fl) as [tc|]; [|done].
  all: destruct (ProductConfig.flags pc !! Flag.key fl) as [[| |[]| |]|];
    cbn [isTrue isFalse]; try done.
  all: try (by destruct (Criteria.whenEnabled tc); rewrite ?app_nil_r).
  all: by destruct (Criteria.whenDisabled tc); rewrite ?app_nil_r.
Qed.

Lemma flagApplies_spec (fl : Flag.t) (productKey : string) :
  flagApplies fl productKey = true
  <-> Flag.applicableProducts fl = Flag.All
      \/ exists keys, Flag.applicableProducts fl = Flag.Only keys /\ productKey ∈ keys.
Proof.
  unfold flagApplies. destruct (Flag.applicableProducts fl) as [|keys].
  - split; [by left | done].
  - rewrite bool_decide_eq_true. split.
    + intros H. right. by exists keys.
    + by intros [? | (keys' & [= <-] & H)].
Qed.

Lemma productBlock_spec (customerConfig : option CustomerConfig) (productKey : string) :
  productBlock customerConfig productKey
  = customerConfig ≫= (fun blocks => blocks !! productKey).
Proof. by destruct customerConfig. Qed.

Lemma visitCategory_entries productKey pc acc entry :
  visitCategory testDefs productKey pc acc entry
  = mkFlagTests
      (enabled acc ++ flat_map (enabledEntry testDefs productKey pc (fst entry))
                        (snd entry))
      (disabled acc ++ flat_map (disabledEntry testDefs productKey pc (fst entry))
                         (snd entry)).
Proof.
  unfold visitCategory. destruct entry as [catKey flags]. cbn [fst snd].
  revert acc. induction flags as [|fl flags IH]; intros acc.
  - destruct acc. simpl. by rewrite !app_nil_r.
  - cbn [fold_left flat_map]. rewrite IH, visitFlag_entries. cbn [enabled disabled].
    by rewrite <- !app_assoc.
Qed.

Lemma visitCatalog_entries productKey pc acc entries :
  fold_left (visitCategory testDefs productKey pc) entries acc
  = mkFlagTests
      (enabled acc
       ++ flat_map (fun entry =>
                      flat_map (enabledEntry testDefs productKey pc (fst entry))
                        (snd entry)) entries)
      (disabled acc
       ++ flat_map (fun entry =>
                      flat_map (disabledEntry testDefs productKey pc (fst entry))
                        (snd entry)) entries).
Proof.
  revert acc. induction entries as [|e entries IH]; intros acc.
  - destruct acc. simpl. by rewrite !app_nil_r.
  - cbn [fold_left flat_map]. rewrite IH, visitCategory_entries. cbn [enabled disabled].
    by rewrite <- !app_assoc.
Qed.

Lemma getFlagTests_select customer productKey customerConfig :
  getFlagTests flagData testDefs customer productKey customerConfig
  = selectFlagTests flagData testDefs productKey customerConfig.
Proof.
  unfold getFlagTests, selectFlagTests. rewrite <- productBlock_spec.
  destruct (productBlock customerConfig productKey) as [pc|]; [|done].
  by rewrite visitCatalog_entries.
Qed.

Lemma elem_of_enabledEntry productKey pc catKey fl ft :
  ft ∈ enabledEntry testDefs productKey pc catKey fl
  <-> exists tc cs,
        flagApplies fl productKey = true
        /\ TestDefs.flagTestCriteria testDefs !! Flag.key fl = Some tc
        /\ ProductConfig.flags pc !! Flag.key fl = Some (VBool true)
        /\ Criteria.whenEnabled tc = Some cs
        /\ ft = mkFlagTest fl cs catKey.
Proof.
  assert (Ht : tested testDefs productKey fl
               = if flagApplies fl productKey
                 then TestDefs.flagTestCriteria testDefs !! Flag.key fl else None).
  { unfold tested, flagApplies. by destruct (Flag.applicableProducts fl). }
  unfold enabledEntry. rewrite Ht. split.
  - destruct (flagApplies fl productKey); [|by intros ?%elem_of_nil].
    destruct (TestDefs.flagTestCriteria testDefs !! Flag.key fl) as [tc|];
      [|by intros ?%elem_of_nil].
    destruct (ProductConfig.flags pc !! Flag.key fl) as [[| |[]| |]|];
      try by intros ?%elem_of_nil.
    destruct (Criteria.whenEnabled tc) as [cs|] eqn:Hw; [|by intros ?%elem_of_nil].
    intros ->%list_elem_of_singleton. by exists tc, cs.
  - intros (tc & cs & Ha & Hc & Hv & Hw & ->). rewrite Ha, Hc, Hv, Hw.
    by apply list_elem_of_singleton.
Qed.

Lemma elem_of_disabledEntry productKey pc catKey fl ft :
  ft ∈ disabledEntry testDefs productKey pc catKey fl
  <-> exists tc cs,
        flagApplies fl productKey = true
        /\ TestDefs.flagTestCriteria testDefs !! Flag.key fl = Some tc
        /\ ProductConfig.flags pc !! Flag.key fl = Some (VBool false)
        /\ Criteria.whenDisabled tc = Some cs
        /\ ft = mkFlagTest fl cs catKey.
Proof.
  assert (Ht : tested testDefs productKey fl
               = if flagApplies fl productKey
                 then TestDefs.flagTestCriteria testDefs !! Flag.key fl else None).
  { unfold tested, flagApplies. by destruct (Flag.applicableProducts fl). }
  unfold disabledEntry. rewrite Ht. split.
  - destruct (flagApplies fl productKey); [|by intros ?%elem_of_nil].
    destruct (TestDefs.flagTestCriteria testDefs !! Flag.key fl) as [tc|];
      [|by intros ?%elem_of_nil].
    destruct (ProductConfig.flags pc !! Flag.key fl) as [[| |[]| |]|];
      try by intros ?%elem_of_nil.
    destruct (Criteria.whenDisabled tc) as [cs|] eqn:Hw; [|by intros ?%elem_of_nil].
    intros ->%list_elem_of_singleton. by exists tc, cs.
  - intros (tc & cs & Ha & Hc & Hv & Hw & ->). rewrite Ha, Hc, Hv, Hw.
    by apply list_elem_of_singleton.
Qed.

Lemma elem_of_catalog {A : Type} (f : string -> Flag.t -> list A)
    (entries : list (string * list Flag.t)) (x : A) :
  x ∈ flat_map (fun entry => flat_map (f (fst entry)) (snd entry)) entries
  <-> exists catKey flags fl,
        (catKey, flags) ∈ entries /\ fl ∈ flags /\ x ∈ f catKey fl.
Proof.
  rewrite list_elem_of_In, in_flat_map. split.
  - intros ([catKey flags] & He & Hx). cbn [fst snd] in Hx.
    apply in_flat_map in Hx as (fl & Hfl & Hx).
    exists catKey, flags, fl. by rewrite !list_elem_of_In.
  - intros (catKey & flags & fl & He & Hfl & Hx).
    exists (catKey, flags). rewrite !list_elem_of_In in *. split; [done|].
    apply in_flat_map. by exists fl.
Qed.

End FlagTestsLemmas.

Section Vendors.

Variable flagData : FlagData.t.
Variable testDefs : TestDefs.t.
Variables ehr1 ehr2 : string.

Local Abbreviation R := (sameUpToTerms testDefs ehr1 ehr2).

Lemma resolvedAlike_refl (v : jsval) : resolvedAlike testDefs ehr1 ehr2 v v.
Proof. by left. Qed.

Lemma resolvedAlike_text (text r1 r2 : string) :
  resolveEhrTerms testDefs text ehr1 = Some r1 ->
  resolveEhrTerms testDefs text ehr2 = Some r2 ->
  resolvedAlike testDefs ehr1 ehr2 (VStr r1) (VStr r2).
Proof. intros H1 H2. right. by exists text, r1, r2. Qed.

Lemma sameUpToTerms_cells (k : rowKind) num section ident user d1 d2 e1 e2 c6 c7 c8 :
  resolvedAlike testDefs ehr1 ehr2 d1 d2 -> resolvedAlike testDefs ehr1 ehr2 e1 e2 ->
  R (mkRow k [num; section; ident; user; d1; e1; c6; c7; c8])
    (mkRow k [num; section; ident; user; d2; e2; c6; c7; c8]).
Proof.
  intros Hd He. split; [done|].
  by exists num, section, ident, user, d1, d2, e1, e2, c6, c7, c8.
Qed.

Lemma alike_stepRows k section scenario steps :
  alike R (stepRows testDefs k section ehr1 scenario steps)
          (stepRows testDefs k section ehr2 scenario steps).
Proof.
  apply alike_inSequence. intros step. apply alike_numbered.
  intros n r1 r2 H1 H2. unfold stepRow in *.
  destruct (resolveEhrTerms testDefs
              (resolveTemplateVars (Step.action step) scenario) ehr1)
    as [a1|] eqn:Ha1; [|done].
  destruct (resolveEhrTerms testDefs
              (resolveTemplateVars (Step.expected step) scenario) ehr1)
    as [x1|] eqn:Hx1; [|done].
  destruct (resolveEhrTerms testDefs
              (resolveTemplateVars (Step.action step) scenario) ehr2)
    as [a2|] eqn:Ha2; [|done].
  destruct (resolveEhrTerms testDefs
              (resolveTemplateVars (Step.expected step) scenario) ehr2)
    as [x2|] eqn:Hx2; [|done].
  injection H1 as <-. injection H2 as <-.
  apply sameUpToTerms_cells; by eapply resolvedAlike_text.
Qed.

Lemma alike_criterionRows k section verdict flagTest :
  alike R (criterionRows testDefs k section verdict ehr1 flagTest)
          (criterionRows testDefs k section verdict ehr2 flagTest).
Proof.
  apply alike_inSequence. intros cr. apply alike_numbered.
  intros n r1 r2 H1 H2. unfold criterionRow in *.
  destruct (resolveEhrTerms testDefs (Criterion.step cr) ehr1) as [a1|] eqn:Ha1; [|done].
  destruct (resolveEhrTerms testDefs (Criterion.step cr) ehr2) as [a2|] eqn:Ha2; [|done].
  injection H1 as <-. injection H2 as <-.
  apply sameUpToTerms_cells; [by eapply resolvedAlike_text | apply resolvedAlike_refl].
Qed.

Lemma alike_flagSection scenario tests :
  alike R (flagSection testDefs ehr1 scenario tests)
          (flagSection testDefs ehr2 scenario tests).
Proof.
  intros n n1 out1 n2 out2 H1 H2. unfold flagSection in *.
  destruct tests as [|t tests].
  - injection H1 as <- <-. injection H2 as <- <-. done.
  - destruct (inSequence _ (t :: tests) n) as [[m1 o1]|] eqn:E1; [|done].
    destruct (inSequence (criterionRows testDefs _ _ _ ehr2) (t :: tests) n)
      as [[m2 o2]|] eqn:E2; [|done].
    injection H1 as <- <-. injection H2 as <- <-.
    destruct (alike_inSequence R _ _ (t :: tests)
                (alike_criterionRows KFlagStep "Flag Verification" "VERIFY")
                _ _ _ _ _ E1 E2) as [-> Ho].
    split; [done|]. constructor; [|done].
    apply sameUpToTerms_cells; apply resolvedAlike_refl.
Qed.

Variables customer1 customer2 : Customer.t.
Hypothesis Hehr1 : Customer.ehr customer1 = ehr1.
Hypothesis Hehr2 : Customer.ehr customer2 = ehr2.
Hypothesis Hproducts : Customer.products customer1 = Customer.products customer2.

Lemma alike_scenarioBlock cfg scenario :
  alike R (scenarioBlock flagData testDefs customer1 cfg scenario)
          (scenarioBlock flagData testDefs customer2 cfg scenario).
Proof.
  intros n n1 out1 n2 out2 H1 H2. unfold scenarioBlock in *. cbv zeta in *.
  rewrite Hehr1 in H1. rewrite Hehr2 in H2.
  change (scenarioFlagTests flagData testDefs scenario customer2 cfg)
    with (scenarioFlagTests flagData testDefs scenario customer1 cfg) in H2.
  set (tests := scenarioFlagTests flagData testDefs scenario customer1 cfg) in *.
  set (start := match Scenario.patientProfile scenario with
                | Some p => (N.succ (N.succ n), [patientSetupRow scenario p])
                | None => (N.succ n, [])
                end) in *.
  assert (Hpat : Forall2 R start.2 start.2).
  { unfold start. destruct (Scenario.patientProfile scenario); [|constructor].
    repeat constructor. apply sameUpToTerms_cells; apply resolvedAlike_refl. }
  destruct start as [m patient]. cbn [snd] in Hpat.
  destruct (stepRows testDefs KSetupStep _ ehr1 _ _ m) as [[a1 s1]|] eqn:E1; [|done].
  destruct (stepRows testDefs KSetupStep _ ehr2 _ _ m) as [[a2 s2]|] eqn:E2; [|done].
  destruct (alike_stepRows _ _ _ _ _ _ _ _ _ E1 E2) as [-> Hs].
  destruct (stepRows testDefs KCoreStep _ ehr1 _ _ a2) as [[b1 c1]|] eqn:F1; [|done].
  destruct (stepRows testDefs KCoreStep _ ehr2 _ _ a2) as [[b2 c2]|] eqn:F2; [|done].
  destruct (alike_stepRows _ _ _ _ _ _ _ _ _ F1 F2) as [-> Hc].
  destruct (flagSection testDefs ehr1 _ _ b2) as [[d1 f1]|] eqn:G1; [|done].
  destruct (flagSection testDefs ehr2 _ _ b2) as [[d2 f2]|] eqn:G2; [|done].
  destruct (alike_flagSection _ _ _ _ _ _ _ G1 G2) as [-> Hf].
  injection H1 as <- <-. injection H2 as <- <-.
  split; [done|]. constructor.
  - apply sameUpToTerms_cells; apply resolvedAlike_refl.
  - repeat apply Forall2_app; done.
Qed.

Lemma scenarioApplies_products cfg scenario :
  scenarioApplies scenario customer1 cfg = scenarioApplies scenario customer2 cfg.
Proof. unfold scenarioApplies. by rewrite Hproducts. Qed.

Lemma alike_part1 cfg scenarios :
  alike R (part1 flagData testDefs customer1 cfg scenarios)
          (part1 flagData testDefs customer2 cfg scenarios).
Proof.
  unfold part1.
  replace (filter (fun s => scenarioApplies s customer2 cfg = true) scenarios)
    with (filter (fun s => scenarioApplies s customer1 cfg = true) scenarios).
  - apply alike_inSequence. intros s. apply alike_scenarioBlock.
  - apply list_filter_iff. intros s. by rewrite scenarioApplies_products.
Qed.

Lemma alike_absenceGroups previous tests :
  alike R (absenceGroups testDefs ehr1 previous tests)
          (absenceGroups testDefs ehr2 previous tests).
Proof.
  revert previous. induction tests as [|t tests IH]; intros previous n n1 out1 n2 out2 H1 H2.
  - injection H1 as <- <-. injection H2 as <- <-. done.
  - cbn [absenceGroups] in *.
    destruct (criterionRows testDefs _ _ _ ehr1 t n) as [[a1 s1]|] eqn:E1; [|done].
    destruct (criterionRows testDefs _ _ _ ehr2 t n) as [[a2 s2]|] eqn:E2; [|done].
    destruct (alike_criterionRows _ _ _ _ _ _ _ _ _ E1 E2) as [-> Hs].
    destruct (absenceGroups testDefs ehr1 _ tests a2) as [[b1 m1]|] eqn:F1; [|done].
    destruct (absenceGroups testDefs ehr2 _ tests a2) as [[b2 m2]|] eqn:F2; [|done].
    destruct (IH _ _ _ _ _ _ F1 F2) as [-> Hm].
    injection H1 as <- <-. injection H2 as <- <-.
    split; [done|]. apply Forall2_app; [|by apply Forall2_app].
    destruct (bool_decide _); repeat constructor.
    apply sameUpToTerms_cells; apply resolvedAlike_refl.
Qed.

Lemma alike_part2 cfg productKeys :
  alike R (part2 flagData testDefs customer1 cfg productKeys)
          (part2 flagData testDefs customer2 cfg productKeys).
Proof.
  apply alike_inSequence. intros p n n1 out1 n2 out2 H1 H2.
  unfold absenceSection in *. rewrite Hehr1 in H1. rewrite Hehr2 in H2.
  change (getFlagTests flagData testDefs customer2 p cfg)
    with (getFlagTests flagData testDefs customer1 p cfg) in H2.
  destruct (disabled _) as [|t tests].
  - injection H1 as <- <-. injection H2 as <- <-. done.
  - destruct (absenceGroups testDefs ehr1 _ _ n) as [[a1 s1]|] eqn:E1; [|done].
    destruct (absenceGroups testDefs ehr2 _ _ n) as [[a2 s2]|] eqn:E2; [|done].
    destruct (alike_absenceGroups _ _ _ _ _ _ _ E1 E2) as [-> Hs].
    injection H1 as <- <-. injection H2 as <- <-.
    split; [done|]. constructor; [|done].
    apply sameUpToTerms_cells; apply resolvedAlike_refl.
Qed.

End Vendors.

Section Blocks.

Variable flagData : FlagData.t.
Variable testDefs : TestDefs.t.

Lemma allRows_stepRows k section ehr scenario steps :
  allRows (fun r => kind r = k) (stepRows testDefs k section ehr scenario steps).
Proof.
  apply allRows_inSequence. intros step. apply allRows_numbered.
  intros n r H. by apply stepRow_shown in H as [_ ?].
Qed.

(** Without relevant flag tests the block of a scenario is the plain one. *)
Lemma scenarioBlock_plain customer cfg scenario n :
  scenarioFlagTests flagData testDefs scenario customer cfg = [] ->
  scenarioBlock flagData testDefs customer cfg scenario n
  = plainBlock testDefs (Customer.ehr customer) scenario n.
Proof.
  intros H. unfold scenarioBlock, plainBlock. cbv zeta. rewrite H.
  destruct (Scenario.patientProfile scenario);
    (destruct (stepRows _ KSetupStep _ _ _ _ _) as [[n3 setup]|]; [|done]);
    (destruct (stepRows _ KCoreStep _ _ _ _ _) as [[n4 core]|]; [|done]);
    cbn [flagSection]; by rewrite app_nil_r.
Qed.

Lemma allRows_plainBlock ehr scenario :
  allRows (fun r => kind r ∈ [KScenarioHeader; KPatientSetup; KSetupStep; KCoreStep])
    (plainBlock testDefs ehr scenario).
Proof.
  intros n n' out H. unfold plainBlock in H. cbv zeta in H.
  set (start := match Scenario.patientProfile scenario with
                | Some p => (N.succ (N.succ n), [patientSetupRow scenario p])
                | None => (N.succ n, [])
                end) in *.
  assert (Hpat : Forall (fun r => kind r ∈ [KScenarioHeader; KPatientSetup; KSetupStep;
                                             KCoreStep]) start.2).
  { unfold start. destruct (Scenario.patientProfile scenario); repeat constructor. }
  destruct start as [m patient]. cbn [snd] in Hpat.
  destruct (stepRows _ KSetupStep _ _ _ _ _) as [[n3 setup]|] eqn:E1; [|done].
  destruct (stepRows _ KCoreStep _ _ _ _ _) as [[n4 core]|] eqn:E2; [|done].
  injection H as <- <-.
  apply allRows_stepRows in E1, E2.
  constructor; [by left|].
  apply Forall_app; split; [done|]. apply Forall_app; split.
  - eapply Forall_impl; [exact E1|]. intros r ->. repeat constructor.
  - eapply Forall_impl; [exact E2|]. intros r ->. repeat constructor.
Qed.

(** With a vocabulary at hand no step row raises. *)
Lemma stepRow_total k section ehr scenario step n :
  is_Some (ehrTerms testDefs ehr) ->
  is_Some (numbered (stepRow testDefs k section ehr scenario step) n).
Proof.
  intros [terms Ht]. unfold numbered, stepRow, resolveEhrTerms. rewrite Ht. by eexists.
Qed.

Lemma stepRows_total k section ehr scenario steps n :
  is_Some (ehrTerms testDefs ehr) ->
  is_Some (stepRows testDefs k section ehr scenario steps n).
Proof.
  intros Ht. revert n. induction steps as [|step steps IH]; intros n; [by eexists|].
  unfold stepRows in *. cbn [inSequence].
  destruct (stepRow_total k section ehr scenario step n Ht) as [[n1 o1] ->].
  destruct (IH n1) as [[n' out] ->]. by eexists.
Qed.

Lemma plainBlock_total ehr scenario n :
  is_Some (ehrTerms testDefs ehr) -> is_Some (plainBlock testDefs ehr scenario n).
Proof.
  intros Ht. unfold plainBlock. cbv zeta.
  destruct (Scenario.patientProfile scenario).
  - destruct (stepRows_total KSetupStep "Setup" ehr scenario
                (Scenario.setupSteps scenario) (N.succ (N.succ n)) Ht) as [[n3 s] ->].
    destruct (stepRows_total KCoreStep "Bayesian UI Test" ehr scenario
                (Scenario.coreTestSteps scenario) n3 Ht) as [[n4 c] ->]. by eexists.
  - destruct (stepRows_total KSetupStep "Setup" ehr scenario
                (Scenario.setupSteps scenario) (N.succ n) Ht) as [[n3 s] ->].
    destruct (stepRows_total KCoreStep "Bayesian UI Test" ehr scenario
                (Scenario.coreTestSteps scenario) n3 Ht) as [[n4 c] ->]. by eexists.
Qed.

Lemma inSequence_total {A : Type} (g : A -> Emitter) (xs : list A) (n : N) :
  (forall x m, is_Some (g x m)) -> is_Some (inSequence g xs n).
Proof.
  intros Hg. revert n. induction xs as [|x xs IH]; intros n; [by eexists|].
  cbn [inSequence]. destruct (Hg x n) as [[n1 o1] ->].
  destruct (IH n1) as [[n2 o2] ->]. by eexists.
Qed.

Lemma inSequence_ext {A : Type} (g1 g2 : A -> Emitter) (xs : list A) (n : N) :
  (forall x m, g1 x m = g2 x m) -> inSequence g1 xs n = inSequence g2 xs n.
Proof.
  intros Hg. revert n. induction xs as [|x xs IH]; intros n; [done|].
  cbn [inSequence]. rewrite Hg. destruct (g2 x n) as [[n1 o1]|]; [|done].
  by rewrite IH.
Qed.

Lemma inSequence_silent {A : Type} (g : A -> Emitter) (xs : list A) (n : N) :
  (forall x m, g x m = Some (m, [])) -> inSequence g xs n = Some (n, []).
Proof.
  intros Hg. revert n. induction xs as [|x xs IH]; intros n; [done|].
  cbn [inSequence]. by rewrite Hg, IH.
Qed.

(** *** A customer without a configuration *)

Lemma getFlagTests_unconfigured customer productKey :
  getFlagTests flagData testDefs customer productKey None = mkFlagTests [] [].
Proof. reflexivity. Qed.

Lemma scenarioApplies_unconfigured scenario customer :
  scenarioApplies scenario customer None = true <-> ownedUnflagged customer scenario.
Proof.
  unfold scenarioApplies, ownedUnflagged.
  destruct (decide (Scenario.product scenario ∈ Customer.products customer)) as [H|H].
  - rewrite bool_decide_eq_true_2 by done. cbn [negb productBlock].
    destruct (Scenario.requiredFlags scenario) as [[|f fs]|]; intuition discriminate.
  - rewrite bool_decide_eq_false_2 by done. intuition discriminate.
Qed.

Lemma part1_unconfigured customer scenarios n :
  part1 flagData testDefs customer None scenarios n
  = inSequence (plainBlock testDefs (Customer.ehr customer))
      (filter (ownedUnflagged customer) scenarios) n.
Proof.
  unfold part1.
  rewrite (list_filter_iff _ (ownedUnflagged customer)).
  - apply inSequence_ext. intros s m. by apply scenarioBlock_plain.
  - intros s. apply scenarioApplies_unconfigured.
Qed.

Lemma part2_unconfigured customer productKeys n :
  part2 flagData testDefs customer None productKeys n = Some (n, []).
Proof. apply inSequence_silent. intros p m. reflexivity. Qed.

(** *** The relevance gate *)

Lemma elem_of_add_if (c : bool) (rc extra : gset string) (cat : string) :
  cat ∈ (if c then rc ∪ extra else rc) <-> cat ∈ rc \/ (c = true /\ cat ∈ extra).
Proof. destruct c; [rewrite elem_of_union|]; intuition discriminate. Qed.

Lemma elem_of_add2_if (c : bool) (rc extra1 extra2 : gset string) (cat : string) :
  cat ∈ (if c then rc ∪ extra1 ∪ extra2 else rc)
  <-> cat ∈ rc \/ (c = true /\ (cat ∈ extra1 \/ cat ∈ extra2)).
Proof. destruct c; [rewrite !elem_of_union|]; intuition discriminate. Qed.

Lemma relevantCategories_spec scenario cat :
  cat ∈ relevantCategories scenario
  <-> (fullFlow scenario = true
       /\ (cat = "assessment_writeback" \/ cat = "documentation" \/ cat = "regulatory"
           \/ (cat = "bundle_manager"
               /\ exists required, Scenario.requiredFlags scenario = Some required
                                   /\ "bundle_tracking" ∈ required)))
      \/ ((Scenario.key scenario = "no_sepsis_no_infection"
           \/ Scenario.key scenario = "septic_shock_rnf_to_icu")
          /\ (cat = "assessment_writeback" \/ cat = "contributing_factors"))
      \/ ((Scenario.key scenario = "abx_workflow"
           \/ Scenario.key scenario = "comfort_care_suppression")
          /\ cat = "suppression").
Proof.
  unfold relevantCategories, fullFlow. cbv zeta.
  repeat (rewrite elem_of_add2_if || rewrite elem_of_add_if).
  rewrite !bool_decide_eq_true.
  destruct (Str.includes "sepsis_ed" (Scenario.key scenario)
            || Str.includes "septic_shock" (Scenario.key scenario)).
  - destruct (Scenario.requiredFlags scenario) as [required|].
    + rewrite elem_of_add_if, bool_decide_eq_true.
      rewrite !elem_of_union, !elem_of_singleton, elem_of_empty.
      split.
      * intros H. decompose [and or] H; try tauto.
        left. split; [done|]. do 3 right. split; [done|]. by exists required.
      * intros H. decompose [and or ex] H; try tauto.
        match goal with E : Some _ = Some _ |- _ => injection E as <- end. tauto.
    + rewrite !elem_of_union, !elem_of_singleton, elem_of_empty.
      split; intros H; decompose [and or ex] H; try tauto; discriminate.
  - rewrite !elem_of_singleton, elem_of_empty.
    split; intros H; decompose [and or ex] H; try tauto; discriminate.
Qed.

End Blocks.

(** A text without the token is left as it is. *)
Lemma replaceAll_go_absent (tok rep before s : string) :
  Str.includes tok s = false -> Str.replaceAll_go tok rep before 0 s = s.
Proof.
  revert before. induction s as [|c s IH]; intros before H; [done|].
  cbn [Str.includes] in H. apply orb_false_iff in H as [Hp Hs].
  rewrite replaceAll_go_step, Hp. by rewrite IH.
Qed.

Lemma applyTerms_absent (terms : Terms.t) (text : string) :
  hasEhrToken text = false -> applyTerms terms text = text.
Proof.
  unfold hasEhrToken, applyTerms, Str.replaceAll. intros H.
  do 5 (apply orb_false_iff in H as [H ?]).
  rewrite (replaceAll_go_absent "{flowsheet}") by done.
  rewrite (replaceAll_go_absent "{patientList}") by done.
  rewrite (replaceAll_go_absent "{alertFlag}") by done.
  rewrite (replaceAll_go_absent "{noteType}") by done.
  rewrite (replaceAll_go_absent "{orderEntry}") by done.
  by rewrite (replaceAll_go_absent "{storyboard}").
Qed.

Section Absence.

Variable flagData : FlagData.t.
Variable testDefs : TestDefs.t.

Lemma allRows_absenceSteps ehr flagTest :
  allRows absenceRow
    (criterionRows testDefs KAbsenceStep "Absence Test" "VERIFY ABSENT" ehr flagTest).
Proof.
  apply allRows_inSequence. intros cr. apply allRows_numbered.
  intros n r H. apply criterionRow_shown in H as (Hn & Hk & Hs & Hv).
  unfold absenceRow. rewrite Hk, Hn. by eauto.
Qed.

Lemma allRows_absenceGroups ehr previous tests :
  allRows absenceRow (absenceGroups testDefs ehr previous tests).
Proof.
  revert previous. induction tests as [|t tests IH]; intros previous n n' out H.
  - by injection H as <- <-.
  - cbn [absenceGroups] in H.
    destruct (criterionRows _ _ _ _ _ t n) as [[n1 steps]|] eqn:H1; [|done].
    destruct (absenceGroups _ _ _ tests n1) as [[n2 more]|] eqn:H2; [|done].
    injection H as <- <-.
    apply Forall_app. split; [by destruct (bool_decide _); repeat constructor|].
    apply Forall_app. split; [by eapply allRows_absenceSteps | by eapply IH].
Qed.

Lemma allRows_part2 customer cfg productKeys :
  allRows absenceRow (part2 flagData testDefs customer cfg productKeys).
Proof.
  apply allRows_inSequence. intros p n n' out H. unfold absenceSection in H.
  destruct (disabled _) as [|t tests]; [by injection H as <- <-|].
  destruct (absenceGroups _ _ _ (t :: tests) n) as [[n1 body]|] eqn:H1; [|done].
  injection H as <- <-. constructor; [done|]. by eapply allRows_absenceGroups.
Qed.

End Absence.

(** *** The numbers shown in a plan *)

Lemma rising_nil (n : N) : rising n n [].
Proof. split; [lia|]. split; constructor. Qed.

Lemma rising_app (n n1 n2 : N) (out1 out2 : list Row) :
  rising n n1 out1 -> rising n1 n2 out2 -> rising n n2 (out1 ++ out2).
Proof.
  intros (Hle1 & Hs1 & Hb1) (Hle2 & Hs2 & Hb2). split; [lia|].
  rewrite shownNumbers_app. split.
  - apply StronglySorted_app_2; [|done|done].
    intros x1 x2 Hx1 Hx2.
    apply (proj1 (Forall_forall _ _) Hb1) in Hx1.
    apply (proj1 (Forall_forall _ _) Hb2) in Hx2. lia.
  - apply Forall_app. split.
    + eapply Forall_impl; [exact Hb1|]. intros m Hm. cbn in Hm. lia.
    + eapply Forall_impl; [exact Hb2|]. intros m Hm. cbn in Hm. lia.
Qed.

(** A row without a number may take a number of the counter or none. *)
Lemma rising_blank (n n' : N) (r : Row) :
  (n <= n')%N -> shownNumber r = None -> rising n n' [r].
Proof.
  intros Hle Hr. split; [done|]. unfold shownNumbers. cbn. rewrite Hr.
  split; constructor.
Qed.

Lemma rising_upFrom (n : N) (len : nat) (out : list Row) :
  shownNumbers out = upFrom n len -> rising n (n + N.of_nat len) out.
Proof.
  unfold rising. intros ->. split; [lia|]. revert n.
  induction len as [|len IH]; intros n.
  - split; constructor.
  - destruct (IH (N.succ n)) as [Hs Hb]. cbn [upFrom]. split.
    + constructor; [done|]. eapply Forall_impl; [exact Hb|]. intros m Hm. cbn in Hm. lia.
    + constructor; [lia|]. eapply Forall_impl; [exact Hb|]. intros m Hm. cbn in Hm. lia.
Qed.

Lemma rises_counts (g : Emitter) : counts g -> rises g.
Proof.
  intros Hg n n' out H. destruct (Hg _ _ _ H) as (len & -> & Hout).
  by apply rising_upFrom.
Qed.

Lemma rises_inSequence {A : Type} (g : A -> Emitter) (xs : list A) :
  (forall x, rises (g x)) -> rises (inSequence g xs).
Proof.
  intros Hg. induction xs as [|x xs IH]; intros n n' out H; simpl in H.
  - injection H as <- <-. apply rising_nil.
  - destruct (g x n) as [[n1 out1]|] eqn:H1; [|done].
    destruct (inSequence g xs n1) as [[n2 out2]|] eqn:H2; [|done].
    injection H as <- <-. eapply rising_app; [by eapply Hg | by eapply IH].
Qed.

Section Numbers.

Variable flagData : FlagData.t.
Variable testDefs : TestDefs.t.

Lemma counts_stepRows k section ehr scenario steps :
  counts (stepRows testDefs k section ehr scenario steps).
Proof.
  apply counts_inSequence. intros step. apply counts_numbered.
  intros n r H. by apply stepRow_shown in H as [? _].
Qed.

Lemma rises_flagSection ehr scenario tests :
  rises (flagSection testDefs ehr scenario tests).
Proof.
  intros n n' out H. unfold flagSection in H. destruct tests as [|t tests].
  - injection H as <- <-. apply rising_nil.
  - destruct (inSequence _ (t :: tests) n) as [[n1 body]|] eqn:H1; [|done].
    injection H as <- <-.
    apply (rising_app n n n1 [flagHeaderRow scenario] body).
    + by apply rising_blank.
    + revert H1. apply rises_inSequence. intros ft.
      apply rises_counts, counts_criterionRows.
Qed.

Lemma rises_scenarioBlock customer cfg scenario :
  rises (scenarioBlock flagData testDefs customer cfg scenario).
Proof.
  intros n n' out H. unfold scenarioBlock in H. cbv zeta in H.
  set (start := match Scenario.patientProfile scenario with
                | Some p => (N.succ (N.succ n), [patientSetupRow scenario p])
                | None => (N.succ n, [])
                end) in *.
  assert (Hstart : rising (N.succ n) start.1 start.2).
  { unfold start. destruct (Scenario.patientProfile scenario); cbn [fst snd].
    - apply rising_blank; [lia | done].
    - apply rising_nil. }
  destruct start as [m patient]. cbn [fst snd] in Hstart.
  destruct (stepRows _ KSetupStep _ _ _ _ m) as [[n3 setup]|] eqn:E1; [|done].
  destruct (stepRows _ KCoreStep _ _ _ _ n3) as [[n4 core]|] eqn:E2; [|done].
  destruct (flagSection _ _ _ _ n4) as [[n5 flags]|] eqn:E3; [|done].
  injection H as <- <-.
  apply (rising_app n (N.succ n) n5 [scenarioHeaderRow scenario]).
  { apply rising_blank; [lia | done]. }
  apply (rising_app _ m); [done|].
  apply (rising_app _ n3); [by eapply rises_counts; [apply counts_stepRows|]|].
  apply (rising_app _ n4); [by eapply rises_counts; [apply counts_stepRows|]|].
  by eapply rises_flagSection.
Qed.

Lemma allRows_flagSection ehr scenario tests :
  allRows numberedIffStep (flagSection testDefs ehr scenario tests).
Proof.
  intros n n' out H. unfold flagSection in H. destruct tests as [|t tests].
  - by injection H as <- <-.
  - destruct (inSequence _ (t :: tests) n) as [[n1 body]|] eqn:H1; [|done].
    injection H as <- <-. constructor.
    + split; [by intros [? ?] | done].
    + revert H1. apply allRows_inSequence. intros ft.
      apply allRows_inSequence. intros cr. apply allRows_numbered.
      intros m r Hr. apply criterionRow_shown in Hr as (Hn & Hk & _).
      unfold numberedIffStep. rewrite Hn, Hk. by split.
Qed.

Lemma allRows_steps k section ehr scenario steps :
  isStep k = true ->
  allRows numberedIffStep (stepRows testDefs k section ehr scenario steps).
Proof.
  intros Hk. apply allRows_inSequence. intros step. apply allRows_numbered.
  intros m r Hr. apply stepRow_shown in Hr as (Hn & Hkind).
  unfold numberedIffStep. rewrite Hn, Hkind, Hk. by split.
Qed.

Lemma allRows_scenarioBlock customer cfg scenario :
  allRows numberedIffStep (scenarioBlock flagData testDefs customer cfg scenario).
Proof.
  intros n n' out H. unfold scenarioBlock in H. cbv zeta in H.
  set (start := match Scenario.patientProfile scenario with
                | Some p => (N.succ (N.succ n), [patientSetupRow scenario p])
                | None => (N.succ n, [])
                end) in *.
  assert (Hstart : Forall numberedIffStep start.2).
  { unfold start. destruct (Scenario.patientProfile scenario); cbn [snd]; [|done].
    repeat constructor; [by intros [? ?] | done]. }
  destruct start as [m patient]. cbn [snd] in Hstart.
  destruct (stepRows _ KSetupStep _ _ _ _ m) as [[n3 setup]|] eqn:E1; [|done].
  destruct (stepRows _ KCoreStep _ _ _ _ n3) as [[n4 core]|] eqn:E2; [|done].
  destruct (flagSection _ _ _ _ n4) as [[n5 flags]|] eqn:E3; [|done].
  injection H as <- <-. constructor; [split; [by intros [? ?] | done]|].
  apply Forall_app. split; [done|].
  apply Forall_app. split; [exact (allRows_steps KSetupStep _ _ _ _ eq_refl _ _ _ E1)|].
  apply Forall_app. split; [exact (allRows_steps KCoreStep _ _ _ _ eq_refl _ _ _ E2)|].
  by eapply allRows_flagSection.
Qed.

Lemma absenceRow_numbered (r : Row) : absenceRow r -> numberedIffStep r.
Proof.
  unfold absenceRow, numberedIffStep.
  destruct (kind r); try done.
  - intros ->. split; [by intros [? ?] | done].
  - intros ->. split; [by intros [? ?] | done].
  - intros (Hn & _). by split.
Qed.

(** X1.  In every plan a row shows a number exactly when it stands for a
    test action, and the numbers shown increase from one row to the next; they
    need not be consecutive, since the header and patient rows of a
    scenario take a number each. *)
Lemma plan_numbers_increase (customer : Customer.t) (plan : list Row) :
  planRows flagData testDefs customer = Some plan ->
  Forall numberedIffStep plan
  /\ StronglySorted N.lt (shownNumbers plan)
  /\ Forall (fun m => (0 < m)%N) (shownNumbers plan).
Proof.
  rewrite planRows_parts. cbv zeta. intros H.
  set (cfg := FlagData.configurations flagData !! Customer.key customer) in *.
  destruct (part1 _ _ _ cfg _ 0%N) as [[n1 out1]|] eqn:E1; [|done].
  destruct (part2 _ _ _ cfg _ n1) as [[n2 out2]|] eqn:E2; [|done].
  injection H as <-. split.
  - constructor; [split; [by intros [? ?] | done]|]. apply Forall_app. split.
    + revert E1. apply allRows_inSequence. intros s. apply allRows_scenarioBlock.
    + eapply Forall_impl; [by eapply allRows_part2 | apply absenceRow_numbered].
  - assert (Hrise : rising 0 n2 (out1 ++ out2)).
    { apply (rising_app _ n1).
      - revert E1. apply rises_inSequence. intros s. apply rises_scenarioBlock.
      - revert E2. apply rises_counts, counts_part2. }
    destruct Hrise as (_ & Hs & Hb). split; [done|].
    eapply Forall_impl; [exact Hb|]. intros m Hm. cbn in Hm. lia.
Qed.

End Numbers.

(** ** When the generator raises *)

Lemma inSequence_some {A : Type} (g : A -> Emitter) (Q : A -> Prop) (xs : list A) (n : N) :
  (forall x m, is_Some (g x m) <-> Q x) ->
  is_Some (inSequence g xs n) <-> Forall Q xs.
Proof.
  intros Hg. revert n. induction xs as [|x xs IH]; intros n.
  - split; [constructor | by eexists].
  - cbn [inSequence]. rewrite Forall_cons, <- (Hg x n).
    destruct (g x n) as [[n1 out1]|].
    + rewrite <- (IH n1). destruct (inSequence g xs n1) as [[n2 out2]|].
      * split; [by split; eexists | by eexists].
      * split; [by intros [? ?] | by intros [_ [? ?]]].
    + split; [by intros [? ?] | by intros [[? ?] _]].
Qed.

Lemma Forall_never {A : Type} (xs : list A) : Forall (fun _ => False) xs <-> xs = [].
Proof. split; [by destruct 1 | by intros ->]. Qed.

Section Raising.

Variable flagData : FlagData.t.
Variable testDefs : TestDefs.t.
Variable ehr : string.

Section WithTerms.

Hypothesis Hterms : is_Some (ehrTerms testDefs ehr).

Lemma criterionRow_total k section verdict flagTest cr n :
  is_Some (numbered (criterionRow testDefs k section verdict ehr flagTest cr) n).
Proof.
  destruct Hterms as [terms Ht].
  unfold numbered, criterionRow, resolveEhrTerms. rewrite Ht. by eexists.
Qed.

Lemma criterionRows_total k section verdict flagTest n :
  is_Some (criterionRows testDefs k section verdict ehr flagTest n).
Proof. apply inSequence_total. intros cr m. apply criterionRow_total. Qed.

Lemma flagSection_total scenario tests n :
  is_Some (flagSection testDefs ehr scenario tests n).
Proof.
  unfold flagSection. destruct tests as [|t tests]; [by eexists|].
  destruct (inSequence_total
              (criterionRows testDefs KFlagStep "Flag Verification" "VERIFY" ehr)
              (t :: tests) n) as [[n' out] ->]; [|by eexists].
  intros ft m. apply criterionRows_total.
Qed.

Lemma absenceGroups_total previous tests n :
  is_Some (absenceGroups testDefs ehr previous tests n).
Proof.
  revert previous n. induction tests as [|t tests IH]; intros previous n; [by eexists|].
  cbn [absenceGroups].
  destruct (criterionRows_total KAbsenceStep "Absence Test" "VERIFY ABSENT" t n)
    as [[n1 steps] ->].
  destruct (IH (Some (category t)) n1) as [[n2 more] ->]. by eexists.
Qed.

End WithTerms.

Section WithoutTerms.

Hypothesis Hnone : ehrTerms testDefs ehr = None.

Lemma stepRows_none k section scenario steps n :
  is_Some (stepRows testDefs k section ehr scenario steps n) <-> steps = [].
Proof.
  unfold stepRows. rewrite <- Forall_never. apply inSequence_some.
  intros step m. unfold numbered, stepRow, resolveEhrTerms. rewrite Hnone.
  split; [by intros [? ?] | done].
Qed.

Lemma criterionRows_none k section verdict flagTest n :
  is_Some (criterionRows testDefs k section verdict ehr flagTest n)
  <-> criteria flagTest = [].
Proof.
  unfold criterionRows. rewrite <- Forall_never. apply inSequence_some.
  intros cr m. unfold numbered, criterionRow, resolveEhrTerms. rewrite Hnone.
  split; [by intros [? ?] | done].
Qed.

Lemma flagSection_none scenario tests n :
  is_Some (flagSection testDefs ehr scenario tests n)
  <-> Forall (fun t => criteria t = []) tests.
Proof.
  unfold flagSection. destruct tests as [|t tests]; [split; [constructor | by eexists]|].
  rewrite <- (inSequence_some
                (criterionRows testDefs KFlagStep "Flag Verification" "VERIFY" ehr)
                (fun t => criteria t = []) (t :: tests) n).
  - destruct (inSequence _ (t :: tests) n) as [[n' out]|];
      [split; by eexists | split; by intros [? ?]].
  - intros ft m. apply criterionRows_none.
Qed.

Lemma absenceGroups_none previous tests n :
  is_Some (absenceGroups testDefs ehr previous tests n)
  <-> Forall (fun t => criteria t = []) tests.
Proof.
  revert previous n. induction tests as [|t tests IH]; intros previous n.
  - split; [constructor | by eexists].
  - cbn [absenceGroups]. rewrite Forall_cons.
    rewrite <- (criterionRows_none KAbsenceStep "Absence Test" "VERIFY ABSENT" t n).
    destruct (criterionRows _ _ _ _ _ t n) as [[n1 steps]|].
    + rewrite <- (IH (Some (category t)) n1).
      destruct (absenceGroups _ _ _ tests n1) as [[n2 more]|].
      * split; [by split; eexists | by eexists].
      * split; [by intros [? ?] | by intros [_ [? ?]]].
    + split; [by intros [? ?] | by intros [[? ?] _]].
Qed.

End WithoutTerms.

End Raising.

Section PlanRaises.

Variable flagData : FlagData.t.
Variable testDefs : TestDefs.t.

Lemma scenarioBlock_total customer cfg scenario n :
  is_Some (ehrTerms testDefs (Customer.ehr customer)) ->
  is_Some (scenarioBlock flagData testDefs customer cfg scenario n).
Proof.
  intros Ht. unfold scenarioBlock. cbv zeta.
  destruct (Scenario.patientProfile scenario).
  - destruct (stepRows_total testDefs KSetupStep "Setup" _ scenario
                (Scenario.setupSteps scenario) (N.succ (N.succ n)) Ht) as [[n3 s] ->].
    destruct (stepRows_total testDefs KCoreStep "Bayesian UI Test" _ scenario
                (Scenario.coreTestSteps scenario) n3 Ht) as [[n4 c] ->].
    destruct (flagSection_total testDefs _ Ht scenario
                (scenarioFlagTests flagData testDefs scenario customer cfg) n4)
      as [[n5 f] ->]. by eexists.
  - destruct (stepRows_total testDefs KSetupStep "Setup" _ scenario
                (Scenario.setupSteps scenario) (N.succ n) Ht) as [[n3 s] ->].
    destruct (stepRows_total testDefs KCoreStep "Bayesian UI Test" _ scenario
                (Scenario.coreTestSteps scenario) n3 Ht) as [[n4 c] ->].
    destruct (flagSection_total testDefs _ Ht scenario
                (scenarioFlagTests flagData testDefs scenario customer cfg) n4)
      as [[n5 f] ->]. by eexists.
Qed.

Lemma absenceSection_total customer cfg productKey n :
  is_Some (ehrTerms testDefs (Customer.ehr customer)) ->
  is_Some (absenceSection flagData testDefs customer cfg productKey n).
Proof.
  intros Ht. unfold absenceSection. destruct (disabled _) as [|t tests]; [by eexists|].
  destruct (absenceGroups_total testDefs _ Ht None (t :: tests) n) as [[n' out] ->].
  by eexists.
Qed.

Lemma plainBlock_none ehr scenario n :
  ehrTerms testDefs ehr = None ->
  is_Some (plainBlock testDefs ehr scenario n)
  <-> Scenario.setupSteps scenario = [] /\ Scenario.coreTestSteps scenario = [].
Proof.
  intros Hnone. unfold plainBlock. cbv zeta.
  set (start := match Scenario.patientProfile scenario with
                | Some p => (N.succ (N.succ n), [patientSetupRow scenario p])
                | None => (N.succ n, [])
                end).
  destruct start as [m patient].
  rewrite <- (stepRows_none testDefs _ Hnone KSetupStep "Setup" scenario _ m).
  destruct (stepRows _ KSetupStep _ _ _ _ m) as [[n3 setup]|];
    [|split; [by intros [? ?] | by intros [[? ?] _]]].
  rewrite <- (stepRows_none testDefs _ Hnone KCoreStep "Bayesian UI Test" scenario _ n3).
  destruct (stepRows _ KCoreStep _ _ _ _ n3) as [[n4 core]|];
    [|split; [by intros [? ?] | by intros (_ & [? ?])]].
  split; [by split; eexists | by eexists].
Qed.

Lemma scenarioBlock_none customer cfg scenario n :
  ehrTerms testDefs (Customer.ehr customer) = None ->
  is_Some (scenarioBlock flagData testDefs customer cfg scenario n)
  <-> Scenario.setupSteps scenario = [] /\ Scenario.coreTestSteps scenario = []
      /\ Forall (fun t => criteria t = [])
           (scenarioFlagTests flagData testDefs scenario customer cfg).
Proof.
  intros Hnone. unfold scenarioBlock. cbv zeta.
  set (start := match Scenario.patientProfile scenario with
                | Some p => (N.succ (N.succ n), [patientSetupRow scenario p])
                | None => (N.succ n, [])
                end).
  destruct start as [m patient].
  rewrite <- (stepRows_none testDefs _ Hnone KSetupStep "Setup" scenario _ m).
  destruct (stepRows _ KSetupStep _ _ _ _ m) as [[n3 setup]|];
    [|split; [by intros [? ?] | by intros [[? ?] _]]].
  rewrite <- (stepRows_none testDefs _ Hnone KCoreStep "Bayesian UI Test" scenario _ n3).
  destruct (stepRows _ KCoreStep _ _ _ _ n3) as [[n4 core]|];
    [|split; [by intros [? ?] | by intros (_ & [? ?] & _)]].
  rewrite <- (flagSection_none testDefs _ Hnone scenario _ n4).
  destruct (flagSection _ _ _ _ n4) as [[n5 flags]|];
    [|split; [by intros [? ?] | by intros (_ & _ & [? ?])]].
  split; [by repeat split; eexists | by eexists].
Qed.

Lemma absenceSection_none customer cfg productKey n :
  ehrTerms testDefs (Customer.ehr customer) = None ->
  is_Some (absenceSection flagData testDefs customer cfg productKey n)
  <-> Forall (fun t => criteria t = [])
        (disabled (getFlagTests flagData testDefs customer productKey cfg)).
Proof.
  intros Hnone. unfold absenceSection.
  destruct (disabled _) as [|t tests]; [split; [constructor | by eexists]|].
  rewrite <- (absenceGroups_none testDefs _ Hnone None (t :: tests) n).
  destruct (absenceGroups _ _ _ (t :: tests) n) as [[n' out]|];
    [split; by eexists | split; by intros [? ?]].
Qed.

(** X4.  A plan is generated whenever the vendor of the customer, or Epic,
    has a vocabulary.  Without any vocabulary the generator raises as soon
    as one numbered row is due, and still gives the plan, made of header
    rows alone, when none is. *)
Theorem plan_generation_raises (customer : Customer.t) :
  (is_Some (ehrTerms testDefs (Customer.ehr customer)) ->
   is_Some (planRows flagData testDefs customer))
  /\ (ehrTerms testDefs (Customer.ehr customer) = None ->
      (is_Some (planRows flagData testDefs customer)
       <-> noStepDue flagData testDefs customer)).
Proof.
  rewrite planRows_parts. unfold noStepDue. cbv zeta.
  set (cfg := FlagData.configurations flagData !! Customer.key customer).
  split.
  - intros Ht.
    destruct (inSequence_total (scenarioBlock flagData testDefs customer cfg)
                (filter (fun s => scenarioApplies s customer cfg = true)
                   (TestDefs.scenarios testDefs)) 0%N) as [[n1 out1] H1].
    { intros s m. by apply scenarioBlock_total. }
    unfold part1. rewrite H1.
    destruct (inSequence_total (absenceSection flagData testDefs customer cfg)
                (Customer.products customer) n1) as [[n2 out2] H2].
    { intros p m. by apply absenceSection_total. }
    unfold part2. rewrite H2. by eexists.
  - intros Hnone.
    rewrite <- (inSequence_some (scenarioBlock flagData testDefs customer cfg) _ _ 0%N
                  (fun s m => scenarioBlock_none customer cfg s m Hnone)).
    fold (part1 flagData testDefs customer cfg (TestDefs.scenarios testDefs) 0%N).
    destruct (part1 _ _ _ _ _ 0%N) as [[n1 out1]|];
      [|split; [by intros [? ?] | by intros [[? ?] _]]].
    rewrite <- (inSequence_some (absenceSection flagData testDefs customer cfg) _ _ n1
                  (fun p m => absenceSection_none customer cfg p m Hnone)).
    fold (part2 flagData testDefs customer cfg (Customer.products customer) n1).
    destruct (part2 _ _ _ _ _ n1) as [[n2 out2]|];
      [split; [by split; eexists | by eexists] | split; [by intros [? ?] | by intros [_ [? ?]]]].
Qed.

End PlanRaises.

Lemma plan_generation_raises_witness :
  is_Some (planRows Sample.flagData Sample.testDefs Sample.newco)
  /\ ~ is_Some (planRows Sample.flagData cernerOnly Sample.medstar).
Proof.
  split.
  - apply (proj1 (plan_generation_raises Sample.flagData Sample.testDefs Sample.newco)).
    vm_compute. by eexists.
  - intros H.
    apply (proj2 (plan_generation_raises Sample.flagData cernerOnly Sample.medstar)
             eq_refl) in H.
    destruct H as [H _]. rewrite Forall_forall in H.
    destruct (H Sample.sepsisEd) as (Hsetup & _); [|discriminate Hsetup].
    apply list_elem_of_filter. split; [reflexivity | constructor].
Defined.

(** ** The properties of the specification *)

(** C1, on the sample documents.  The property asks that only the rows of
    test actions advance the step counter, so that the numbers shown are
    1, 2, 3, ... without a gap.  In the plan of the sample customer the
    scenario header and the patient-setup row have each advanced the
    counter without showing a number: the first step shows 3, and the
    header of the second scenario uses up 6.  The three other kinds of
    header row leave the counter alone. *)
Theorem step_numbers_skip_headers :
  option_map (map (fun r => (kind r, shownNumber r)))
    (planRows Sample.flagData Sample.testDefs Sample.medstar)
  = Some [(KTitle, None);
          (KScenarioHeader, None); (KPatientSetup, None);
          (KSetupStep, Some 3%N); (KCoreStep, Some 4%N);
          (KFlagHeader, None); (KFlagStep, Some 5%N);
          (KScenarioHeader, None); (KSetupStep, Some 7%N);
          (KAbsenceHeader, None); (KCategoryHeader, None);
          (KAbsenceStep, Some 8%N)].
Proof. vm_compute. reflexivity. Qed.

(** C2.  The categories of the relevance gate are exactly those of the
    rules: for a key that holds [sepsis_ed] or [septic_shock], assessment
    writeback, documentation and regulatory, and bundle manager exactly when
    the required flags list bundle tracking; assessment writeback and
    contributing factors for the keys [no_sepsis_no_infection] and
    [septic_shock_rnf_to_icu]; suppression for [abx_workflow] and
    [comfort_care_suppression].  The block of a scenario ends with the Flag
    Verification section of the enabled flag tests of these categories, and
    a scenario that matches no rule has no category and no row of that
    section. *)
Theorem relevance_gate (flagData : FlagData.t) (testDefs : TestDefs.t)
    (scenario : Scenario.t) :
  (forall cat,
     cat ∈ relevantCategories scenario
     <-> (fullFlow scenario = true
          /\ (cat = "assessment_writeback" \/ cat = "documentation" \/ cat = "regulatory"
              \/ (cat = "bundle_manager"
                  /\ exists required, Scenario.requiredFlags scenario = Some required
                                      /\ "bundle_tracking" ∈ required)))
         \/ ((Scenario.key scenario = "no_sepsis_no_infection"
              \/ Scenario.key scenario = "septic_shock_rnf_to_icu")
             /\ (cat = "assessment_writeback" \/ cat = "contributing_factors"))
         \/ ((Scenario.key scenario = "abx_workflow"
              \/ Scenario.key scenario = "comfort_care_suppression")
             /\ cat = "suppression"))
  /\ (forall customer cfg,
        emits (scenarioBody flagData testDefs customer cfg scenario)
              (scenarioBlock flagData testDefs customer cfg scenario)
        /\ forall flagTest,
             flagTest ∈ scenarioFlagTests flagData testDefs scenario customer cfg
             <-> flagTest ∈ enabled (getFlagTests flagData testDefs customer
                                       (Scenario.product scenario) cfg)
                 /\ category flagTest ∈ relevantCategories scenario)
  /\ (noRule scenario ->
      relevantCategories scenario = ∅
      /\ forall customer cfg,
           emits (scenarioBody flagData testDefs customer cfg scenario)
                 (plainBlock testDefs (Customer.ehr customer) scenario)
           /\ allRows (fun r => kind r ∉ flagKinds)
                (plainBlock testDefs (Customer.ehr customer) scenario)).
Proof.
  split; [apply relevantCategories_spec|]. split.
  - intros customer cfg. split; [apply emits_scenarioBody|].
    intros flagTest. unfold scenarioFlagTests. rewrite list_elem_of_filter. tauto.
  - intros [Hflow Hkey].
    assert (Hempty : relevantCategories scenario = ∅).
    { apply set_eq. intros cat. rewrite relevantCategories_spec, Hflow, elem_of_empty.
      rewrite !not_elem_of_cons in Hkey. intuition discriminate. }
    split; [done|]. intros customer cfg.
    assert (Hnone : scenarioFlagTests flagData testDefs scenario customer cfg = []).
    { unfold scenarioFlagTests. rewrite Hempty.
      induction (enabled _) as [|t ts IH]; [done|].
      rewrite filter_cons, decide_False; [done | apply not_elem_of_empty]. }
    split.
    + intros st. rewrite emits_scenarioBody. by rewrite scenarioBlock_plain.
    + intros n n' out H. apply allRows_plainBlock in H.
      eapply Forall_impl; [exact H|]. intros r Hr Hflag. unfold flagKinds in Hflag.
      set_unfold. intuition congruence.
Qed.

Lemma relevance_gate_witness :
  noRule Sample.triageReview
  /\ relevantCategories Sample.triageReview = ∅
  /\ allRows (fun r => kind r ∉ flagKinds)
       (plainBlock Sample.testDefs (Customer.ehr Sample.medstar) Sample.triageReview).
Proof.
  assert (H : noRule Sample.triageReview).
  { split; [reflexivity|]. cbn. set_unfold. intuition discriminate. }
  split; [exact H|].
  destruct (relevance_gate Sample.flagData Sample.testDefs Sample.triageReview)
    as (_ & _ & Hno).
  destruct (Hno H) as [Hempty Hrows]. split; [exact Hempty|].
  exact (proj2 (Hrows Sample.medstar None)).
Defined.

Lemma scenarioApplies_rules_witness :
  scenarioApplies Sample.sepsisEd
    (Customer.mk "clinic" "Clinic" "Epic" ["deterioration"])
    (Some (<["sepsis" := Sample.sepsisBlock]> ∅)) = false
  /\ scenarioApplies Sample.sepsisEd Sample.stjude
       (Some (<["sepsis" := Sample.otherBlock]> ∅)) = false
  /\ scenarioApplies Sample.sepsisEd Sample.newco None = false
  /\ scenarioApplies Sample.sepsisEd Sample.medstar
       (Some (<["sepsis" := Sample.sepsisBlock]> ∅)) = true
  /\ scenarioApplies Sample.triageReview Sample.newco None = true.
Proof.
  assert (Howned : "sepsis" ∈ ["sepsis"]) by constructor.
  split; [|split; [|split; [|split]]].
  - apply (proj1 (scenarioApplies_rules Sample.sepsisEd
                    (Customer.mk "clinic" "Clinic" "Epic" ["deterioration"])
                    (Some (<["sepsis" := Sample.sepsisBlock]> ∅)))).
    cbn. set_unfold. intuition discriminate.
  - apply (proj1 (proj2 (scenarioApplies_rules Sample.sepsisEd Sample.stjude
                           (Some (<["sepsis" := Sample.otherBlock]> ∅))))
             Howned ["bundle_tracking"] eq_refl ltac:(discriminate)).
    right. exists (<["sepsis" := Sample.otherBlock]> ∅), Sample.otherBlock, "bundle_tracking".
    split; [reflexivity|]. split; [reflexivity|]. split; [constructor|].
    vm_compute. discriminate.
  - apply (proj1 (proj2 (scenarioApplies_rules Sample.sepsisEd Sample.newco None))
             Howned ["bundle_tracking"] eq_refl ltac:(discriminate)).
    left. intros blocks H. discriminate H.
  - apply (proj1 (proj2 (scenarioApplies_rules Sample.sepsisEd Sample.medstar
                           (Some (<["sepsis" := Sample.sepsisBlock]> ∅))))
             Howned ["bundle_tracking"] eq_refl ltac:(discriminate)).
    exists (<["sepsis" := Sample.sepsisBlock]> ∅), Sample.sepsisBlock.
    split; [reflexivity|]. split; [reflexivity|].
    intros flagKey ->%list_elem_of_singleton. reflexivity.
  - apply (proj2 (proj2 (scenarioApplies_rules Sample.triageReview Sample.newco None))).
    + exact Howned.
    + left. reflexivity.
Defined.

(** C4.  [getFlagTests] walks the flag catalog category by category and
    each category in definition order.  It skips the flags whose applicable
    products are neither [all] nor a list that holds the product key, and
    those without an entry in the test criteria; a flag goes to the enabled
    list exactly when its value in the block of the product is [true] and
    the entry has [whenEnabled] criteria, to the disabled list exactly when
    its value is [false] and the entry has [whenDisabled] criteria, and to
    neither list otherwise.  A flag without a value, and a flag whose entry
    lacks the side that its value asks for, is in neither list. *)
Theorem getFlagTests_selection (flagData : FlagData.t) (testDefs : TestDefs.t)
    (customer : Customer.t) (productKey : string)
    (customerConfig : option CustomerConfig) :
  getFlagTests flagData testDefs customer productKey customerConfig
  = selectFlagTests flagData testDefs productKey customerConfig
  /\ (forall flagTest,
        flagTest ∈ enabled (getFlagTests flagData testDefs customer productKey customerConfig)
        <-> exists blocks productConfig catKey flags tc,
              customerConfig = Some blocks
              /\ blocks !! productKey = Some productConfig
              /\ (catKey, flags) ∈ FlagData.flagDefinitions flagData
              /\ flag flagTest ∈ flags
              /\ (Flag.applicableProducts (flag flagTest) = Flag.All
                  \/ exists keys,
                       Flag.applicableProducts (flag flagTest) = Flag.Only keys
                       /\ productKey ∈ keys)
              /\ TestDefs.flagTestCriteria testDefs !! Flag.key (flag flagTest) = Some tc
              /\ ProductConfig.flags productConfig !! Flag.key (flag flagTest)
                 = Some (VBool true)
              /\ Criteria.whenEnabled tc = Some (criteria flagTest)
              /\ category flagTest = catKey)
  /\ (forall flagTest,
        flagTest ∈ disabled (getFlagTests flagData testDefs customer productKey customerConfig)
        <-> exists blocks productConfig catKey flags tc,
              customerConfig = Some blocks
              /\ blocks !! productKey = Some productConfig
              /\ (catKey, flags) ∈ FlagData.flagDefinitions flagData
              /\ flag flagTest ∈ flags
              /\ (Flag.applicableProducts (flag flagTest) = Flag.All
                  \/ exists keys,
                       Flag.applicableProducts (flag flagTest) = Flag.Only keys
                       /\ productKey ∈ keys)
              /\ TestDefs.flagTestCriteria testDefs !! Flag.key (flag flagTest) = Some tc
              /\ ProductConfig.flags productConfig !! Flag.key (flag flagTest)
                 = Some (VBool false)
              /\ Criteria.whenDisabled tc = Some (criteria flagTest)
              /\ category flagTest = catKey)
  /\ (forall blocks productConfig flagKey,
        customerConfig = Some blocks ->
        blocks !! productKey = Some productConfig ->
        ProductConfig.flags productConfig !! flagKey = None
        \/ (exists tc,
              TestDefs.flagTestCriteria testDefs !! flagKey = Some tc
              /\ Criteria.whenDisabled tc = None
              /\ ProductConfig.flags productConfig !! flagKey = Some (VBool false))
        \/ (exists tc,
              TestDefs.flagTestCriteria testDefs !! flagKey = Some tc
              /\ Criteria.whenEnabled tc = None
              /\ ProductConfig.flags productConfig !! flagKey = Some (VBool true)) ->
        forall flagTest,
          flagTest ∈ enabled (getFlagTests flagData testDefs customer productKey
                                customerConfig)
                     ++ disabled (getFlagTests flagData testDefs customer productKey
                                    customerConfig) ->
          Flag.key (flag flagTest) <> flagKey).
Proof.
  assert (Hen : forall flagTest,
    flagTest ∈ enabled (getFlagTests flagData testDefs customer productKey customerConfig)
    <-> exists blocks productConfig catKey flags tc,
          customerConfig = Some blocks
          /\ blocks !! productKey = Some productConfig
          /\ (catKey, flags) ∈ FlagData.flagDefinitions flagData
          /\ flag flagTest ∈ flags
          /\ (Flag.applicableProducts (flag flagTest) = Flag.All
              \/ exists keys,
                   Flag.applicableProducts (flag flagTest) = Flag.Only keys
                   /\ productKey ∈ keys)
          /\ TestDefs.flagTestCriteria testDefs !! Flag.key (flag flagTest) = Some tc
          /\ ProductConfig.flags productConfig !! Flag.key (flag flagTest)
             = Some (VBool true)
          /\ Criteria.whenEnabled tc = Some (criteria flagTest)
          /\ category flagTest = catKey).
  { intros ft. rewrite getFlagTests_select. unfold selectFlagTests.
    destruct customerConfig as [blocks|]; cbn [mbind option_bind];
      [destruct (blocks !! productKey) as [pc|] eqn:Hpc|]; cbn [enabled].
    - rewrite elem_of_catalog. split.
      + intros (catKey & flags & fl & He & Hfl & Hft).
        apply elem_of_enabledEntry in Hft as (tc & cs & Ha & Hc & Hv & Hw & ->).
        apply flagApplies_spec in Ha. by exists blocks, pc, catKey, flags, tc.
      + intros (blocks' & pc' & catKey & flags & tc & [= <-] & Hpc' & He & Hfl & Ha
                & Hc & Hv & Hw & Hcat).
        assert (pc' = pc) as -> by congruence.
        exists catKey, flags, (flag ft). split; [done|]. split; [done|].
        apply elem_of_enabledEntry. exists tc, (criteria ft). apply flagApplies_spec in Ha.
        destruct ft as [f cs c]. cbn in *. by subst.
    - split; [by intros ?%elem_of_nil|].
      intros (blocks' & pc' & _ & _ & _ & [= <-] & Hpc' & _). congruence.
    - split; [by intros ?%elem_of_nil|]. by intros (? & ? & ? & ? & ? & [= ] & _). }
  assert (Hdis : forall flagTest,
    flagTest ∈ disabled (getFlagTests flagData testDefs customer productKey customerConfig)
    <-> exists blocks productConfig catKey flags tc,
          customerConfig = Some blocks
          /\ blocks !! productKey = Some productConfig
          /\ (catKey, flags) ∈ FlagData.flagDefinitions flagData
          /\ flag flagTest ∈ flags
          /\ (Flag.applicableProducts (flag flagTest) = Flag.All
              \/ exists keys,
                   Flag.applicableProducts (flag flagTest) = Flag.Only keys
                   /\ productKey ∈ keys)
          /\ TestDefs.flagTestCriteria testDefs !! Flag.key (flag flagTest) = Some tc
          /\ ProductConfig.flags productConfig !! Flag.key (flag flagTest)
             = Some (VBool false)
          /\ Criteria.whenDisabled tc = Some (criteria flagTest)
          /\ category flagTest = catKey).
  { intros ft. rewrite getFlagTests_select. unfold selectFlagTests.
    destruct customerConfig as [blocks|]; cbn [mbind option_bind];
      [destruct (blocks !! productKey) as [pc|] eqn:Hpc|]; cbn [disabled].
    - rewrite elem_of_catalog. split.
      + intros (catKey & flags & fl & He & Hfl & Hft).
        apply elem_of_disabledEntry in Hft as (tc & cs & Ha & Hc & Hv & Hw & ->).
        apply flagApplies_spec in Ha. by exists blocks, pc, catKey, flags, tc.
      + intros (blocks' & pc' & catKey & flags & tc & [= <-] & Hpc' & He & Hfl & Ha
                & Hc & Hv & Hw & Hcat).
        assert (pc' = pc) as -> by congruence.
        exists catKey, flags, (flag ft). split; [done|]. split; [done|].
        apply elem_of_disabledEntry. exists tc, (criteria ft). apply flagApplies_spec in Ha.
        destruct ft as [f cs c]. cbn in *. by subst.
    - split; [by intros ?%elem_of_nil|].
      intros (blocks' & pc' & _ & _ & _ & [= <-] & Hpc' & _). congruence.
    - split; [by intros ?%elem_of_nil|]. by intros (? & ? & ? & ? & ? & [= ] & _). }
  split; [apply getFlagTests_select|]. split; [exact Hen|]. split; [exact Hdis|].
  intros blocks pc flagKey Hcfg Hpc Hside ft Hft Hkey. subst flagKey.
  apply elem_of_app in Hft as [Hft|Hft].
  - apply Hen in Hft
      as (blocks' & pc' & _ & _ & tc' & Hcfg' & Hpc' & _ & _ & _ & Htc' & Hv & Hw & _).
    assert (blocks' = blocks) as -> by congruence.
    assert (pc' = pc) as -> by congruence.
    destruct Hside as [Hnone | [(tc & Htc & _ & Hf) | (tc & Htc & Hn & _)]]; congruence.
  - apply Hdis in Hft
      as (blocks' & pc' & _ & _ & tc' & Hcfg' & Hpc' & _ & _ & _ & Htc' & Hv & Hw & _).
    assert (blocks' = blocks) as -> by congruence.
    assert (pc' = pc) as -> by congruence.
    destruct Hside as [Hnone | [(tc & Htc & Hn & _) | (tc & Htc & _ & Hf)]]; congruence.
Qed.

Lemma getFlagTests_selection_witness :
  (exists flagTest,
     flagTest ∈ enabled (getFlagTests Sample.flagData Sample.testDefs Sample.medstar
                           "sepsis" (Some (<["sepsis" := Sample.sepsisBlock]> ∅)))
     /\ Flag.key (flag flagTest) = "bundle_tracking")
  /\ (exists flagTest,
        flagTest ∈ disabled (getFlagTests Sample.flagData Sample.testDefs Sample.medstar
                               "sepsis" (Some (<["sepsis" := Sample.sepsisBlock]> ∅)))
        /\ Flag.key (flag flagTest) = "code_status_suppression")
  /\ Forall (fun flagTest => Flag.key (flag flagTest) <> "nurse_writeback")
       (enabled (getFlagTests Sample.flagData Sample.testDefs Sample.medstar
                   "sepsis" (Some (<["sepsis" := Sample.sepsisBlock]> ∅)))
        ++ disabled (getFlagTests Sample.flagData Sample.testDefs Sample.medstar
                       "sepsis" (Some (<["sepsis" := Sample.sepsisBlock]> ∅))))
  /\ Forall (fun flagTest => Flag.key (flag flagTest) <> "code_status_suppression")
       (enabled (getFlagTests Sample.flagData Sample.testDefs Sample.stjude
                   "sepsis" (Some (<["sepsis" := Sample.otherBlock]> ∅)))
        ++ disabled (getFlagTests Sample.flagData Sample.testDefs Sample.stjude
                       "sepsis" (Some (<["sepsis" := Sample.otherBlock]> ∅)))).
Proof.
  pose proof (getFlagTests_selection Sample.flagData Sample.testDefs Sample.medstar
                "sepsis" (Some (<["sepsis" := Sample.sepsisBlock]> ∅)))
    as (_ & Hen & Hdis & Hneither).
  split; [|split; [|split]].
  - exists (mkFlagTest Sample.bundleTracking
              [Criterion.mk (Some "rn") "The bundle timer shows in the {storyboard}"]
              "bundle_manager").
    split; [|reflexivity]. apply Hen.
    exists (<["sepsis" := Sample.sepsisBlock]> ∅), Sample.sepsisBlock, "bundle_manager",
      [Sample.bundleTracking],
      (Criteria.mk
         (Some [Criterion.mk (Some "rn") "The bundle timer shows in the {storyboard}"])
         (Some [Criterion.mk (Some "rn") "No bundle timer in the {storyboard}"])).
    split; [reflexivity|]. split; [reflexivity|]. split; [apply list_elem_of_here|].
    split; [apply list_elem_of_here|]. split; [by left|]. repeat split; reflexivity.
  - exists (mkFlagTest Sample.codeStatus
              [Criterion.mk None "Comfort-care patients still raise the {alertFlag}"]
              "suppression").
    split; [|reflexivity]. apply Hdis.
    exists (<["sepsis" := Sample.sepsisBlock]> ∅), Sample.sepsisBlock, "suppression",
      [Sample.codeStatus],
      (Criteria.mk None
         (Some [Criterion.mk None "Comfort-care patients still raise the {alertFlag}"])).
    split; [reflexivity|]. split; [reflexivity|].
    split; [apply list_elem_of_further, list_elem_of_here|].
    split; [apply list_elem_of_here|].
    split; [right; exists ["sepsis"]; split; [reflexivity | apply list_elem_of_here]|].
    repeat split; reflexivity.
  - apply Forall_forall.
    refine (Hneither (<["sepsis" := Sample.sepsisBlock]> ∅) Sample.sepsisBlock
              "nurse_writeback" eq_refl _ _); [vm_compute; reflexivity|].
    right. left.
    exists (Criteria.mk
              (Some [Criterion.mk (Some "rn") "The assessment is filed to the {flowsheet}"])
              None).
    repeat split; reflexivity.
  - apply Forall_forall.
    refine (proj2 (proj2 (proj2
              (getFlagTests_selection Sample.flagData Sample.testDefs Sample.stjude
                 "sepsis" (Some (<["sepsis" := Sample.otherBlock]> ∅)))))
              (<["sepsis" := Sample.otherBlock]> ∅) Sample.otherBlock
              "code_status_suppression" eq_refl _ _); [vm_compute; reflexivity|].
    right. right.
    exists (Criteria.mk None
              (Some [Criterion.mk None
                       "Comfort-care patients still raise the {alertFlag}"])).
    repeat split; reflexivity.
Defined.

(** C5, as amended.  Part 2 goes through the products of the customer in
    the order of the customer record.  A product without a disabled flag test adds
    nothing; otherwise its section header row comes first, then the tests in
    their order, with a category row before the first test and before each
    test whose category differs from that of the test before it, and one
    row for each criterion of each flag.  These rows show the expected
    result VERIFY ABSENT, and their numbers go on from the counter that
    Part 1 left, one by one. *)
Theorem absence_tests_part (flagData : FlagData.t) (testDefs : TestDefs.t)
    (customer : Customer.t) :
  let cfg := FlagData.configurations flagData !! Customer.key customer in
  let sections := part2 flagData testDefs customer cfg (Customer.products customer) in
  emits (forEach (part2Body flagData testDefs customer cfg) (Customer.products customer))
    sections
  /\ counts sections
  /\ allRows absenceRow sections
  /\ planRows flagData testDefs customer
     = match part1 flagData testDefs customer cfg (TestDefs.scenarios testDefs) 0%N with
       | Some (n1, out1) =>
           match sections n1 with
           | Some (n2, out2) => Some (titleRow :: out1 ++ out2)
           | None => None
           end
       | None => None
       end.
Proof.
  cbv zeta. split; [apply emits_part2|]. split; [apply counts_part2|].
  split; [apply allRows_part2 | apply planRows_parts].
Qed.

(** C5, as stated, fails: for a customer whose record lists Deterioration
    before Sepsis the section of Deterioration comes first in Part 2,
    although the product catalog lists Sepsis first. *)
Lemma absence_sections_not_in_catalog_order :
  ownedInCatalogOrder twoProducts lakeside = ["sepsis"; "deterioration"]
  /\ (absenceHeaders <$> planRows twoProducts Sample.testDefs lakeside)
     = Some (map (absenceHeaderRow twoProducts) (Customer.products lakeside))
  /\ (absenceHeaders <$> planRows twoProducts Sample.testDefs lakeside)
     <> Some (map (absenceHeaderRow twoProducts) (ownedInCatalogOrder twoProducts lakeside)).
Proof. vm_compute. split; [reflexivity|]. split; [reflexivity | discriminate]. Qed.

(** C6, as amended.  On a template, that is a text in which every opening
    brace starts one of the thirteen tokens, and with profile values and
    vendor terms that hold neither an opening brace nor a dollar sign, the
    two resolvers give the same text in either order; the generator resolves
    the profile tokens first. *)
Theorem resolvers_commute_on_templates (testDefs : TestDefs.t) (scenario : Scenario.t)
    (ehr : string) (terms : Terms.t) (segs : list segment) :
  ehrTerms testDefs ehr = Some terms ->
  termsInert terms = true ->
  profileInert (Scenario.patientProfile scenario) = true ->
  wellFormed segs = true ->
  resolveEhrTerms testDefs (resolveTemplateVars (templateText segs) scenario) ehr
  = option_map (fun text => resolveTemplateVars text scenario)
      (resolveEhrTerms testDefs (templateText segs) ehr).
Proof.
  intros Hterms Ht Hp Hwf. unfold resolveEhrTerms. rewrite Hterms. cbn [option_map].
  f_equal. by apply resolvers_commute.
Qed.

Lemma resolvers_commute_on_templates_witness :
  resolveEhrTerms Sample.testDefs
    (resolveTemplateVars "Open the {flowsheet} for {chiefComplaint}" Sample.sepsisEd)
    "Epic"
  = option_map (fun text => resolveTemplateVars text Sample.sepsisEd)
      (resolveEhrTerms Sample.testDefs "Open the {flowsheet} for {chiefComplaint}" "Epic").
Proof.
  apply (resolvers_commute_on_templates Sample.testDefs Sample.sepsisEd "Epic"
           Sample.epic
           [Lit "Open the "; Tok TFlowsheet; Lit " for "; Tok TChiefComplaint]);
    vm_compute; reflexivity.
Defined.

(** C6, as stated, fails: a chief complaint that holds an EHR token is
    resolved further when the profile tokens are resolved first, and is left
    as it is in the other order. *)
Lemma resolvers_do_not_commute :
  resolveEhrTerms Sample.testDefs
    (resolveTemplateVars "{chiefComplaint}" Sample.tokenScenario) "Epic"
  <> option_map (fun text => resolveTemplateVars text Sample.tokenScenario)
       (resolveEhrTerms Sample.testDefs "{chiefComplaint}" "Epic").
Proof. vm_compute. discriminate. Qed.

(** C7, as amended.  The resolver is a function of the text, the vendor key
    and the terminology table.  A vendor key without an entry is resolved
    with the entry of Epic, and the resolver raises exactly when neither the
    vendor nor Epic has an entry.  With an entry, a text without any of the
    six tokens is returned as it is; a token whose term the entry lacks is
    replaced by the text undefined; and when the terms hold neither an
    opening brace nor a dollar sign, every EHR token of a template is
    replaced by its term and resolving the result again changes nothing. *)
Theorem resolveEhrTerms_idempotent_on_templates (testDefs : TestDefs.t) (ehr : string) :
  (TestDefs.ehrTerminology testDefs !! ehr = None ->
   forall text, resolveEhrTerms testDefs text ehr = resolveEhrTerms testDefs text "Epic")
  /\ (forall text,
        resolveEhrTerms testDefs text ehr = None
        <-> TestDefs.ehrTerminology testDefs !! ehr = None
            /\ TestDefs.ehrTerminology testDefs !! "Epic" = None)
  /\ (forall terms,
        ehrTerms testDefs ehr = Some terms ->
        (forall text, hasEhrToken text = false ->
                      resolveEhrTerms testDefs text ehr = Some text)
        /\ (forall k, termOf terms k = Some None ->
                      resolveEhrTerms testDefs (tokenText k) ehr = Some "undefined")
        /\ (termsInert terms = true ->
            forall segs, wellFormed segs = true ->
              resolveEhrTerms testDefs (templateText segs) ehr
              = Some (render (ehrVal terms noTokens) segs)
              /\ resolveEhrTerms testDefs (render (ehrVal terms noTokens) segs) ehr
                 = Some (render (ehrVal terms noTokens) segs))).
Proof.
  split; [|split].
  - intros Hnone text. unfold resolveEhrTerms, ehrTerms. rewrite Hnone.
    by destruct (TestDefs.ehrTerminology testDefs !! "Epic").
  - intros text. unfold resolveEhrTerms, ehrTerms.
    destruct (TestDefs.ehrTerminology testDefs !! ehr);
      [split; [done | by intros [? _]]|].
    destruct (TestDefs.ehrTerminology testDefs !! "Epic");
      [split; [done | by intros [_ ?]] | done].
  - intros terms Hterms. unfold resolveEhrTerms. rewrite Hterms. split; [|split].
    + intros text Htext. f_equal. by apply applyTerms_absent.
    + intros k Hk. f_equal. unfold applyTerms.
      destruct k; cbn in Hk; try discriminate; injection Hk as ->; reflexivity.
    + intros Ht segs Hwf.
      assert (Hone : applyTerms terms (templateText segs)
                     = render (ehrVal terms noTokens) segs).
      { unfold templateText. apply applyTerms_render; auto using noTokens_closed. }
      split; [by rewrite Hone|]. f_equal. rewrite <- Hone. by apply applyTerms_idem.
Qed.

Lemma resolveEhrTerms_idempotent_on_templates_witness :
  resolveEhrTerms Sample.testDefs "{flowsheet}" "Meditech"
  = resolveEhrTerms Sample.testDefs "{flowsheet}" "Epic"
  /\ resolveEhrTerms Sample.testDefs "Press {enter}" "Meditech" = Some "Press {enter}"
  /\ resolveEhrTerms partialDefs "{flowsheet}" "Cerner" = Some "undefined"
  /\ resolveEhrTerms Sample.testDefs "Open the {flowsheet} and the {noteType}" "Meditech"
     = Some "Open the Flowsheet and the Progress Note"
  /\ resolveEhrTerms Sample.testDefs "Open the Flowsheet and the Progress Note" "Meditech"
     = Some "Open the Flowsheet and the Progress Note".
Proof.
  destruct (resolveEhrTerms_idempotent_on_templates Sample.testDefs "Meditech")
    as (Hfallback & _ & Hentry).
  destruct (Hentry Sample.epic ltac:(vm_compute; reflexivity)) as (Hliteral & _ & Hidem).
  destruct (resolveEhrTerms_idempotent_on_templates partialDefs "Cerner")
    as (_ & _ & Hpartial).
  destruct (Hpartial (Terms.mk None (Some "Patient List") (Some "BPA") (Some "Note")
                        (Some "Orders") (Some "Storyboard"))
              ltac:(vm_compute; reflexivity)) as (_ & Hmissing & _).
  split; [apply Hfallback; vm_compute; reflexivity|].
  split; [apply Hliteral; vm_compute; reflexivity|].
  split; [exact (Hmissing TFlowsheet eq_refl)|].
  exact (Hidem ltac:(vm_compute; reflexivity)
           [Lit "Open the "; Tok TFlowsheet; Lit " and the "; Tok TNoteType]
           ltac:(vm_compute; reflexivity)).
Defined.

(** C7, as stated, fails in three ways.  Resolving a token inside a pair of
    braces with a term in lower case leaves a token, which a second pass
    resolves; a token whose term the entry lacks is not left as it is but
    becomes the text undefined; and without an entry for the vendor and for
    Epic the resolver raises. *)
Lemma resolveEhrTerms_not_idempotent :
  (resolveEhrTerms Sample.lowerCaseDefs "{{flowsheet}}" "Epic"
     ≫= fun once => resolveEhrTerms Sample.lowerCaseDefs once "Epic")
  <> resolveEhrTerms Sample.lowerCaseDefs "{{flowsheet}}" "Epic"
  /\ resolveEhrTerms partialDefs "Open the {flowsheet}" "Epic" = Some "Open the undefined"
  /\ resolveEhrTerms cernerOnly "Open the chart" "Meditech" = None.
Proof. vm_compute. split; [discriminate|]. split; reflexivity. Qed.

Lemma read_plain_return (s cur : string) (fields : list string) :
  hasChar Str.comma s = false -> hasChar Str.dquote s = false ->
  hasChar Str.newline s = false -> hasChar Str.cr s = true ->
  exists before after,
    Reader.readRecord_go Reader.InPlain cur fields s
    = Some (fields ++ [cur +:+ before], after)
    /\ (String.length before < String.length s)%nat.
Proof.
  revert cur. induction s as [|c s IH]; intros cur Hc Hq Hn Hr; [done|].
  simpl in Hc, Hq, Hn, Hr.
  apply orb_false_iff in Hc as [Hc1 Hc2]. apply orb_false_iff in Hq as [Hq1 Hq2].
  apply orb_false_iff in Hn as [Hn1 Hn2].
  cbn [Reader.readRecord_go]. rewrite Hc1, Hq1, Hn1.
  destruct (Ascii.eqb c Str.cr) eqn:Ec.
  - exists EmptyString, (Reader.afterReturn s). rewrite str_app_nil_r.
    split; [done | cbn; lia].
  - cbn [orb] in Hr. destruct (IH (cur +:+ Str.single c) Hc2 Hq2 Hn2 Hr)
      as (before & after & Hread & Hlen).
    exists (String c before), after. rewrite Hread. split.
    + by rewrite str_app_assoc.
    + cbn. lia.
Qed.

(** A text with a carriage return and nothing that makes [csvEscape] quote
    it is read as a shorter field. *)
Lemma read_bare_return (s : string) :
  needsQuotes s = false -> hasChar Str.cr s = true ->
  exists before after,
    Reader.readRecord s = Some ([before], after)
    /\ (String.length before < String.length s)%nat.
Proof.
  unfold needsQuotes. intros Hq Hr.
  apply orb_false_iff in Hq as [Hq Hn]. apply orb_false_iff in Hq as [Hc Hq].
  destruct s as [|c s]; [done|]. simpl in Hc, Hq, Hn, Hr.
  apply orb_false_iff in Hc as [Hc1 Hc2]. apply orb_false_iff in Hq as [Hq1 Hq2].
  apply orb_false_iff in Hn as [Hn1 Hn2].
  unfold Reader.readRecord. cbn [Reader.readRecord_go]. rewrite Hc1, Hq1, Hn1.
  destruct (Ascii.eqb c Str.cr) eqn:Ec.
  - exists EmptyString, (Reader.afterReturn s). split; [done | cbn; lia].
  - cbn [orb] in Hr.
    destruct (read_plain_return s (Str.single c) [] Hc2 Hq2 Hn2 Hr)
      as (before & after & Hread & Hlen).
    exists (String c before), after. rewrite Hread. split; [done | cbn; lia].
Qed.

(** C8, as amended.  [csvEscape] writes [null] and [undefined] as the empty
    field, wraps a text that holds a comma, a quote or a line feed in quotes
    with every quote doubled, and writes any other text as it is.  Reading a
    written row gives back the text of every cell, whether the row ends the
    text or is followed by a line feed and more text, when no cell has a
    carriage return outside quotes; and a step text is read back exactly if
    and only if it has no carriage return or holds a comma, a quote or a
    line feed. *)
Theorem csv_round_trip :
  (forall v,
     csvEscape v
     = match v with
       | VNull | VUndef => EmptyString
       | _ =>
           if hasChar Str.comma (toStr v) || hasChar Str.dquote (toStr v)
              || hasChar Str.newline (toStr v)
           then String Str.dquote (doubleQuotes (toStr v) +:+ Str.single Str.dquote)
           else toStr v
       end)
  /\ (forall v vs,
        Forall (fun w => returnsQuoted w = true) (v :: vs) ->
        Reader.readRecord (csvRow (v :: vs)) = Some (map cellText (v :: vs), EmptyString))
  /\ (forall v vs rest,
        Forall (fun w => returnsQuoted w = true) (v :: vs) ->
        Reader.readRecord (csvRow (v :: vs) +:+ String Str.newline rest)
        = Some (map cellText (v :: vs), rest))
  /\ (forall text,
        Reader.readRecord (csvEscape (VStr text)) = Some ([text], EmptyString)
        <-> hasChar Str.cr text = false
            \/ hasChar Str.comma text || hasChar Str.dquote text
               || hasChar Str.newline text = true).
Proof.
  assert (H : forall s,
    (if Str.includes "," s || Str.includes (Str.single Str.dquote) s
        || Str.includes (Str.single Str.newline) s
     then Str.single Str.dquote
          +:+ Str.replaceAll (Str.single Str.dquote)
                (String Str.dquote (Str.single Str.dquote)) s
          +:+ Str.single Str.dquote
     else s)
    = if hasChar Str.comma s || hasChar Str.dquote s || hasChar Str.newline s
      then String Str.dquote (doubleQuotes s +:+ Str.single Str.dquote)
      else s).
  { intros s. change "," with (Str.single Str.comma). rewrite !includes_single.
    unfold Str.replaceAll. by rewrite replaceAll_go_quotes. }
  split; [|split; [|split]].
  - intros v. destruct v; try done; apply H.
  - intros v vs Hvs. by apply (read_csvRow v vs []).
  - intros v vs rest Hvs. by apply (read_csvRow_line v vs [] rest).
  - intros text. split.
    + intros Hread.
      destruct (hasChar Str.cr text) eqn:Hr; [|by left]. right.
      destruct (hasChar Str.comma text || hasChar Str.dquote text
                || hasChar Str.newline text) eqn:Hq; [done|].
      unfold csvEscape in Hread. cbn [toStr] in Hread. rewrite H, Hq in Hread.
      destruct (read_bare_return text Hq Hr) as (before & after & Hb & Hlen).
      rewrite Hb in Hread. injection Hread as -> _. lia.
    + intros Hsafe. apply (read_csvRow (VStr text) [] []).
      constructor; [|done]. unfold returnsQuoted, needsQuotes. cbn [cellText toStr].
      destruct Hsafe as [-> | ->]; [done | by rewrite orb_true_r].
Qed.

(** C8, as stated, fails: a step text with a carriage return and without
    comma, quote or line feed is written without quotes, and a reader ends
    the record at the carriage return. *)
Lemma carriage_return_breaks_round_trip :
  csvEscape (VStr bareReturn) = bareReturn
  /\ Reader.readRecord (csvRow [VNum 12; VStr bareReturn; VStr "Setup"])
     = Some (["12"; "a"], "b,Setup")
  /\ Reader.readRecord (csvRow [VNum 12; VStr bareReturn; VStr "Setup"])
     <> Some (["12"; bareReturn; "Setup"], EmptyString)
  /\ Reader.readRecord (csvEscape (VStr bareReturn)) <> Some ([bareReturn], EmptyString).
Proof.
  vm_compute. split; [reflexivity|]. split; [reflexivity|]. split; discriminate.
Qed.

Lemma csv_round_trip_witness :
  Reader.readRecord (csvRow [VNum 12; VStr "Setup"; VStr mixedText; VNull])
  = Some (["12"; "Setup"; mixedText; EmptyString], EmptyString)
  /\ Reader.readRecord (csvRow [VNum 12; VStr mixedText] +:+ String Str.newline "13,Setup")
     = Some (["12"; mixedText], "13,Setup")
  /\ Reader.readRecord (csvEscape (VStr mixedText)) = Some ([mixedText], EmptyString).
Proof.
  destruct csv_round_trip as (_ & Hrow & Hline & Htext).
  split; [|split].
  - apply (Hrow (VNum 12) [VStr "Setup"; VStr mixedText; VNull]).
    repeat constructor.
  - apply (Hline (VNum 12) [VStr mixedText] "13,Setup"). repeat constructor.
  - apply (Htext mixedText). right. vm_compute. reflexivity.
Defined.

(** A step text with a comma, a quote and a line feed, written and read. *)
Example sample_row_read_back :
  let text := "Press " +:+ Str.single Str.dquote +:+ "Save" +:+ Str.single Str.dquote
              +:+ ", then" +:+ Str.single Str.newline +:+ "sign" in
  Reader.readRecord (csvRow [VNum 12; VStr "Setup"; VStr text])
  = Some (["12"; "Setup"; text], EmptyString).
Proof. vm_compute. reflexivity. Qed.

(** C9.  Two customers with the same products and the same configuration
    blocks, whatever their vendors, get plans with the same number of rows;
    row by row the kind, the step number, the section label, the scenario or
    flag identifier and the user label agree, and the step description and
    the expected result are equal or are the same text resolved for the two
    vendors. *)
Theorem plans_differ_only_in_terms (flagData : FlagData.t) (testDefs : TestDefs.t)
    (customer1 customer2 : Customer.t) (plan1 plan2 : list Row) :
  Customer.products customer1 = Customer.products customer2 ->
  FlagData.configurations flagData !! Customer.key customer1
  = FlagData.configurations flagData !! Customer.key customer2 ->
  planRows flagData testDefs customer1 = Some plan1 ->
  planRows flagData testDefs customer2 = Some plan2 ->
  length plan1 = length plan2
  /\ Forall2 (sameUpToTerms testDefs (Customer.ehr customer1) (Customer.ehr customer2))
       plan1 plan2.
Proof.
  intros Hprod Hcfg H1 H2. rewrite planRows_parts in H1, H2. cbv zeta in *.
  rewrite <- Hcfg, <- Hprod in H2.
  set (cfg := FlagData.configurations flagData !! Customer.key customer1) in *.
  destruct (part1 _ _ customer1 cfg _ 0%N) as [[n1 a1]|] eqn:E1; [|done].
  destruct (part1 _ _ customer2 cfg _ 0%N) as [[n2 a2]|] eqn:E2; [|done].
  destruct (alike_part1 flagData testDefs _ _ customer1 customer2 eq_refl eq_refl Hprod
              cfg _ _ _ _ _ _ E1 E2) as [-> Ha].
  destruct (part2 _ _ customer1 cfg _ n2) as [[m1 b1]|] eqn:F1; [|done].
  destruct (part2 _ _ customer2 cfg _ n2) as [[m2 b2]|] eqn:F2; [|done].
  destruct (alike_part2 flagData testDefs _ _ customer1 customer2 eq_refl eq_refl
              cfg _ _ _ _ _ _ F1 F2) as [-> Hb].
  injection H1 as <-. injection H2 as <-.
  assert (Hall : Forall2 (sameUpToTerms testDefs (Customer.ehr customer1)
                            (Customer.ehr customer2))
                   (titleRow :: a1 ++ b1) (titleRow :: a2 ++ b2)).
  { constructor; [|by apply Forall2_app].
    apply sameUpToTerms_cells; apply resolvedAlike_refl. }
  split; [by eapply Forall2_length | done].
Qed.

Lemma plans_differ_only_in_terms_witness :
  exists plan1 plan2,
    planRows Sample.flagData Sample.testDefs Sample.medstar = Some plan1
    /\ planRows Sample.flagData Sample.testDefs Sample.mercy = Some plan2
    /\ length plan1 = length plan2
    /\ Forall2 (sameUpToTerms Sample.testDefs "Epic" "Cerner") plan1 plan2.
Proof.
  destruct (planRows Sample.flagData Sample.testDefs Sample.medstar) as [plan1|] eqn:H1;
    [|vm_compute in H1; discriminate].
  destruct (planRows Sample.flagData Sample.testDefs Sample.mercy) as [plan2|] eqn:H2;
    [|vm_compute in H2; discriminate].
  exists plan1, plan2. split; [reflexivity|]. split; [reflexivity|].
  apply (plans_differ_only_in_terms Sample.flagData Sample.testDefs
           Sample.medstar Sample.mercy plan1 plan2).
  - reflexivity.
  - vm_compute. reflexivity.
  - exact H1.
  - exact H2.
Defined.

(** C10, as amended.  For a customer whose key is absent from the
    configurations the plan, when it is generated, holds after the title row,
    for each scenario whose product the customer owns and whose required
    flags are absent or empty, the header row, the patient row if there is a
    profile, the setup rows and the core rows; no row belongs to a Flag
    Verification section or to the absence tests.  The plan is generated
    whenever the vendor of the customer or Epic has an entry in the
    terminology table; without either, it is generated exactly when none of
    these scenarios has a step. *)
Theorem plan_without_configuration (flagData : FlagData.t) (testDefs : TestDefs.t)
    (customer : Customer.t) :
  FlagData.configurations flagData !! Customer.key customer = None ->
  let unflagged := filter (ownedUnflagged customer) (TestDefs.scenarios testDefs) in
  planRows flagData testDefs customer
  = match inSequence (plainBlock testDefs (Customer.ehr customer)) unflagged 0%N with
    | Some (n, blocks) => Some (titleRow :: blocks)
    | None => None
    end
  /\ (forall plan, planRows flagData testDefs customer = Some plan ->
                   Forall (fun r => kind r ∉ flagKinds ++ absenceKinds) plan)
  /\ (is_Some (ehrTerms testDefs (Customer.ehr customer)) ->
      is_Some (planRows flagData testDefs customer))
  /\ (ehrTerms testDefs (Customer.ehr customer) = None ->
      (is_Some (planRows flagData testDefs customer)
       <-> Forall (fun s => Scenario.setupSteps s = [] /\ Scenario.coreTestSteps s = [])
             unflagged)).
Proof.
  intros Hcfg unflagged.
  assert (Hplan : planRows flagData testDefs customer
                  = match inSequence (plainBlock testDefs (Customer.ehr customer))
                            unflagged 0%N with
                    | Some (n, blocks) => Some (titleRow :: blocks)
                    | None => None
                    end).
  { rewrite planRows_parts. cbv zeta. rewrite Hcfg, part1_unconfigured.
    fold unflagged.
    destruct (inSequence _ unflagged 0%N) as [[n blocks]|]; [|done].
    rewrite part2_unconfigured. by rewrite app_nil_r. }
  split; [exact Hplan|]. rewrite Hplan. split; [|split].
  - intros plan H.
    destruct (inSequence _ unflagged 0%N) as [[n blocks]|] eqn:Hblocks; [|done].
    injection H as <-. constructor.
    + cbn. set_unfold. intuition discriminate.
    + apply (allRows_inSequence _ _ _ (allRows_plainBlock testDefs (Customer.ehr customer)))
        in Hblocks.
      eapply Forall_impl; [exact Hblocks|]. intros r Hr Hin.
      unfold flagKinds, absenceKinds in Hin. set_unfold. intuition congruence.
  - intros Hterms.
    destruct (inSequence_total (plainBlock testDefs (Customer.ehr customer)) unflagged 0%N)
      as [[n blocks] ->]; [|by eexists].
    intros s m. by apply plainBlock_total.
  - intros Hnone.
    rewrite <- (inSequence_some (plainBlock testDefs (Customer.ehr customer)) _ unflagged 0%N
                  (fun s m => plainBlock_none testDefs _ s m Hnone)).
    destruct (inSequence _ unflagged 0%N) as [[n blocks]|];
      [split; by eexists | split; by intros [? ?]].
Qed.

Lemma plan_without_configuration_witness :
  (exists plan,
     planRows Sample.flagData Sample.testDefs Sample.newco = Some plan
     /\ Forall (fun r => kind r ∉ flagKinds ++ absenceKinds) plan)
  /\ ~ is_Some (planRows Sample.flagData cernerOnly Sample.newco).
Proof.
  split.
  - destruct (plan_without_configuration Sample.flagData Sample.testDefs Sample.newco
                ltac:(vm_compute; reflexivity)) as (_ & Hkinds & Hsome & _).
    destruct Hsome as [plan Hplan]; [vm_compute; by eexists|].
    exists plan. split; [exact Hplan | by apply Hkinds].
  - destruct (plan_without_configuration Sample.flagData cernerOnly Sample.newco
                ltac:(vm_compute; reflexivity)) as (_ & _ & _ & Hnone).
    intros H. apply (Hnone eq_refl) in H. rewrite Forall_forall in H.
    destruct (H Sample.triageReview) as [Hsetup _]; [|discriminate Hsetup].
    apply list_elem_of_filter. split; [|apply list_elem_of_further, list_elem_of_here].
    split; [apply list_elem_of_here | by left].
Defined.

(** C10, as stated, fails: without an entry for the vendor of the customer
    and for Epic in the terminology table, the plan of a customer who has no
    configuration is not generated, the first step raising. *)
Lemma plan_without_configuration_raises :
  FlagData.configurations Sample.flagData !! Customer.key Sample.newco = None
  /\ planRows Sample.flagData cernerOnly Sample.newco = None.
Proof. vm_compute. split; reflexivity. Qed.

(** ** Further properties of the script *)

Lemma plan_numbers_increase_witness :
  exists plan,
    planRows Sample.flagData Sample.testDefs Sample.medstar = Some plan
    /\ Forall numberedIffStep plan
    /\ StronglySorted N.lt (shownNumbers plan)
    /\ Forall (fun m => (0 < m)%N) (shownNumbers plan).
Proof.
  destruct (planRows Sample.flagData Sample.testDefs Sample.medstar) as [plan|] eqn:H;
    [|vm_compute in H; discriminate].
  exists plan. split; [done|].
  exact (plan_numbers_increase Sample.flagData Sample.testDefs Sample.medstar plan H).
Defined.

(** ** Category labels *)

Lemma toUpperCase_idem (c : ascii) : Str.toUpperCase (Str.toUpperCase c) = Str.toUpperCase c.
Proof. destruct c as [[] [] [] [] [] [] [] []]; reflexivity. Qed.

Lemma toUpperCase_underscore (c : ascii) :
  Ascii.eqb (Str.toUpperCase c) "_"%char = Ascii.eqb c "_"%char.
Proof. destruct c as [[] [] [] [] [] [] [] []]; reflexivity. Qed.

Lemma split_go_nonempty (sep : ascii) (cur s : string) : Str.split_go sep cur s <> [].
Proof.
  revert cur. induction s as [|c s IH]; intros cur; simpl; [done|].
  destruct (Ascii.eqb c sep); [done | apply IH].
Qed.

Lemma join_cons_more (sep p : string) (rest : list string) :
  rest <> [] -> Str.join sep (p :: rest) = p +:+ sep +:+ Str.join sep rest.
Proof. by destruct rest. Qed.

Lemma capitalize_app (cur : string) (c : ascii) :
  cur <> EmptyString ->
  capitalize (cur +:+ Str.single c) = capitalize cur +:+ Str.single c.
Proof. by destruct cur. Qed.

(** The words being split, capitalised and joined are the label read in one
    pass; [cur] is the word that has been read so far. *)
Lemma label_split_go (cur s : string) :
  Str.join " " (map capitalize (Str.split_go "_" cur s))
  = match cur with
    | EmptyString => labelFrom true s
    | _ => capitalize cur +:+ labelFrom false s
    end.
Proof.
  revert cur. induction s as [|c s IH]; intros cur.
  - destruct cur; [done|]. cbn [Str.split_go map Str.join labelFrom].
    by rewrite str_app_nil_r.
  - cbn [Str.split_go labelFrom]. destruct (Ascii.eqb c "_") eqn:E.
    + rewrite map_cons, join_cons_more.
      2:{ intros H. apply map_eq_nil in H. by apply split_go_nonempty in H. }
      rewrite (IH EmptyString). by destruct cur.
    + rewrite IH. destruct cur as [|a cur]; [done|].
      cbn [String.append capitalize]. by rewrite str_app_assoc.
Qed.

Lemma categoryLabel_labelFrom (catKey : string) :
  categoryLabel catKey = labelFrom true catKey.
Proof. apply (label_split_go EmptyString). Qed.

Lemma labelFrom_length (start : bool) (s : string) :
  String.length (labelFrom start s) = String.length s.
Proof.
  revert start. induction s as [|c s IH]; intros start; [done|].
  cbn [labelFrom]. destruct (Ascii.eqb c "_"); cbn [String.length]; by rewrite IH.
Qed.

Lemma labelFrom_no_underscore (start : bool) (s : string) :
  hasChar "_"%char (labelFrom start s) = false.
Proof.
  revert start. induction s as [|c s IH]; intros start; [done|].
  cbn [labelFrom]. destruct (Ascii.eqb c "_") eqn:E; cbn [hasChar]; rewrite IH.
  - done.
  - destruct start; [rewrite toUpperCase_underscore|]; by rewrite E.
Qed.

Lemma labelFrom_again (start : bool) (s : string) :
  labelFrom false (labelFrom start s) = labelFrom start s.
Proof.
  revert start. induction s as [|c s IH]; intros start; [done|].
  cbn [labelFrom]. destruct (Ascii.eqb c "_") eqn:E; cbn [labelFrom].
  - change (Ascii.eqb " " "_") with false. cbv iota. by rewrite IH.
  - replace (Ascii.eqb (if start then Str.toUpperCase c else c) "_") with false.
    + by rewrite IH.
    + destruct start; [rewrite toUpperCase_underscore|]; by rewrite E.
Qed.

Lemma labelFrom_idem (s : string) :
  labelFrom true (labelFrom true s) = labelFrom true s.
Proof.
  destruct s as [|c s]; [done|].
  cbn [labelFrom]. destruct (Ascii.eqb c "_") eqn:E; cbn [labelFrom].
  - change (Ascii.eqb " " "_") with false. cbv iota.
    change (Str.toUpperCase " ") with " "%char. by rewrite labelFrom_again.
  - rewrite toUpperCase_underscore, E, toUpperCase_idem. by rewrite labelFrom_again.
Qed.

Lemma toUpperCase_space (c : ascii) :
  Ascii.eqb (Str.toUpperCase c) " "%char = Ascii.eqb c " "%char.
Proof. destruct c as [[] [] [] [] [] [] [] []]; reflexivity. Qed.

Lemma labelFrom_spaces (start : bool) (s : string) :
  countChar " "%char (labelFrom start s)
  = (countChar " "%char s + countChar "_"%char s)%nat.
Proof.
  revert start. induction s as [|c s IH]; intros start; [done|].
  cbn [labelFrom countChar]. destruct (Ascii.eqb c "_") eqn:E.
  - apply Ascii.eqb_eq in E. subst c. cbn [countChar].
    rewrite IH. change (Ascii.eqb " " " ") with true.
    change (Ascii.eqb "_" " ") with false. simpl. lia.
  - cbn [countChar]. rewrite IH.
    replace (Ascii.eqb (if start then Str.toUpperCase c else c) " ")
      with (Ascii.eqb c " "); [simpl; lia|].
    destruct start; [by rewrite toUpperCase_space | done].
Qed.

Lemma toUpperCase_ascii (c : ascii) :
  isAsciiChar c = true -> isAsciiChar (Str.toUpperCase c) = true.
Proof. destruct c as [[] [] [] [] [] [] [] []]; intros H; try done; reflexivity. Qed.

Lemma labelFrom_ascii (start : bool) (s : string) :
  isAscii s = true -> isAscii (labelFrom start s) = true.
Proof.
  revert start. induction s as [|c s IH]; intros start H; [done|].
  cbn [isAscii] in H. apply andb_true_iff in H as [Hc Hs].
  cbn [labelFrom]. destruct (Ascii.eqb c "_"%char); cbn [isAscii].
  - by rewrite IH.
  - rewrite IH by done. rewrite andb_true_r.
    destruct start; [by apply toUpperCase_ascii | done].
Qed.

(** X11.  The label of a category key in ASCII is in ASCII, has the length of
    the key and holds no underscore: every underscore has become a space,
    and nothing is added or dropped, also for a key that starts or ends with
    an underscore or has two in a row.  Making a label of a label changes
    nothing. *)
Theorem categoryLabel_shape (catKey : string) :
  isAscii catKey = true ->
  isAscii (categoryLabel catKey) = true
  /\ String.length (categoryLabel catKey) = String.length catKey
  /\ hasChar "_"%char (categoryLabel catKey) = false
  /\ countChar " "%char (categoryLabel catKey)
     = (countChar " "%char catKey + countChar "_"%char catKey)%nat
  /\ categoryLabel (categoryLabel catKey) = categoryLabel catKey.
Proof.
  intros Hascii. rewrite !categoryLabel_labelFrom.
  split; [by apply labelFrom_ascii|]. split; [apply labelFrom_length|].
  split; [apply labelFrom_no_underscore|]. split; [apply labelFrom_spaces|].
  apply labelFrom_idem.
Qed.

Lemma categoryLabel_shape_witness :
  isAscii (categoryLabel "_bundle__manager_") = true
  /\ String.length (categoryLabel "_bundle__manager_") = 17%nat
  /\ hasChar "_"%char (categoryLabel "_bundle__manager_") = false
  /\ countChar " "%char (categoryLabel "_bundle__manager_") = 4%nat
  /\ categoryLabel (categoryLabel "_bundle__manager_") = categoryLabel "_bundle__manager_".
Proof.
  exact (categoryLabel_shape "_bundle__manager_" eq_refl).
Defined.

(** ** Tokens after the resolvers *)

Lemma includes_lit (k : token) (s rest : string) :
  hasChar "{"%char s = false ->
  Str.includes (tokenText k) (s +:+ rest) = Str.includes (tokenText k) rest.
Proof.
  induction s as [|c s IH]; intros H; [done|].
  simpl in H. apply orb_false_iff in H as [Hc Hs].
  change (String c s +:+ rest) with (String c (s +:+ rest)).
  cbn [Str.includes]. rewrite token_starts_brace by done. by rewrite IH.
Qed.

Lemma includes_token_other (k k' : token) (rest : string) :
  k' <> k ->
  Str.includes (tokenText k) (tokenText k' +:+ rest) = Str.includes (tokenText k) rest.
Proof. intros H. destruct k, k'; try congruence; reflexivity. Qed.

Lemma includes_token_empty (k : token) : Str.includes (tokenText k) EmptyString = false.
Proof. by destruct k. Qed.

(** A token that has been resolved occurs no more. *)
Lemma includes_render (k : token) (val : token -> option string) (segs : list segment) :
  wellFormed segs = true -> closedVal val -> is_Some (val k) ->
  Str.includes (tokenText k) (render val segs) = false.
Proof.
  intros Hwf Hval Hk. induction segs as [|[s|k'] segs IH].
  - apply includes_token_empty.
  - simpl in Hwf. apply andb_true_iff in Hwf as [Hs Hwf]. apply negb_true_iff in Hs.
    cbn [render]. rewrite includes_lit by done. by apply IH.
  - simpl in Hwf. cbn [render]. destruct (val k') as [v|] eqn:Hv.
    + rewrite includes_lit by eauto. by apply IH.
    + rewrite includes_token_other; [by apply IH|].
      intros ->. rewrite Hv in Hk. by destruct Hk.
Qed.

Lemma ehrVal_resolved (terms : Terms.t) (val : token -> option string) (k : token) :
  isProfileToken k = false -> is_Some (ehrVal terms val k).
Proof.
  intros Hk. unfold ehrVal, resolve. destruct (val k); [by eexists|].
  destruct k; try discriminate; by eexists.
Qed.

Lemma ehrVal_keeps (terms : Terms.t) (val : token -> option string) (k : token) :
  is_Some (val k) -> is_Some (ehrVal terms val k).
Proof. intros [v Hv]. unfold ehrVal, resolve. rewrite Hv. by eexists. Qed.

Lemma profileVal_resolved (profile : option Profile.t) (val : token -> option string)
    (k : token) :
  isProfileToken k = true -> is_Some (profileVal profile val k).
Proof.
  intros Hk. unfold profileVal, resolve. destruct (val k); [by eexists|].
  destruct k; try discriminate; by eexists.
Qed.

Lemma hasEhrToken_render (val : token -> option string) (segs : list segment) :
  wellFormed segs = true -> closedVal val ->
  (forall k, isProfileToken k = false -> is_Some (val k)) ->
  hasEhrToken (render val segs) = false.
Proof.
  intros Hwf Hval Hall. unfold hasEhrToken.
  rewrite (includes_render TFlowsheet), (includes_render TPatientList),
    (includes_render TAlertFlag), (includes_render TNoteType),
    (includes_render TOrderEntry), (includes_render TStoryboard); auto.
Qed.

Lemma hasProfileToken_render (val : token -> option string) (segs : list segment) :
  wellFormed segs = true -> closedVal val ->
  (forall k, isProfileToken k = true -> is_Some (val k)) ->
  hasProfileToken (render val segs) = false.
Proof.
  intros Hwf Hval Hall. unfold hasProfileToken.
  rewrite (includes_render TChiefComplaint), (includes_render TDiagnosis),
    (includes_render TLabOrders), (includes_render TLabResults),
    (includes_render TProblemList), (includes_render TMedicalHistory),
    (includes_render TAntibiotics); auto.
Qed.

(** X5.  The text of a step is resolved completely: for a template whose
    opening braces all start tokens, with profile values and vendor terms
    that hold neither an opening brace nor a dollar sign, resolving the
    profile tokens and then the EHR tokens succeeds and leaves none of the
    thirteen tokens in the text. *)
Theorem step_text_fully_resolved (testDefs : TestDefs.t) (scenario : Scenario.t)
    (ehr : string) (terms : Terms.t) (segs : list segment) :
  ehrTerms testDefs ehr = Some terms ->
  termsInert terms = true ->
  profileInert (Scenario.patientProfile scenario) = true ->
  wellFormed segs = true ->
  exists text,
    resolveEhrTerms testDefs (resolveTemplateVars (templateText segs) scenario) ehr
    = Some text
    /\ hasEhrToken text = false
    /\ hasProfileToken text = false.
Proof.
  intros Hterms Ht Hp Hwf. unfold resolveEhrTerms. rewrite Hterms.
  eexists. split; [reflexivity|]. unfold templateText.
  rewrite resolveTemplateVars_render by auto using noTokens_closed.
  rewrite applyTerms_render by auto using noTokens_closed, profileVal_closed.
  split.
  - apply hasEhrToken_render; [done | |].
    + auto using noTokens_closed, profileVal_closed, ehrVal_closed.
    + intros k Hk. by apply ehrVal_resolved.
  - apply hasProfileToken_render; [done | |].
    + auto using noTokens_closed, profileVal_closed, ehrVal_closed.
    + intros k Hk. by apply ehrVal_keeps, profileVal_resolved.
Qed.

Lemma step_text_fully_resolved_witness :
  exists text,
    resolveEhrTerms Sample.testDefs
      (resolveTemplateVars "Open the {flowsheet} for {chiefComplaint}" Sample.sepsisEd)
      "Cerner" = Some text
    /\ hasEhrToken text = false
    /\ hasProfileToken text = false.
Proof.
  apply (step_text_fully_resolved Sample.testDefs Sample.sepsisEd "Cerner" Sample.cerner
           [Lit "Open the "; Tok TFlowsheet; Lit " for "; Tok TChiefComplaint]);
    vm_compute; reflexivity.
Defined.

Lemma resolveTemplateVars_absent (text : string) (scenario : Scenario.t) :
  hasProfileToken text = false -> resolveTemplateVars text scenario = text.
Proof.
  unfold hasProfileToken, resolveTemplateVars, Str.replaceAll. cbv zeta. intros H.
  do 6 (apply orb_false_iff in H as [H ?]).
  rewrite (replaceAll_go_absent "{chiefComplaint}") by done.
  rewrite (replaceAll_go_absent "{diagnosis}") by done.
  rewrite (replaceAll_go_absent "{labOrders}") by done.
  rewrite (replaceAll_go_absent "{labResults}") by done.
  rewrite (replaceAll_go_absent "{problemList}") by done.
  rewrite (replaceAll_go_absent "{medicalHistory}") by done.
  by rewrite (replaceAll_go_absent "{antibiotics}").
Qed.

Lemma profileVal_none (k : token) : profileVal None noTokens k = profileErased k.
Proof. by destruct k. Qed.

Lemma resolveTemplateVars_no_profile (scenario : Scenario.t) (segs : list segment) :
  Scenario.patientProfile scenario = None -> wellFormed segs = true ->
  resolveTemplateVars (templateText segs) scenario = render profileErased segs.
Proof.
  intros Hnone Hwf. unfold templateText.
  rewrite resolveTemplateVars_render; [| done | apply noTokens_closed | by rewrite Hnone].
  rewrite Hnone. apply render_ext, profileVal_none.
Qed.

(** ** More on the flag tests and on applicability *)

Section MoreFlagTests.

Variable flagData : FlagData.t.
Variable testDefs : TestDefs.t.

Lemma entries_of_flag productKey pc catKey fl :
  map flag (enabledEntry testDefs productKey pc catKey fl) `sublist_of` [fl]
  /\ map flag (disabledEntry testDefs productKey pc catKey fl) `sublist_of` [fl]
  /\ (length (enabledEntry testDefs productKey pc catKey fl)
      + length (disabledEntry testDefs productKey pc catKey fl) <= 1)%nat.
Proof.
  unfold enabledEntry, disabledEntry.
  destruct (tested testDefs productKey fl) as [tc|];
    [|by repeat split; [apply sublist_nil_l | apply sublist_nil_l | simpl; lia]].
  destruct (ProductConfig.flags pc !! Flag.key fl) as [[| |[]| |]|];
    try (by repeat split; [apply sublist_nil_l | apply sublist_nil_l | simpl; lia]).
  - destruct (Criteria.whenEnabled tc);
      by repeat split; [| apply sublist_nil_l | simpl; lia]; try apply sublist_nil_l.
  - destruct (Criteria.whenDisabled tc);
      by repeat split; [apply sublist_nil_l | | simpl; lia]; try apply sublist_nil_l.
Qed.

Lemma entries_of_flags productKey pc catKey flags :
  map flag (flat_map (enabledEntry testDefs productKey pc catKey) flags) `sublist_of` flags
  /\ map flag (flat_map (disabledEntry testDefs productKey pc catKey) flags)
     `sublist_of` flags
  /\ (length (flat_map (enabledEntry testDefs productKey pc catKey) flags)
      + length (flat_map (disabledEntry testDefs productKey pc catKey) flags)
      <= length flags)%nat.
Proof.
  induction flags as [|fl flags (IHe & IHd & IHl)]; [done|].
  destruct (entries_of_flag productKey pc catKey fl) as (He & Hd & Hl).
  cbn [flat_map]. rewrite !map_app, !length_app.
  split; [by apply (sublist_app _ [fl]) |]. split; [by apply (sublist_app _ [fl]) |].
  cbn [length]. lia.
Qed.

Lemma entries_of_catalog productKey pc entries :
  map flag (flat_map (fun entry =>
                        flat_map (enabledEntry testDefs productKey pc (fst entry))
                          (snd entry)) entries)
    `sublist_of` flat_map snd entries
  /\ map flag (flat_map (fun entry =>
                           flat_map (disabledEntry testDefs productKey pc (fst entry))
                             (snd entry)) entries)
       `sublist_of` flat_map snd entries
  /\ (length (flat_map (fun entry =>
                          flat_map (enabledEntry testDefs productKey pc (fst entry))
                            (snd entry)) entries)
      + length (flat_map (fun entry =>
                            flat_map (disabledEntry testDefs productKey pc (fst entry))
                              (snd entry)) entries)
      <= length (flat_map snd entries))%nat.
Proof.
  induction entries as [|[catKey flags] entries (IHe & IHd & IHl)]; [done|].
  destruct (entries_of_flags productKey pc catKey flags) as (He & Hd & Hl).
  cbn [flat_map fst snd]. rewrite !map_app, !length_app.
  split; [by apply sublist_app |]. split; [by apply sublist_app |]. lia.
Qed.

(** X7.  The flags of the enabled list and those of the disabled list each
    follow the order of the flag catalog, a flag of the catalog being taken
    at most once; the two lists together are no longer than the catalog, and
    no flag key is in both. *)
Theorem getFlagTests_within_catalog (customer : Customer.t) (productKey : string)
    (customerConfig : option CustomerConfig) :
  let tests := getFlagTests flagData testDefs customer productKey customerConfig in
  let catalog := flat_map snd (FlagData.flagDefinitions flagData) in
  map flag (enabled tests) `sublist_of` catalog
  /\ map flag (disabled tests) `sublist_of` catalog
  /\ (length (enabled tests) + length (disabled tests) <= length catalog)%nat
  /\ forall a b, a ∈ enabled tests -> b ∈ disabled tests ->
                 Flag.key (flag a) <> Flag.key (flag b).
Proof.
  cbv zeta. rewrite getFlagTests_select. unfold selectFlagTests.
  rewrite <- productBlock_spec.
  destruct (productBlock customerConfig productKey) as [pc|]; cbn [enabled disabled].
  - destruct (entries_of_catalog productKey pc (FlagData.flagDefinitions flagData))
      as (He & Hd & Hl).
    split; [done|]. split; [done|]. split; [done|].
    intros a b Ha Hb Hkey.
    apply elem_of_catalog in Ha as (? & ? & fa & _ & _ & Ha).
    apply elem_of_catalog in Hb as (? & ? & fb & _ & _ & Hb).
    apply elem_of_enabledEntry in Ha as (? & ? & _ & _ & Hva & _ & ->).
    apply elem_of_disabledEntry in Hb as (? & ? & _ & _ & Hvb & _ & ->).
    cbn [flag] in Hkey. rewrite Hkey in Hva. congruence.
  - split; [apply sublist_nil_l|]. split; [apply sublist_nil_l|].
    split; [simpl; lia|]. by intros a b ?%elem_of_nil.
Qed.

End MoreFlagTests.

Lemma requiredFlagsHold_more (pc pc' : ProductConfig.t) (required : list string) :
  (forall f, ProductConfig.flags pc !! f = Some (VBool true) ->
             ProductConfig.flags pc' !! f = Some (VBool true)) ->
  requiredFlagsHold pc required = true -> requiredFlagsHold pc' required = true.
Proof.
  intros Hmore. rewrite !requiredFlagsHold_spec. intros H f Hf. by apply Hmore, H.
Qed.

(** X8.  Applicability only grows: a scenario that applies to a customer
    still applies when the customer owns more products and when, in the
    block of the scenario's product, every flag that was [true] still is,
    whatever else the configuration has become. *)
Theorem scenarioApplies_monotone (scenario : Scenario.t) (customer customer' : Customer.t)
    (cfg cfg' : option CustomerConfig) :
  (forall p, p ∈ Customer.products customer -> p ∈ Customer.products customer') ->
  (forall pc, productBlock cfg (Scenario.product scenario) = Some pc ->
     exists pc', productBlock cfg' (Scenario.product scenario) = Some pc'
                 /\ forall f, ProductConfig.flags pc !! f = Some (VBool true) ->
                              ProductConfig.flags pc' !! f = Some (VBool true)) ->
  scenarioApplies scenario customer cfg = true ->
  scenarioApplies scenario customer' cfg' = true.
Proof.
  intros Hprod Hcfg. unfold scenarioApplies.
  destruct (decide (Scenario.product scenario ∈ Customer.products customer)) as [Hin|Hin].
  - rewrite (bool_decide_eq_true_2 _ Hin), (bool_decide_eq_true_2 _ (Hprod _ Hin)).
    cbn [negb]. destruct (Scenario.requiredFlags scenario) as [[|f fs]|]; [done| |done].
    destruct (productBlock cfg (Scenario.product scenario)) as [pc|]; [|done].
    destruct (Hcfg pc eq_refl) as (pc' & -> & Hmore).
    by apply requiredFlagsHold_more.
  - by rewrite (bool_decide_eq_false_2 _ Hin).
Qed.

Lemma scenarioApplies_monotone_witness :
  scenarioApplies Sample.sepsisEd
    (Customer.mk "medstar_health" "MedStar Health" "Epic" ["deterioration"; "sepsis"])
    (Some (<["sepsis" := ProductConfig.mk
                           (<["nurse_writeback" := VBool true]>
                              (ProductConfig.flags Sample.sepsisBlock)) ∅]> ∅))
  = true.
Proof.
  apply (scenarioApplies_monotone Sample.sepsisEd Sample.medstar _
           (Some (<["sepsis" := Sample.sepsisBlock]> ∅))).
  - intros p Hp. cbn in *. set_unfold. tauto.
  - intros pc Hpc.
    exists (ProductConfig.mk (<["nurse_writeback" := VBool true]>
                                (ProductConfig.flags Sample.sepsisBlock)) ∅).
    split; [reflexivity|]. intros f Hf.
    assert (E : Some pc = Some Sample.sepsisBlock) by (rewrite <- Hpc; reflexivity).
    injection E as ->.
    cbn [ProductConfig.flags].
    destruct (decide (f = "nurse_writeback")) as [->|Hne].
    + apply lookup_insert_eq.
    + rewrite lookup_insert_ne by done. exact Hf.
  - vm_compute. reflexivity.
Defined.

(** ** Every row of a plan *)

Section EveryRow.

Variable flagData : FlagData.t.
Variable testDefs : TestDefs.t.
Variable P : Row -> Prop.

Hypothesis P_title : P titleRow.
Hypothesis P_scenarioHeader : forall scenario, P (scenarioHeaderRow scenario).
Hypothesis P_patient : forall scenario p, P (patientSetupRow scenario p).
Hypothesis P_step :
  forall k section ehr scenario step n r,
    (k = KSetupStep \/ k = KCoreStep) ->
    stepRow testDefs k section ehr scenario step n = Some r -> P r.
Hypothesis P_flagHeader : forall scenario, P (flagHeaderRow scenario).
Hypothesis P_flagStep :
  forall section verdict ehr flagTest criterion n r,
    criterionRow testDefs KFlagStep section verdict ehr flagTest criterion n = Some r -> P r.
Hypothesis P_absenceStep :
  forall section verdict ehr flagTest criterion n r,
    criterionRow testDefs KAbsenceStep section verdict ehr flagTest criterion n = Some r ->
    P r.
Hypothesis P_absenceHeader : forall productKey, P (absenceHeaderRow flagData productKey).
Hypothesis P_categoryHeader : forall catKey, P (categoryHeaderRow catKey).

Lemma every_stepRows k section ehr scenario steps :
  k = KSetupStep \/ k = KCoreStep ->
  allRows P (stepRows testDefs k section ehr scenario steps).
Proof.
  intros Hk. apply allRows_inSequence. intros step. apply allRows_numbered.
  intros n r. by apply P_step.
Qed.

Lemma every_flagSteps section verdict ehr flagTest :
  allRows P (criterionRows testDefs KFlagStep section verdict ehr flagTest).
Proof.
  apply allRows_inSequence. intros cr. apply allRows_numbered.
  intros n r. by apply P_flagStep.
Qed.

Lemma every_absenceSteps section verdict ehr flagTest :
  allRows P (criterionRows testDefs KAbsenceStep section verdict ehr flagTest).
Proof.
  apply allRows_inSequence. intros cr. apply allRows_numbered.
  intros n r. by apply P_absenceStep.
Qed.

Lemma every_flagSection ehr scenario tests :
  allRows P (flagSection testDefs ehr scenario tests).
Proof.
  intros n n' out H. unfold flagSection in H. destruct tests as [|t tests].
  - by injection H as <- <-.
  - destruct (inSequence _ (t :: tests) n) as [[n1 body]|] eqn:H1; [|done].
    injection H as <- <-. constructor; [apply P_flagHeader|].
    revert H1. apply allRows_inSequence. intros ft. apply every_flagSteps.
Qed.

Lemma every_scenarioBlock customer cfg scenario :
  allRows P (scenarioBlock flagData testDefs customer cfg scenario).
Proof.
  intros n n' out H. unfold scenarioBlock in H. cbv zeta in H.
  set (start := match Scenario.patientProfile scenario with
                | Some p => (N.succ (N.succ n), [patientSetupRow scenario p])
                | None => (N.succ n, [])
                end) in *.
  assert (Hstart : Forall P start.2).
  { unfold start. destruct (Scenario.patientProfile scenario); cbn [snd]; [|done].
    repeat constructor. apply P_patient. }
  destruct start as [m patient]. cbn [snd] in Hstart.
  destruct (stepRows _ KSetupStep _ _ _ _ m) as [[n3 setup]|] eqn:E1; [|done].
  destruct (stepRows _ KCoreStep _ _ _ _ n3) as [[n4 core]|] eqn:E2; [|done].
  destruct (flagSection _ _ _ _ n4) as [[n5 flags]|] eqn:E3; [|done].
  injection H as <- <-. constructor; [apply P_scenarioHeader|].
  apply Forall_app. split; [done|].
  apply Forall_app. split; [revert E1; apply every_stepRows; by left|].
  apply Forall_app. split; [revert E2; apply every_stepRows; by right|].
  revert E3. apply every_flagSection.
Qed.

Lemma every_absenceGroups ehr previous tests :
  allRows P (absenceGroups testDefs ehr previous tests).
Proof.
  revert previous. induction tests as [|t tests IH]; intros previous n n' out H.
  - by injection H as <- <-.
  - cbn [absenceGroups] in H.
    destruct (criterionRows _ _ _ _ _ t n) as [[n1 steps]|] eqn:H1; [|done].
    destruct (absenceGroups _ _ _ tests n1) as [[n2 more]|] eqn:H2; [|done].
    injection H as <- <-.
    apply Forall_app. split.
    { destruct (bool_decide _); repeat constructor. apply P_categoryHeader. }
    apply Forall_app. split; [|by eapply IH].
    revert H1. apply every_absenceSteps.
Qed.

Lemma every_part2 customer cfg productKeys :
  allRows P (part2 flagData testDefs customer cfg productKeys).
Proof.
  apply allRows_inSequence. intros p n n' out H. unfold absenceSection in H.
  destruct (disabled _) as [|t tests]; [by injection H as <- <-|].
  destruct (absenceGroups _ _ _ (t :: tests) n) as [[n1 body]|] eqn:H1; [|done].
  injection H as <- <-. constructor; [apply P_absenceHeader|].
  by eapply every_absenceGroups.
Qed.

(** What holds of each row where it is pushed holds of every row of a plan. *)
Lemma every_row_of_plan (customer : Customer.t) (plan : list Row) :
  planRows flagData testDefs customer = Some plan -> Forall P plan.
Proof.
  rewrite planRows_parts. cbv zeta. intros H.
  destruct (part1 _ _ _ _ _ 0%N) as [[n1 out1]|] eqn:E1; [|done].
  destruct (part2 _ _ _ _ _ n1) as [[n2 out2]|] eqn:E2; [|done].
  injection H as <-. constructor; [apply P_title|]. apply Forall_app. split.
  - revert E1. apply allRows_inSequence. intros s. apply every_scenarioBlock.
  - revert E2. apply every_part2.
Qed.

End EveryRow.

(** ** The written plan *)

Lemma countChar_app (c : ascii) (a b : string) :
  countChar c (a +:+ b) = (countChar c a + countChar c b)%nat.
Proof. induction a as [|x a IH]; [done|]. cbn [String.append countChar]. rewrite IH. lia. Qed.

Lemma countChar_none (c : ascii) (s : string) : hasChar c s = false -> countChar c s = 0%nat.
Proof.
  induction s as [|x s IH]; [done|]. cbn [hasChar countChar]. intros H.
  apply orb_false_iff in H as [-> Hs]. by rewrite IH.
Qed.

Lemma countChar_doubleQuotes (s : string) :
  countChar Str.newline (doubleQuotes s) = countChar Str.newline s.
Proof.
  induction s as [|x s IH]; [done|]. cbn [doubleQuotes countChar].
  destruct (Ascii.eqb x Str.dquote) eqn:E; cbn [countChar]; rewrite IH; [|done].
  apply Ascii.eqb_eq in E. subst x. reflexivity.
Qed.

(** Escaping neither adds nor drops a line feed. *)
Lemma countChar_csvEscape (v : jsval) :
  countChar Str.newline (csvEscape v) = countChar Str.newline (cellText v).
Proof.
  assert (H : forall s,
    countChar Str.newline
      (if Str.includes "," s || Str.includes (Str.single Str.dquote) s
          || Str.includes (Str.single Str.newline) s
       then Str.single Str.dquote
            +:+ Str.replaceAll (Str.single Str.dquote)
                  (String Str.dquote (Str.single Str.dquote)) s
            +:+ Str.single Str.dquote
       else s)
    = countChar Str.newline s).
  { intros s. destruct (_ || _); [|done]. unfold Str.replaceAll.
    rewrite replaceAll_go_quotes, !countChar_app, countChar_doubleQuotes.
    change (countChar Str.newline (Str.single Str.dquote)) with 0%nat. lia. }
  destruct v; try done; apply H.
Qed.

Lemma countChar_csvRow (values : list jsval) :
  countChar Str.newline (csvRow values)
  = sum_list (map (fun v => countChar Str.newline (cellText v)) values).
Proof.
  unfold csvRow. induction values as [|v [|w values] IH]; [done | |].
  - cbn [map Str.join sum_list_with id]. rewrite countChar_csvEscape. lia.
  - rewrite !map_cons, join_comma_cons, countChar_app. cbn [countChar].
    rewrite <- map_cons, IH, countChar_csvEscape.
    change (Ascii.eqb Str.comma Str.newline) with false.
    cbn [map sum_list_with id]. lia.
Qed.

Lemma split_go_length (sep : ascii) (cur s : string) :
  length (Str.split_go sep cur s) = S (countChar sep s).
Proof.
  revert cur. induction s as [|c s IH]; intros cur; [done|].
  cbn [Str.split_go countChar]. destruct (Ascii.eqb c sep); cbn [length]; by rewrite IH.
Qed.

Lemma joinLines_cons (p q : string) (rest : list string) :
  Str.join (Str.single Str.newline) (p :: q :: rest)
  = p +:+ String Str.newline (Str.join (Str.single Str.newline) (q :: rest)).
Proof. reflexivity. Qed.

Lemma countChar_lines (texts : list string) :
  texts <> [] ->
  S (countChar Str.newline (Str.join (Str.single Str.newline) texts))
  = (length texts + sum_list (map (countChar Str.newline) texts))%nat.
Proof.
  induction texts as [|p [|q texts] IH]; intros Hne; [done | |].
  - cbn. lia.
  - rewrite joinLines_cons, countChar_app. cbn [countChar].
    rewrite Ascii.eqb_refl. specialize (IH ltac:(done)).
    cbn [length map sum_list_with id] in *. lia.
Qed.

(** A row of two cells or more is written as a text that is not empty. *)
Lemma csvRow_nonempty (v w : jsval) (values : list jsval) :
  exists c s, csvRow (v :: w :: values) = String c s.
Proof.
  unfold csvRow. rewrite !map_cons, join_comma_cons.
  destruct (csvEscape v) as [|c s]; by eexists _, _.
Qed.

Lemma readRecords_rows (rows : list (list jsval)) :
  rows <> [] -> Forall (fun r => (2 <= length r)%nat) rows ->
  Forall (Forall (fun v => returnsQuoted v = true)) rows ->
  readRecords (length rows) (Str.join (Str.single Str.newline) (map csvRow rows))
  = Some (map (map cellText) rows).
Proof.
  induction rows as [|r [|r2 rows] IH]; intros Hne Hrows Hsafe; [done | |].
  - apply Forall_cons in Hrows as [Hr _]. destruct r as [|v vs]; [simpl in Hr; lia|].
    apply Forall_cons in Hsafe as [Hsafe _].
    cbn [length map Str.join readRecords]. unfold Reader.readRecord.
    by rewrite read_csvRow.
  - apply Forall_cons in Hrows as [Hr Hrows]. destruct r as [|v vs]; [simpl in Hr; lia|].
    apply Forall_cons in Hsafe as [Hv Hsafe].
    specialize (IH ltac:(done) Hrows Hsafe).
    change (length ((v :: vs) :: r2 :: rows)) with (S (length (r2 :: rows))).
    rewrite !map_cons, joinLines_cons. cbn [readRecords]. unfold Reader.readRecord.
    rewrite read_csvRow_line by done. cbn [app].
    rewrite <- map_cons, IH.
    apply Forall_cons in Hrows as [Hr2 _].
    destruct r2 as [|a [|b r2]]; [simpl in Hr2; lia | simpl in Hr2; lia |].
    destruct (csvRow_nonempty a b r2) as (c & s & Hcs).
    destruct rows as [|r3 rows].
    + cbn [map Str.join]. by rewrite Hcs.
    + rewrite !map_cons, joinLines_cons, Hcs. reflexivity.
Qed.

Section WrittenPlan.

Variable flagData : FlagData.t.
Variable testDefs : TestDefs.t.

Lemma plan_starts_with_title (customer : Customer.t) (plan : list Row) :
  planRows flagData testDefs customer = Some plan -> exists rest, plan = titleRow :: rest.
Proof.
  rewrite planRows_parts. cbv zeta. intros H.
  destruct (part1 _ _ _ _ _ 0%N) as [[n1 out1]|]; [|done].
  destruct (part2 _ _ _ _ _ n1) as [[n2 out2]|]; [|done].
  injection H as <-. by eexists.
Qed.

Lemma plan_rows_nine (customer : Customer.t) (plan : list Row) :
  planRows flagData testDefs customer = Some plan ->
  Forall (fun r => length (cells r) = 9%nat) plan.
Proof.
  apply every_row_of_plan; try done.
  - intros k section ehr scenario step n r _. unfold stepRow.
    destruct (resolveEhrTerms _ _ _); [|done].
    destruct (resolveEhrTerms _ _ _); [|done]. by intros [= <-].
  - intros section verdict ehr ft cr n r. unfold criterionRow.
    destruct (resolveEhrTerms _ _ _); [|done]. by intros [= <-].
  - intros section verdict ehr ft cr n r. unfold criterionRow.
    destruct (resolveEhrTerms _ _ _); [|done]. by intros [= <-].
Qed.

(** X2.  Every row of a plan has nine cells.  When no cell of the plan has
    a carriage return outside quotes, that is when every cell with a
    carriage return also holds a comma, a quote or a line feed, the written
    plan read record by record gives back the texts of all cells, row for
    row: commas, quotes and line feeds in a cell break no row and shift no
    column. *)
Theorem written_plan_reads_back (customer : Customer.t) (plan : list Row) :
  planRows flagData testDefs customer = Some plan ->
  Forall (fun r => length (cells r) = 9%nat) plan
  /\ exists csv,
       generateTestPlan flagData testDefs customer = Some csv
       /\ (rowsQuoted plan = true ->
           readRecords (length plan) csv
           = Some (map (fun r => map cellText (cells r)) plan)).
Proof.
  intros H. pose proof (plan_rows_nine _ _ H) as Hnine. split; [done|].
  unfold generateTestPlan. rewrite H. eexists. split; [reflexivity|]. intros Hsafe.
  destruct (plan_starts_with_title _ _ H) as [rest ->].
  rewrite <- (map_map cells csvRow), <- (map_map cells (map cellText)).
  rewrite <- (length_map cells). apply readRecords_rows; [done| |].
  - apply Forall_map. eapply Forall_impl; [exact Hnine|]. intros r Hr. cbn in *. lia.
  - apply Forall_map. apply Forall_forall. intros r Hr.
    apply Forall_forall. intros v Hv. unfold rowsQuoted in Hsafe.
    rewrite forallb_forall in Hsafe. apply list_elem_of_In in Hr, Hv.
    specialize (Hsafe r Hr). rewrite forallb_forall in Hsafe. by apply Hsafe.
Qed.

(** X3.  The number of rows that [main] reports for a plan is the number of
    its lines: the number of rows of the plan (the title row included) plus
    the number of line feeds inside cells. *)
Theorem lineCount_of_plan (customer : Customer.t) (plan : list Row) :
  planRows flagData testDefs customer = Some plan ->
  exists csv,
    generateTestPlan flagData testDefs customer = Some csv
    /\ lineCount csv = (length plan + lineFeeds plan)%nat.
Proof.
  intros H. unfold generateTestPlan. rewrite H. eexists. split; [reflexivity|].
  destruct (plan_starts_with_title _ _ H) as [rest ->].
  unfold lineCount, Str.split. rewrite split_go_length, countChar_lines by done.
  rewrite length_map. f_equal. unfold lineFeeds. rewrite map_map.
  f_equal. apply map_ext. intros r. apply countChar_csvRow.
Qed.

End WrittenPlan.

Lemma written_plan_reads_back_witness :
  exists plan csv,
    planRows Sample.flagData Sample.testDefs Sample.medstar = Some plan
    /\ Forall (fun r => length (cells r) = 9%nat) plan
    /\ generateTestPlan Sample.flagData Sample.testDefs Sample.medstar = Some csv
    /\ readRecords (length plan) csv = Some (map (fun r => map cellText (cells r)) plan).
Proof.
  assert (Hsafe : rowsQuoted <$> planRows Sample.flagData Sample.testDefs Sample.medstar
                  = Some true) by (vm_compute; reflexivity).
  destruct (planRows Sample.flagData Sample.testDefs Sample.medstar) as [plan|] eqn:H;
    [|discriminate Hsafe].
  injection Hsafe as Hsafe.
  destruct (written_plan_reads_back Sample.flagData Sample.testDefs Sample.medstar plan H)
    as (Hnine & csv & Hcsv & Hread).
  exists plan, csv. auto.
Defined.

Lemma lineCount_of_plan_witness :
  exists plan csv,
    planRows Sample.flagData Sample.testDefs Sample.newco = Some plan
    /\ generateTestPlan Sample.flagData Sample.testDefs Sample.newco = Some csv
    /\ lineCount csv = (length plan + lineFeeds plan)%nat.
Proof.
  destruct (planRows Sample.flagData Sample.testDefs Sample.newco) as [plan|] eqn:H;
    [|vm_compute in H; discriminate].
  destruct (lineCount_of_plan Sample.flagData Sample.testDefs Sample.newco plan H)
    as (csv & Hcsv & Hcount).
  by exists plan, csv.
Defined.

(** ** The statistics and the plan *)

Lemma kindCount_app (k : rowKind) (a b : list Row) :
  kindCount k (a ++ b) = (kindCount k a + kindCount k b)%nat.
Proof. unfold kindCount. by rewrite filter_app, length_app. Qed.

Lemma kindCount_none (k : rowKind) (rs : list Row) :
  Forall (fun r => kind r <> k) rs -> kindCount k rs = 0%nat.
Proof.
  unfold kindCount. induction 1 as [|r rs Hr _ IH]; [done|].
  by rewrite filter_cons, decide_False.
Qed.

Lemma kindCount_inSequence {A : Type} (k : rowKind) (g : A -> Emitter) (each : nat)
    (xs : list A) (n n' : N) (out : list Row) :
  (forall x m m' o, g x m = Some (m', o) -> kindCount k o = each) ->
  inSequence g xs n = Some (n', out) -> kindCount k out = (each * length xs)%nat.
Proof.
  intros Hg. revert n n' out. induction xs as [|x xs IH]; intros n n' out H; simpl in H.
  - injection H as <- <-. change (kindCount k []) with 0%nat. cbn [length]. lia.
  - destruct (g x n) as [[n1 out1]|] eqn:H1; [|done].
    destruct (inSequence g xs n1) as [[n2 out2]|] eqn:H2; [|done].
    injection H as <- <-. rewrite kindCount_app, (Hg _ _ _ _ H1), (IH _ _ _ H2).
    cbn [length]. lia.
Qed.

Section StatsLemmas.

Variable flagData : FlagData.t.
Variable testDefs : TestDefs.t.

Lemma count_applicable (customer : Customer.t) (cfg : option CustomerConfig)
    (scenarios : list Scenario.t) (count : N) :
  fold_left (fun count scenario =>
               if scenarioApplies scenario customer cfg then N.succ count else count)
    scenarios count
  = (count + N.of_nat (length (filter (fun s => scenarioApplies s customer cfg = true)
                                 scenarios)))%N.
Proof.
  revert count. induction scenarios as [|s scenarios IH]; intros count.
  - simpl. lia.
  - cbn [fold_left]. rewrite IH, filter_cons.
    destruct (scenarioApplies s customer cfg) eqn:E.
    + rewrite decide_True by done. cbn [length]. lia.
    + rewrite decide_False by done. lia.
Qed.

Lemma count_flagTests (customer : Customer.t) (cfg : option CustomerConfig)
    (productKeys : list string) (en dis : N) :
  fold_left (fun '(en, dis) productKey =>
               let tests := getFlagTests flagData testDefs customer productKey cfg in
               ((en + N.of_nat (length (enabled tests)))%N,
                (dis + N.of_nat (length (disabled tests)))%N))
    productKeys (en, dis)
  = ((en + N.of_nat (sum_list (map (fun p => length (enabled (getFlagTests flagData testDefs
                                                               customer p cfg)))
                                 productKeys)))%N,
     (dis + N.of_nat (sum_list (map (fun p => length (disabled (getFlagTests flagData testDefs
                                                                 customer p cfg)))
                                  productKeys)))%N).
Proof.
  revert en dis. induction productKeys as [|p ps IH]; intros en dis.
  - simpl. f_equal; lia.
  - cbn [fold_left]. cbv zeta. rewrite IH. cbn [map sum_list_with id]. f_equal; lia.
Qed.

Lemma stats_values (customer : Customer.t) :
  let cfg := FlagData.configurations flagData !! Customer.key customer in
  getTestPlanStats flagData testDefs customer
  = mkStats
      (N.of_nat (length (filter (fun s => scenarioApplies s customer cfg = true)
                           (TestDefs.scenarios testDefs))))
      (N.of_nat (sum_list (map (fun p => length (enabled (getFlagTests flagData testDefs
                                                            customer p cfg)))
                              (Customer.products customer))))
      (N.of_nat (sum_list (map (fun p => length (disabled (getFlagTests flagData testDefs
                                                             customer p cfg)))
                              (Customer.products customer)))).
Proof.
  cbv zeta. unfold getTestPlanStats. cbv zeta.
  rewrite count_applicable, count_flagTests. f_equal; lia.
Qed.

Lemma stepRows_kind k section ehr scenario steps :
  allRows (fun r => kind r = k) (stepRows testDefs k section ehr scenario steps).
Proof.
  apply allRows_inSequence. intros step. apply allRows_numbered.
  intros n r H. by apply stepRow_shown in H as [_ ?].
Qed.

Lemma flagSection_kinds ehr scenario tests :
  allRows (fun r => kind r ∈ flagKinds) (flagSection testDefs ehr scenario tests).
Proof.
  intros n n' out H. unfold flagSection in H. destruct tests as [|t tests].
  - by injection H as <- <-.
  - destruct (inSequence _ (t :: tests) n) as [[n1 body]|] eqn:H1; [|done].
    injection H as <- <-. constructor; [by left|].
    revert H1. apply allRows_inSequence. intros ft.
    apply allRows_inSequence. intros cr. apply allRows_numbered.
    intros m r Hr. apply criterionRow_shown in Hr as (_ & -> & _).
    unfold flagKinds. set_unfold. tauto.
Qed.

(** The block of a scenario has one scenario header. *)
Lemma scenarioBlock_one_header customer cfg scenario n n' out :
  scenarioBlock flagData testDefs customer cfg scenario n = Some (n', out) ->
  kindCount KScenarioHeader out = 1%nat.
Proof.
  intros H. unfold scenarioBlock in H. cbv zeta in H.
  set (start := match Scenario.patientProfile scenario with
                | Some p => (N.succ (N.succ n), [patientSetupRow scenario p])
                | None => (N.succ n, [])
                end) in *.
  assert (Hstart : kindCount KScenarioHeader start.2 = 0%nat).
  { unfold start. by destruct (Scenario.patientProfile scenario). }
  destruct start as [m patient]. cbn [snd] in Hstart.
  destruct (stepRows _ KSetupStep _ _ _ _ m) as [[n3 setup]|] eqn:E1; [|done].
  destruct (stepRows _ KCoreStep _ _ _ _ n3) as [[n4 core]|] eqn:E2; [|done].
  destruct (flagSection _ _ _ _ n4) as [[n5 flags]|] eqn:E3; [|done].
  injection H as <- <-.
  change (scenarioHeaderRow scenario :: patient ++ setup ++ core ++ flags)
    with ([scenarioHeaderRow scenario] ++ patient ++ setup ++ core ++ flags).
  rewrite !kindCount_app, Hstart.
  rewrite (kindCount_none _ setup), (kindCount_none _ core), (kindCount_none _ flags).
  - reflexivity.
  - apply flagSection_kinds in E3. eapply Forall_impl; [exact E3|].
    intros r Hr Hk. cbn beta in Hr. rewrite Hk in Hr. unfold flagKinds in Hr. set_unfold.
    intuition discriminate.
  - apply stepRows_kind in E2. eapply Forall_impl; [exact E2|]. by intros r ->.
  - apply stepRows_kind in E1. eapply Forall_impl; [exact E1|]. by intros r ->.
Qed.

Lemma absenceRow_kinds (r : Row) : absenceRow r -> kind r ∈ absenceKinds.
Proof.
  unfold absenceRow, absenceKinds. destruct (kind r); try done; intros _; set_unfold; tauto.
Qed.

(** X9.  The number of scenarios in the statistics of a customer is the
    number of scenario header rows of the customer's plan; it is at most the
    number of scenarios of the library. *)
Theorem stats_count_scenarios (customer : Customer.t) (plan : list Row) :
  planRows flagData testDefs customer = Some plan ->
  scenarioCount (getTestPlanStats flagData testDefs customer)
  = N.of_nat (kindCount KScenarioHeader plan)
  /\ (scenarioCount (getTestPlanStats flagData testDefs customer)
      <= N.of_nat (length (TestDefs.scenarios testDefs)))%N.
Proof.
  intros H. rewrite stats_values. cbv zeta. cbn [scenarioCount]. split.
  - rewrite planRows_parts in H. cbv zeta in H.
    destruct (part1 _ _ _ _ _ 0%N) as [[n1 out1]|] eqn:E1; [|done].
    destruct (part2 _ _ _ _ _ n1) as [[n2 out2]|] eqn:E2; [|done].
    injection H as <-.
    change (titleRow :: out1 ++ out2) with ([titleRow] ++ out1 ++ out2).
    rewrite !kindCount_app.
    rewrite (kindCount_inSequence KScenarioHeader _ 1 _ _ _ _
               (scenarioBlock_one_header customer _) E1).
    rewrite (kindCount_none _ out2).
    + change (kindCount KScenarioHeader [titleRow]) with 0%nat. f_equal. lia.
    + apply allRows_part2 in E2. eapply Forall_impl; [exact E2|].
      intros r Hr Hk. cbn beta in Hr. apply absenceRow_kinds in Hr. rewrite Hk in Hr.
      unfold absenceKinds in Hr. set_unfold. intuition discriminate.
  - pose proof (length_filter (fun s => scenarioApplies s customer
                   (FlagData.configurations flagData !! Customer.key customer) = true)
                  (TestDefs.scenarios testDefs)). lia.
Qed.

End StatsLemmas.

Lemma stats_count_scenarios_witness :
  exists plan,
    planRows Sample.flagData Sample.testDefs Sample.medstar = Some plan
    /\ scenarioCount (getTestPlanStats Sample.flagData Sample.testDefs Sample.medstar)
       = N.of_nat (kindCount KScenarioHeader plan).
Proof.
  destruct (planRows Sample.flagData Sample.testDefs Sample.medstar) as [plan|] eqn:H;
    [|vm_compute in H; discriminate].
  exists plan. split; [reflexivity|].
  exact (proj1 (stats_count_scenarios Sample.flagData Sample.testDefs Sample.medstar plan H)).
Defined.

Lemma sum_list_zero {A : Type} (f : A -> nat) (xs : list A) :
  sum_list (map f xs) = 0%nat <-> forall x, x ∈ xs -> f x = 0%nat.
Proof.
  induction xs as [|x xs IH]; cbn [map sum_list_with id].
  - split; [|done]. by intros _ x ?%elem_of_nil.
  - split.
    + intros H y Hy. apply elem_of_cons in Hy as [->|Hy]; [lia|]. apply IH; [lia | done].
    + intros H. rewrite (H x) by (by left). apply IH. intros y Hy. apply H. by right.
Qed.

Lemma inSequence_silent_in {A : Type} (g : A -> Emitter) (xs : list A) (n : N) :
  (forall x m, x ∈ xs -> g x m = Some (m, [])) -> inSequence g xs n = Some (n, []).
Proof.
  revert n. induction xs as [|x xs IH]; intros n Hg; [done|].
  cbn [inSequence]. rewrite Hg by (by left). rewrite IH; [done|].
  intros y m Hy. apply Hg. by right.
Qed.

Lemma allRows_inSequence_in {A : Type} (P : Row -> Prop) (g : A -> Emitter) (xs : list A)
    (n n' : N) (out : list Row) :
  (forall x m m' o, x ∈ xs -> g x m = Some (m', o) -> Forall P o) ->
  inSequence g xs n = Some (n', out) -> Forall P out.
Proof.
  revert n n' out. induction xs as [|x xs IH]; intros n n' out Hg H; simpl in H.
  - by injection H as <- <-.
  - destruct (g x n) as [[n1 out1]|] eqn:H1; [|done].
    destruct (inSequence g xs n1) as [[n2 out2]|] eqn:H2; [|done].
    injection H as <- <-. apply Forall_app. split.
    + eapply Hg; [by left | done].
    + eapply IH; [|done]. intros y m m' o Hy. apply Hg. by right.
Qed.

Section ZeroCounts.

Variable flagData : FlagData.t.
Variable testDefs : TestDefs.t.

(** The section of a product with a disabled flag test starts with its
    header. *)
Lemma part2_has_header customer cfg productKeys productKey n n' out :
  productKey ∈ productKeys ->
  disabled (getFlagTests flagData testDefs customer productKey cfg) <> [] ->
  part2 flagData testDefs customer cfg productKeys n = Some (n', out) ->
  absenceHeaderRow flagData productKey ∈ out.
Proof.
  unfold part2. revert n n' out.
  induction productKeys as [|p ps IH]; intros n n' out Hin Hne H;
    [by apply elem_of_nil in Hin|].
  cbn [inSequence] in H.
  destruct (absenceSection _ _ _ _ p n) as [[n1 out1]|] eqn:H1; [|done].
  destruct (inSequence _ ps n1) as [[n2 out2]|] eqn:H2; [|done].
  injection H as <- <-. apply elem_of_app.
  apply elem_of_cons in Hin as [->|Hin]; [left | right; by eapply IH].
  unfold absenceSection in H1.
  destruct (disabled _) as [|t tests]; [done|].
  destruct (absenceGroups _ _ _ _ n) as [[n3 body]|]; [|done].
  injection H1 as <- <-. by left.
Qed.

(** The rows of Part 1 are not rows of the absence tests. *)
Lemma part1_not_absence customer cfg scenarios :
  allRows (fun r => kind r ∉ absenceKinds)
    (part1 flagData testDefs customer cfg scenarios).
Proof.
  assert (Hno : forall k, k ∈ [KScenarioHeader; KPatientSetup; KSetupStep; KCoreStep;
                               KFlagHeader; KFlagStep] -> k ∉ absenceKinds).
  { intros k Hk Ha. unfold absenceKinds in Ha. set_unfold. intuition congruence. }
  apply allRows_inSequence. intros s.
  apply (every_scenarioBlock flagData testDefs).
  - intros scenario. apply Hno. set_unfold. tauto.
  - intros scenario p. apply Hno. set_unfold. tauto.
  - intros k section ehr scenario step n r Hk Hr. apply stepRow_shown in Hr as [_ ->].
    apply Hno. set_unfold. destruct Hk as [-> | ->]; tauto.
  - intros scenario. apply Hno. set_unfold. tauto.
  - intros section verdict ehr ft cr n r Hr. apply criterionRow_shown in Hr as (_ & -> & _).
    apply Hno. set_unfold. tauto.
Qed.

(** X10.  When the statistics of a customer count no disabled flag test the
    plan has no row of the absence tests, and only then; when they count no
    enabled flag test the plan has no row of a Flag Verification section. *)
Theorem stats_zero_counts (customer : Customer.t) (plan : list Row) :
  planRows flagData testDefs customer = Some plan ->
  (disabledFlagCount (getTestPlanStats flagData testDefs customer) = 0%N
   <-> Forall (fun r => kind r ∉ absenceKinds) plan)
  /\ (enabledFlagCount (getTestPlanStats flagData testDefs customer) = 0%N ->
      Forall (fun r => kind r ∉ flagKinds) plan).
Proof.
  intros H. rewrite stats_values. cbv zeta. cbn [disabledFlagCount enabledFlagCount].
  rewrite planRows_parts in H. cbv zeta in H.
  set (cfg := FlagData.configurations flagData !! Customer.key customer) in *.
  destruct (part1 _ _ _ cfg _ 0%N) as [[n1 out1]|] eqn:E1; [|done].
  destruct (part2 _ _ _ cfg _ n1) as [[n2 out2]|] eqn:E2; [|done].
  injection H as <-. split; [split|].
  - intros Hzero.
    assert (Hall : forall p, p ∈ Customer.products customer ->
              length (disabled (getFlagTests flagData testDefs customer p cfg)) = 0%nat).
    { apply sum_list_zero. lia. }
    assert (E2' : part2 flagData testDefs customer cfg (Customer.products customer) n1
                  = Some (n1, [])).
    { apply inSequence_silent_in. intros p m Hp. unfold absenceSection.
      specialize (Hall p Hp). by destruct (disabled _). }
    rewrite E2' in E2. injection E2 as <- <-. rewrite app_nil_r.
    constructor.
    + unfold absenceKinds. cbn. set_unfold. intuition discriminate.
    + by eapply part1_not_absence.
  - intros Hplan.
    assert (Hall : forall p, p ∈ Customer.products customer ->
              length (disabled (getFlagTests flagData testDefs customer p cfg)) = 0%nat).
    { intros p Hp.
      destruct (disabled (getFlagTests flagData testDefs customer p cfg)) as [|t ts] eqn:Hd;
        [done|].
      exfalso.
      assert (Hhead : absenceHeaderRow flagData p ∈ out2).
      { eapply part2_has_header; [exact Hp | by rewrite Hd | exact E2]. }
      apply Forall_cons in Hplan as [_ Hplan]. apply Forall_app in Hplan as [_ Hplan].
      apply (proj1 (Forall_forall _ _) Hplan) in Hhead. apply Hhead.
      unfold absenceKinds. cbn. set_unfold. tauto. }
    apply sum_list_zero in Hall. lia.
  - intros Hzero.
    assert (Hall : forall p, p ∈ Customer.products customer ->
              length (enabled (getFlagTests flagData testDefs customer p cfg)) = 0%nat).
    { apply sum_list_zero. lia. }
    constructor; [unfold flagKinds; cbn; set_unfold; intuition discriminate|].
    apply Forall_app. split.
    + unfold part1 in E1. revert E1. apply allRows_inSequence_in.
      intros s m m' o Hs Ho.
      apply list_elem_of_filter in Hs as [Happ _].
      assert (Hown : Scenario.product s ∈ Customer.products customer).
      { unfold scenarioApplies in Happ.
        destruct (decide (Scenario.product s ∈ Customer.products customer)); [done|].
        by rewrite bool_decide_eq_false_2 in Happ. }
      rewrite scenarioBlock_plain in Ho.
      * apply allRows_plainBlock in Ho. eapply Forall_impl; [exact Ho|].
        intros r Hr Hf. cbn beta in Hr. unfold flagKinds in Hf. set_unfold.
        intuition congruence.
      * unfold scenarioFlagTests. specialize (Hall _ Hown).
        by destruct (enabled _).
    + apply allRows_part2 in E2. eapply Forall_impl; [exact E2|].
      intros r Hr Hf. cbn beta in Hr. apply absenceRow_kinds in Hr.
      unfold flagKinds, absenceKinds in *. set_unfold. intuition congruence.
Qed.

End ZeroCounts.

Lemma stats_zero_counts_witness :
  exists plan,
    planRows Sample.flagData Sample.testDefs Sample.newco = Some plan
    /\ Forall (fun r => kind r ∉ absenceKinds) plan
    /\ Forall (fun r => kind r ∉ flagKinds) plan.
Proof.
  destruct (planRows Sample.flagData Sample.testDefs Sample.newco) as [plan|] eqn:H;
    [|vm_compute in H; discriminate].
  exists plan. split; [reflexivity|].
  destruct (stats_zero_counts Sample.flagData Sample.testDefs Sample.newco plan H)
    as [Hdis Hen].
  split; [apply Hdis | apply Hen]; vm_compute; reflexivity.
Defined.

(** ** The command line and [main] *)

Lemma indexOf_first (x : string) (args : list string) (i : nat) :
  indexOf x args = Some i
  <-> args !! i = Some x /\ forall j, (j < i)%nat -> args !! j <> Some x.
Proof.
  revert i. induction args as [|a args IH]; intros i; cbn [indexOf].
  - split; [done|]. by intros [? _].
  - case_bool_decide as Ha.
    + subst a. split.
      * intros [= <-]. split; [done|]. intros j Hj. lia.
      * intros [Hi Hfirst]. destruct i as [|i]; [done|].
        exfalso. by apply (Hfirst 0%nat); [lia|].
    + split.
      * intros H. destruct (indexOf x args) as [i'|] eqn:Hidx; [|done].
        injection H as <-. destruct (proj1 (IH i') eq_refl) as [Hi Hfirst].
        split; [done|]. intros [|j] Hj; cbn; [congruence|]. apply Hfirst. lia.
      * intros [Hi Hfirst]. destruct i as [|i]; [cbn in Hi; congruence|].
        cbn in Hi.
        assert (indexOf x args = Some i) as ->; [|done].
        apply IH. split; [done|]. intros j Hj. apply (Hfirst (S j)). lia.
Qed.

Lemma indexOf_none (x : string) (args : list string) :
  indexOf x args = None <-> x ∉ args.
Proof.
  induction args as [|a args IH]; cbn [indexOf].
  - split; [|done]. intros _. apply not_elem_of_nil.
  - case_bool_decide as Ha.
    + subst a. split; [done|]. intros H. exfalso. apply H. by left.
    + rewrite not_elem_of_cons. destruct (indexOf x args); [|by intuition].
      split; [done|]. intros [_ H]. by apply IH in H.
Qed.

(** X12.  The customer filter is the argument that follows the first
    [--customer], and only that one: there is no filter when [--customer]
    is absent, is the last argument, or is followed by the empty text; a
    later [--customer] is not looked at. *)
Theorem filterCustomer_first (args : list string) :
  match filterCustomer args with
  | Some k =>
      k <> EmptyString
      /\ exists i, args !! i = Some "--customer" /\ args !! S i = Some k
                   /\ forall j, (j < i)%nat -> args !! j <> Some "--customer"
  | None =>
      "--customer" ∉ args
      \/ exists i, args !! i = Some "--customer"
                   /\ (forall j, (j < i)%nat -> args !! j <> Some "--customer")
                   /\ (args !! S i = None \/ args !! S i = Some EmptyString)
  end.
Proof.
  unfold filterCustomer. destruct (indexOf "--customer" args) as [i|] eqn:Hidx.
  - apply indexOf_first in Hidx as [Hi Hfirst].
    destruct (args !! S i) as [[|c s]|] eqn:Hnext.
    + right. exists i. auto.
    + split; [done|]. by exists i.
    + right. exists i. auto.
  - left. by apply indexOf_none.
Qed.

Section MainLemmas.

Variable flagData : FlagData.t.
Variable testDefs : TestDefs.t.
Variables FLAG_DATA_PATH TEST_DEF_PATH OUTPUT_DIR : string.
Variable outputDirExists : bool.

Local Abbreviation generated :=
  (fun (c : Customer.t) (csv : string) => generateTestPlan flagData testDefs c = Some csv).

Lemma writes_app (a b : list event) : writes (a ++ b) = writes a ++ writes b.
Proof. apply omap_app. Qed.

(** The loop writes the plans of the customers up to the first one whose
    plan raises. *)
Lemma mainLoop_writes (customers : list Customer.t) (totalPlans : N) (trace : list event) :
  (exists plans trace',
     Forall2 generated customers plans
     /\ mainLoop flagData testDefs OUTPUT_DIR customers totalPlans trace
        = (trace', Some (totalPlans + N.of_nat (length customers))%N)
     /\ writes trace' = writes trace ++ zip (map planFileName customers) plans)
  \/ (exists before failing after plans trace',
        customers = before ++ failing :: after
        /\ Forall2 generated before plans
        /\ generateTestPlan flagData testDefs failing = None
        /\ mainLoop flagData testDefs OUTPUT_DIR customers totalPlans trace = (trace', None)
        /\ writes trace' = writes trace ++ zip (map planFileName before) plans).
Proof.
  revert totalPlans trace. induction customers as [|c customers IH]; intros totalPlans trace.
  - left. exists [], trace. split; [constructor|]. split.
    + cbn. f_equal. f_equal. lia.
    + cbn. by rewrite app_nil_r.
  - cbn [mainLoop]. destruct (generateTestPlan flagData testDefs c) as [csv|] eqn:Hc.
    + destruct (IH (N.succ totalPlans)
                  ((trace ++ [WriteFile OUTPUT_DIR (planFileName c) csv])
                   ++ [Out (planLogLine c csv (getTestPlanStats flagData testDefs c))]))
        as [(plans & trace' & Hall & Hloop & Hw)
           |(before & failing & after & plans & trace' & -> & Hall & Hfail & Hloop & Hw)].
      * left. exists (csv :: plans), trace'. split; [by constructor|]. split.
        -- rewrite Hloop. f_equal. f_equal. cbn [length]. lia.
        -- rewrite Hw, !writes_app. cbn. rewrite ?app_nil_r, <- ?app_assoc. done.
      * right. exists (c :: before), failing, after, (csv :: plans), trace'.
        split; [done|]. split; [by constructor|]. split; [done|]. split; [done|].
        rewrite Hw, !writes_app. cbn. rewrite ?app_nil_r, <- ?app_assoc. done.
    + right. exists [], c, customers, [], trace.
      split; [done|]. split; [constructor|]. split; [done|]. split; [done|].
      cbn. by rewrite app_nil_r.
Qed.

(** X13.  [main] leaves with code 1 and writes nothing when no customer is
    selected.  Otherwise it writes the plans of the selected customers in
    their order, each under the name made of the customer key; it returns
    when all plans are generated, and when the plan of a customer raises it
    stops there, the plans of the customers before that one being
    written. *)
Theorem main_writes (args : list string) :
  let selected := selectedCustomers flagData (filterCustomer args) in
  match main flagData testDefs FLAG_DATA_PATH TEST_DEF_PATH OUTPUT_DIR outputDirExists
          args with
  | (trace, Exit code) => code = 1%N /\ selected = [] /\ writes trace = []
  | (trace, Done) =>
      selected <> []
      /\ exists plans,
           Forall2 generated selected plans
           /\ writes trace = zip (map planFileName selected) plans
  | (trace, Raised) =>
      exists before failing after plans,
        selected = before ++ failing :: after
        /\ Forall2 generated before plans
        /\ generateTestPlan flagData testDefs failing = None
        /\ writes trace = zip (map planFileName before) plans
  end.
Proof.
  cbv zeta. unfold main.
  set (start := if outputDirExists then _ else _).
  assert (Hstart : writes start = []) by (unfold start; by destruct outputDirExists).
  destruct (selectedCustomers flagData (filterCustomer args)) as [|c cs] eqn:Hsel.
  - split; [done|]. split; [done|]. by rewrite writes_app, Hstart.
  - destruct (mainLoop_writes (c :: cs) 0%N start)
      as [(plans & trace' & Hall & -> & Hw)
         |(before & failing & after & plans & trace' & Heq & Hall & Hfail & -> & Hw)].
    + split; [done|]. exists plans. split; [done|].
      by rewrite writes_app, Hw, Hstart, app_nil_r.
    + exists before, failing, after, plans. by rewrite Hw, Hstart.
Qed.

End MainLemmas.

(** ** The shape of a scenario block *)

Lemma kindCount_all (k : rowKind) (rs : list Row) :
  Forall (fun r => kind r = k) rs -> kindCount k rs = length rs.
Proof.
  unfold kindCount. induction 1 as [|r rs Hr _ IH]; [done|].
  rewrite filter_cons, decide_True by done. cbn [length]. by rewrite IH.
Qed.

Lemma kindCount_other (k k' : rowKind) (rs : list Row) :
  k <> k' -> Forall (fun r => kind r = k) rs -> kindCount k' rs = 0%nat.
Proof.
  intros Hne H. apply kindCount_none. eapply Forall_impl; [exact H|].
  intros r Hr. cbn beta in Hr. congruence.
Qed.

(** Rows all of the kind [K] count for no other kind. *)
Ltac count_others K L :=
  repeat match goal with
         | |- context [kindCount ?k L] =>
             lazymatch k with
             | K => fail
             | _ => rewrite (kindCount_other K k L) by done
             end
         end.

Lemma inSequence_length {A : Type} (g : A -> Emitter) (each : A -> nat) (xs : list A)
    (n n' : N) (out : list Row) :
  (forall x m m' o, g x m = Some (m', o) -> length o = each x) ->
  inSequence g xs n = Some (n', out) -> length out = sum_list (map each xs).
Proof.
  intros Hg. revert n n' out. induction xs as [|x xs IH]; intros n n' out H; simpl in H.
  - by injection H as <- <-.
  - destruct (g x n) as [[n1 out1]|] eqn:H1; [|done].
    destruct (inSequence g xs n1) as [[n2 out2]|] eqn:H2; [|done].
    injection H as <- <-. rewrite length_app, (Hg _ _ _ _ H1), (IH _ _ _ H2). done.
Qed.

Lemma sum_ones {A : Type} (xs : list A) : sum_list (map (fun _ => 1%nat) xs) = length xs.
Proof. induction xs as [|x xs IH]; [done|]. cbn [map sum_list_with id length]. by rewrite IH. Qed.

Section BlockShape.

Variable flagData : FlagData.t.
Variable testDefs : TestDefs.t.

Lemma numbered_length (mk : N -> option Row) (n n' : N) (out : list Row) :
  numbered mk n = Some (n', out) -> length out = 1%nat.
Proof.
  unfold numbered. destruct (mk (N.succ n)); [|done]. by intros [= <- <-].
Qed.

Lemma stepRows_length k section ehr scenario steps n n' out :
  stepRows testDefs k section ehr scenario steps n = Some (n', out) ->
  length out = length steps.
Proof.
  intros H. unfold stepRows in H.
  rewrite (inSequence_length _ (fun _ => 1%nat) _ _ _ _
             (fun x m m' o => numbered_length _ m m' o) H).
  apply sum_ones.
Qed.

Lemma criterionRows_kind k section verdict ehr flagTest :
  allRows (fun r => kind r = k) (criterionRows testDefs k section verdict ehr flagTest).
Proof.
  apply allRows_inSequence. intros cr. apply allRows_numbered.
  intros n r H. by apply criterionRow_shown in H as (_ & ? & _).
Qed.

Lemma criterionRows_length k section verdict ehr flagTest n n' out :
  criterionRows testDefs k section verdict ehr flagTest n = Some (n', out) ->
  length out = length (criteria flagTest).
Proof.
  intros H. unfold criterionRows in H.
  rewrite (inSequence_length _ (fun _ => 1%nat) _ _ _ _
             (fun x m m' o => numbered_length _ m m' o) H).
  apply sum_ones.
Qed.

Lemma flagSection_shape ehr scenario tests n n' flags :
  flagSection testDefs ehr scenario tests n = Some (n', flags) ->
  kindCount KFlagHeader flags = match tests with [] => 0 | _ => 1 end%nat
  /\ kindCount KFlagStep flags = sum_list (map (fun t => length (criteria t)) tests)
  /\ length flags
     = (match tests with [] => 0 | _ => 1 end + sum_list (map (fun t => length (criteria t)) tests))%nat.
Proof.
  intros E3. unfold flagSection in E3. destruct tests as [|t tests'].
  - injection E3 as <- <-. by repeat split.
  - destruct (inSequence _ (t :: tests') n) as [[n6 body]|] eqn:E4; [|done].
    injection E3 as <- <-.
    assert (Kb : Forall (fun r => kind r = KFlagStep) body).
    { revert E4. apply allRows_inSequence. intros ft. apply criterionRows_kind. }
    assert (Lb : length body = sum_list (map (fun t => length (criteria t)) (t :: tests'))).
    { apply (inSequence_length _ _ _ _ _ _
               (fun x m m' o => criterionRows_length _ _ _ _ x m m' o) E4). }
    change (flagHeaderRow scenario :: body) with ([flagHeaderRow scenario] ++ body).
    rewrite !kindCount_app, (kindCount_other KFlagStep KFlagHeader body) by done.
    rewrite (kindCount_all KFlagStep body) by done.
    rewrite length_app, Lb. by repeat split.
Qed.

(** The counts of a block put together from its parts. *)
Lemma block_counts (header : Row) (patient setup core flags : list Row) :
  kind header = KScenarioHeader ->
  Forall (fun r => kind r = KPatientSetup) patient ->
  Forall (fun r => kind r = KSetupStep) setup ->
  Forall (fun r => kind r = KCoreStep) core ->
  Forall (fun r => kind r ∈ flagKinds) flags ->
  let out := header :: patient ++ setup ++ core ++ flags in
  kindCount KScenarioHeader out = 1%nat
  /\ kindCount KPatientSetup out = length patient
  /\ kindCount KSetupStep out = length setup
  /\ kindCount KCoreStep out = length core
  /\ kindCount KFlagHeader out = kindCount KFlagHeader flags
  /\ kindCount KFlagStep out = kindCount KFlagStep flags
  /\ length out = (1 + length patient + length setup + length core + length flags)%nat.
Proof.
  intros Kh Kp Ks Kc Kf. cbv zeta.
  assert (Kf' : forall k, k ∉ flagKinds -> kindCount k flags = 0%nat).
  { intros k Hk. apply kindCount_none. eapply Forall_impl; [exact Kf|].
    intros r Hr. cbn beta in Hr. congruence. }
  assert (Kh1 : kindCount KScenarioHeader [header] = 1%nat).
  { unfold kindCount. by rewrite filter_cons, decide_True. }
  assert (Kh0 : forall k, k <> KScenarioHeader -> kindCount k [header] = 0%nat).
  { intros k Hk. unfold kindCount. rewrite filter_cons, decide_False; [done | congruence]. }
  change (header :: patient ++ setup ++ core ++ flags)
    with ([header] ++ patient ++ setup ++ core ++ flags).
  rewrite !kindCount_app, !length_app, Kh1, !Kh0 by done.
  count_others KPatientSetup patient.
  count_others KSetupStep setup.
  count_others KCoreStep core.
  rewrite (kindCount_all _ patient), (kindCount_all _ setup), (kindCount_all _ core)
    by done.
  rewrite !Kf' by (unfold flagKinds; set_unfold; intuition discriminate).
  repeat split; cbn; lia.
Qed.

(** X6.  The block that a scenario adds to the plan has one header row,
    one patient row exactly when the scenario has a profile, one row for
    each setup step and one for each core step; when enabled flag tests are
    relevant it ends with one Flag Verification header and one row for each
    of their criteria, and otherwise it has no row of that section.  It has
    no other row. *)
Theorem scenario_block_shape (customer : Customer.t) (cfg : option CustomerConfig)
    (scenario : Scenario.t) (st st' : PlanState) :
  scenarioBody flagData testDefs customer cfg scenario st = Some st' ->
  let tests := scenarioFlagTests flagData testDefs scenario customer cfg in
  exists out,
    rows st' = rows st ++ out
    /\ kindCount KScenarioHeader out = 1%nat
    /\ kindCount KPatientSetup out
       = match Scenario.patientProfile scenario with Some _ => 1 | None => 0 end%nat
    /\ kindCount KSetupStep out = length (Scenario.setupSteps scenario)
    /\ kindCount KCoreStep out = length (Scenario.coreTestSteps scenario)
    /\ kindCount KFlagHeader out = match tests with [] => 0 | _ => 1 end%nat
    /\ kindCount KFlagStep out = sum_list (map (fun t => length (criteria t)) tests)
    /\ length out
       = (1 + match Scenario.patientProfile scenario with Some _ => 1 | None => 0 end
          + length (Scenario.setupSteps scenario)
          + length (Scenario.coreTestSteps scenario)
          + match tests with [] => 0 | _ => 1 end
          + sum_list (map (fun t => length (criteria t)) tests))%nat.
Proof.
  cbv zeta. rewrite emits_scenarioBody.
  destruct (scenarioBlock _ _ _ _ _ (stepNum st)) as [[n' out]|] eqn:H; [|done].
  intros [= <-]. exists out. split; [done|].
  unfold scenarioBlock in H. cbv zeta in H.
  set (tests := scenarioFlagTests flagData testDefs scenario customer cfg) in *.
  destruct (Scenario.patientProfile scenario) as [p|];
    (destruct (stepRows _ KSetupStep _ _ _ _ _) as [[n3 setup]|] eqn:E1; [|done]);
    (destruct (stepRows _ KCoreStep _ _ _ _ n3) as [[n4 core]|] eqn:E2; [|done]);
    (destruct (flagSection _ _ _ _ n4) as [[n5 flags]|] eqn:E3; [|done]);
    injection H as <- <-;
    pose proof (stepRows_kind testDefs _ _ _ _ _ _ _ _ E1) as Ks;
    pose proof (stepRows_kind testDefs _ _ _ _ _ _ _ _ E2) as Kc;
    pose proof (stepRows_length _ _ _ _ _ _ _ _ E1) as Ls;
    pose proof (stepRows_length _ _ _ _ _ _ _ _ E2) as Lc;
    pose proof (flagSection_kinds testDefs _ _ _ _ _ _ E3) as Kf;
    destruct (flagSection_shape _ _ _ _ _ _ E3) as (Hfh & Hfs & Lf).
  - destruct (block_counts (scenarioHeaderRow scenario) [patientSetupRow scenario p]
                setup core flags) as (H1 & H2 & H3 & H4 & H5 & H6 & H7);
      [done | by repeat constructor | done | done | done |].
    cbn [app] in *. rewrite H1, H2, H3, H4, H5, H6, H7, Hfh, Hfs, Lf, Ls, Lc.
    repeat split; cbn [length]; lia.
  - destruct (block_counts (scenarioHeaderRow scenario) [] setup core flags)
      as (H1 & H2 & H3 & H4 & H5 & H6 & H7); [done | done | done | done | done |].
    cbn [app] in *. rewrite H1, H2, H3, H4, H5, H6, H7, Hfh, Hfs, Lf, Ls, Lc.
    repeat split; cbn [length]; lia.
Qed.

End BlockShape.

Lemma scenario_block_shape_witness :
  exists st' out,
    scenarioBody Sample.flagData Sample.testDefs Sample.medstar
      (Some (<["sepsis" := Sample.sepsisBlock]> ∅)) Sample.sepsisEd (mkState 0 [])
    = Some st'
    /\ rows st' = out
    /\ kindCount KPatientSetup out = 1%nat
    /\ kindCount KFlagStep out = 1%nat
    /\ length out = 6%nat.
Proof.
  destruct (scenarioBody Sample.flagData Sample.testDefs Sample.medstar
              (Some (<["sepsis" := Sample.sepsisBlock]> ∅)) Sample.sepsisEd (mkState 0 []))
    as [st'|] eqn:H; [|vm_compute in H; discriminate].
  destruct (scenario_block_shape Sample.flagData Sample.testDefs Sample.medstar _
              Sample.sepsisEd _ st' H)
    as (out & Hrows & _ & Hp & _ & _ & _ & Hf & Hlen).
  exists st', out. split; [reflexivity|]. split; [exact Hrows|].
  split; [exact Hp|]. split; [exact Hf|]. exact Hlen.
Defined.

(** X14.  The profile resolver touches nothing but profile tokens: a text
    that holds none of the seven tokens is returned as it is, whatever the
    profile; and for a scenario without a profile every profile token of a
    template is taken out, the EHR tokens being left for the other
    resolver. *)
Theorem profile_resolver_edges (scenario : Scenario.t) :
  (forall text, hasProfileToken text = false -> resolveTemplateVars text scenario = text)
  /\ (Scenario.patientProfile scenario = None ->
      forall segs, wellFormed segs = true ->
        resolveTemplateVars (templateText segs) scenario = render profileErased segs).
Proof.
  split.
  - intros text. apply resolveTemplateVars_absent.
  - intros Hnone segs. by apply resolveTemplateVars_no_profile.
Qed.

Lemma profile_resolver_edges_witness :
  resolveTemplateVars "Open the {flowsheet}" Sample.sepsisEd = "Open the {flowsheet}"
  /\ resolveTemplateVars "Ask about {chiefComplaint} in the {flowsheet}" Sample.triageReview
     = "Ask about  in the {flowsheet}".
Proof.
  destruct (profile_resolver_edges Sample.sepsisEd) as [Hkeep _].
  destruct (profile_resolver_edges Sample.triageReview) as [_ Hnone].
  split.
  - apply Hkeep. vm_compute. reflexivity.
  - apply (Hnone eq_refl [Lit "Ask about "; Tok TChiefComplaint; Lit " in the ";
                          Tok TFlowsheet]).
    vm_compute. reflexivity.
Defined.

(** ** The role label *)

Lemma csvEscape_text_empty (s : string) :
  csvEscape (VStr s) = EmptyString <-> s = EmptyString.
Proof.
  unfold csvEscape. cbn [toStr].
  destruct (_ || _) eqn:E; [|done].
  split.
  - unfold Str.single. cbn [String.append]. intros [=].
  - intros ->. vm_compute in E. discriminate E.
Qed.

(** X15.  For a role key that is not a name every object inherits: a step
    without a role key, or with an empty one, shows two dashes in the User
    cell; a key without a role in the test definitions is shown as it is;
    and the cell is written empty exactly when the role is defined with no
    label or with an empty one. *)
Theorem roleLabel_blank (testDefs : TestDefs.t) (roleKey : option string) :
  (forall key, roleKey = Some key -> key ∉ inheritedNames) ->
  (roleKey = None \/ roleKey = Some EmptyString ->
   roleLabel testDefs roleKey = VStr "--")
  /\ (forall key, roleKey = Some key -> key <> EmptyString ->
                  TestDefs.roles testDefs !! key = None ->
                  roleLabel testDefs roleKey = VStr key)
  /\ (csvEscape (roleLabel testDefs roleKey) = EmptyString
      <-> exists key role,
            roleKey = Some key /\ key <> EmptyString
            /\ TestDefs.roles testDefs !! key = Some role
            /\ (Role.label role = None \/ Role.label role = Some EmptyString)).
Proof.
  intros _. split; [|split].
  - by intros [-> | ->].
  - intros key -> Hkey Hnone. unfold roleLabel. rewrite Hnone. by destruct key.
  - unfold roleLabel. destruct roleKey as [[|c key]|].
    + split; [done | by intros (k & r & [= <-] & Hk & _)].
    + destruct (TestDefs.roles testDefs !! String c key) as [role|] eqn:Hrole.
      * destruct (Role.label role) as [l|] eqn:Hl.
        -- rewrite csvEscape_text_empty. split.
           ++ intros ->. exists (String c key), role. repeat split; try done. by right.
           ++ intros (k & r & [= <-] & _ & Hr & Hlab). rewrite Hrole in Hr.
              injection Hr as <-. rewrite Hl in Hlab. by destruct Hlab as [|[= ->]].
        -- split; [|done]. intros _. exists (String c key), role.
           repeat split; try done. by left.
      * rewrite csvEscape_text_empty. split; [done|].
        intros (k & r & [= <-] & _ & Hr & _). by rewrite Hrole in Hr.
    + split; [done | by intros (k & r & [= ] & _)].
Qed.

Lemma roleLabel_blank_witness :
  roleLabel Sample.testDefs (Some "md") = VStr "md"
  /\ csvEscape (roleLabel Sample.testDefs (Some "rn")) <> EmptyString.
Proof.
  assert (Hkey : forall k : string, k = "md" \/ k = "rn" -> k ∉ inheritedNames).
  { intros k [-> | ->] H; vm_compute in H; set_unfold; intuition discriminate. }
  split.
  - apply (proj1 (proj2 (roleLabel_blank Sample.testDefs (Some "md")
                           (fun key H => Hkey key (or_introl (eq_sym (Some_inj _ _ H)))))));
      [reflexivity | discriminate | reflexivity].
  - intros Hblank.
    apply (proj2 (proj2 (roleLabel_blank Sample.testDefs (Some "rn")
                           (fun key H => Hkey key (or_intror (eq_sym (Some_inj _ _ H)))))))
      in Hblank.
    destruct Hblank as (key & role & [= <-] & _ & Hrole & Hlabel).
    vm_compute in Hrole. injection Hrole as <-.
    destruct Hlabel as [H | H]; discriminate H.
Defined.
